(** * File Comparison Tool: a shallow embedding of the services, the results
      panel and the workflow controller, with the properties of the
      specification stated and proved over it.

    Layout of the development:
    - [Py]           : strings, decimal rendering, exceptions and the
                       effect monad shared by every component;
    - [Pandas]       : the fragment of the dataframe library the services use;
    - [PerformanceOptimizer], [ComparisonEngine] : the comparison services;
    - [FileParserService], [ExportService], [ErrorHandler] : the other services;
    - [ResultsPanel], [MainController] : pagination and workflow state;
    - the theorems, one section per component. *)

From stdpp Require Import gmap strings.
From Stdlib Require Import ZArith List String Ascii Bool Lia Permutation.
From Stdlib Require Import PrimFloat Uint63 DecimalString.
Import ListNotations.

Set Warnings "-inexact-float,-abstract-large-number".
Local Open Scope string_scope.
Local Open Scope list_scope.

(* ===================================================================== *)
(** * Python-level preliminaries                                          *)
(* ===================================================================== *)

Module Py.

(** ** Strings.  A Python [str] is modelled by a byte string.  [lower] is
    [str.lower] on ASCII text ([is_ascii]); Python also folds letters
    outside ASCII, which [lower] leaves as they are, so a statement that
    depends on how a text is folded assumes that the text is ASCII. *)

Definition lower_ascii (c : ascii) : ascii :=
  let n := nat_of_ascii c in
  if (65 <=? n)%nat && (n <=? 90)%nat then ascii_of_nat (n + 32) else c.

Fixpoint lower (s : string) : string :=
  match s with
  | EmptyString => EmptyString
  | String c s' => String (lower_ascii c) (lower s')
  end.

(** Every character of the text is an ASCII one. *)
Fixpoint is_ascii (s : string) : bool :=
  match s with
  | EmptyString => true
  | String c s' => (nat_of_ascii c <? 128)%nat && is_ascii s'
  end.

(** [needle in hay] on strings. *)
Fixpoint contains (needle hay : string) : bool :=
  String.prefix needle hay ||
  match hay with
  | EmptyString => false
  | String _ hay' => contains needle hay'
  end.

(** [x in xs] for a list of strings. *)
Definition mem_str (x : string) (xs : list string) : bool :=
  List.existsb (String.eqb x) xs.

(** [str(n)] for integers. *)
Definition str_nat (n : nat) : string := NilZero.string_of_uint (Nat.to_uint n).
Definition str_Z (z : Z) : string := NilZero.string_of_int (Z.to_int z).

(** [float(z)] for an integer: the nearest binary64 number, ties going to
    the even mantissa.  It is an integer again. *)
Definition round_double (z : Z) : Z :=
  let a := Z.abs z in
  let n := (Z.log2 a + 1)%Z in                       (* a.bit_length() *)
  if (n <=? 53)%Z then z
  else
    let shift := (n - 53)%Z in
    let q := Z.shiftr a shift in
    let r := (a mod 2 ^ shift)%Z in
    let half := (2 ^ (shift - 1))%Z in
    let q := if (half <? r)%Z || ((r =? half)%Z && Z.odd q) then (q + 1)%Z else q in
    (Z.sgn z * Z.shiftl q shift)%Z.

(** The digits of [repr] of a float with the integral value [a],
    [2^53 <= a]: the decimal with the fewest significant digits that still
    reads back as [a], the nearest to [a] when there are several.  The
    result is that decimal as an integer; [n] significant digits are tried
    for [n = nd, nd + 1, ...].  Distances to the two neighbours of [a] are
    compared after multiplication by four, which keeps them integral. *)
Fixpoint shortest_decimal (fuel : nat) (nd : Z) (a : Z) : Z :=
  match fuel with
  | O => a
  | S fuel' =>
      let k := Z.of_nat (String.length (str_Z a)) in
      if (k <=? nd)%Z then a
      else
        let shift := (Z.log2 a + 1 - 53)%Z in
        let m := Z.shiftr a shift in
        let hi := (2 * 2 ^ shift)%Z in
        let lo := if (m =? 2 ^ 52)%Z then (2 ^ shift)%Z else hi in
        let inside (c : Z) : bool :=
          if Z.even m
          then (4 * a - lo <=? 4 * c)%Z && (4 * c <=? 4 * a + hi)%Z
          else (4 * a - lo <? 4 * c)%Z && (4 * c <? 4 * a + hi)%Z in
        let s := (10 ^ (k - nd))%Z in
        let c_lo := (a / s * s)%Z in
        let c_hi := (c_lo + s)%Z in
        match inside c_lo, inside c_hi with
        | true, true =>
            if (a - c_lo <? c_hi - a)%Z then c_lo
            else if (c_hi - a <? a - c_lo)%Z then c_hi
            else if Z.even (a / s) then c_lo else c_hi
        | true, false => c_lo
        | false, true => c_hi
        | false, false => shortest_decimal fuel' (nd + 1)%Z a
        end
  end.

Fixpoint strip_zeros (rev_digits : list ascii) : list ascii :=
  match rev_digits with
  | "0"%char :: rest => strip_zeros rest
  | _ => rev_digits
  end.

(** [str(float(z))]: the digits followed by [.0] below [10^16], and
    [d.ddde+XX] from there on (for [z] within the range of a float). *)
Definition str_float (z : Z) : string :=
  let v := round_double z in
  let a := Z.abs v in
  let sign := if (v <? 0)%Z then "-" else "" in
  if (a <? 10 ^ 16)%Z then sign +:+ str_Z a +:+ ".0"
  else
    let ds := str_Z (shortest_decimal 17 1 a) in
    let decpt := Z.of_nat (String.length ds) in
    match rev (strip_zeros (rev (list_ascii_of_string ds))) with
    | [] => sign +:+ ds +:+ ".0"
    | d :: [] => sign +:+ String d "e+" +:+ str_Z (decpt - 1)
    | d :: rest =>
        sign +:+ String d ("." +:+ string_of_list_ascii rest) +:+ "e+" +:+ str_Z (decpt - 1)
    end.

(** [f"{n:,}"]: decimal digits grouped by three from the right. *)
Fixpoint group3 (rev_digits : list ascii) : list ascii :=
  match rev_digits with
  | a :: b :: c :: ((_ :: _) as rest) => a :: b :: c :: ","%char :: group3 rest
  | _ => rev_digits
  end.

Definition str_nat_grouped (n : nat) : string :=
  string_of_list_ascii (rev (group3 (rev (list_ascii_of_string (str_nat n))))).

(** ** Exceptions.  An exception is its class and its message ([str(e)]). *)

Inductive exn_class :=
  | Exception | InterruptedError | ValueError | KeyError | ZeroDivisionError
  | TypeError | MemoryError | OSError | PermissionError | FileNotFoundError
  | FileExistsError | UnicodeDecodeError | ParserError | TclError
  (* services.file_parser_service *)
  | ParserFileParsingError | UnsupportedFileFormatError
  (* models.exceptions *)
  | FileComparisonError | FileParsingError | InvalidFileFormatError
  | ComparisonOperationError | ExportError | ValidationError.

Record exn := mk_exn { exn_cls : exn_class; exn_msg : string }.

Definition exn_class_eqb (a b : exn_class) : bool :=
  match a, b with
  | Exception, Exception | InterruptedError, InterruptedError
  | ValueError, ValueError | KeyError, KeyError
  | ZeroDivisionError, ZeroDivisionError | TypeError, TypeError
  | MemoryError, MemoryError | OSError, OSError
  | PermissionError, PermissionError | FileNotFoundError, FileNotFoundError
  | FileExistsError, FileExistsError | UnicodeDecodeError, UnicodeDecodeError
  | ParserError, ParserError | TclError, TclError
  | ParserFileParsingError, ParserFileParsingError
  | UnsupportedFileFormatError, UnsupportedFileFormatError
  | FileComparisonError, FileComparisonError
  | FileParsingError, FileParsingError
  | InvalidFileFormatError, InvalidFileFormatError
  | ComparisonOperationError, ComparisonOperationError
  | ExportError, ExportError | ValidationError, ValidationError => true
  | _, _ => false
  end.

(** The direct base class, [None] for [Exception] itself. *)
Definition base_class (c : exn_class) : option exn_class :=
  match c with
  | Exception => None
  | InterruptedError | PermissionError | FileNotFoundError | FileExistsError => Some OSError
  | UnicodeDecodeError => Some ValueError
  | ParserError => Some ValueError
  | UnsupportedFileFormatError => Some ParserFileParsingError
  | FileParsingError | InvalidFileFormatError | ComparisonOperationError
  | ExportError | ValidationError => Some FileComparisonError
  | _ => Some Exception
  end.

(** [isinstance(e, cls)]: walk up the (depth at most three) class chain. *)
Definition isinstance (e : exn) (cls : exn_class) : bool :=
  let c0 := exn_cls e in
  exn_class_eqb c0 cls ||
  match base_class c0 with
  | None => false
  | Some c1 =>
      exn_class_eqb c1 cls ||
      match base_class c1 with
      | None => false
      | Some c2 =>
          exn_class_eqb c2 cls ||
          match base_class c2 with
          | None => false
          | Some c3 => exn_class_eqb c3 cls
          end
      end
  end.

(** ** Effects.  A computation returns a value or raises, and leaves a
    trace of the observable calls it made (progress notifications, dialog
    boxes, file-system writes, ...), in program order. *)

Inductive result (A : Type) :=
  | Ok (a : A)
  | Raise (e : exn).
Arguments Ok {A} a.
Arguments Raise {A} e.

Definition M (E A : Type) : Type := (list E * result A)%type.

Definition ret {E A} (a : A) : M E A := ([], Ok a).
Definition raise {E A} (e : exn) : M E A := ([], Raise e).
Definition emit {E} (ev : E) : M E unit := ([ev], Ok tt).

Definition bind {E A B} (m : M E A) (k : A -> M E B) : M E B :=
  match m with
  | (tr, Ok a) => let '(tr', r) := k a in (tr ++ tr', r)
  | (tr, Raise e) => (tr, Raise e)
  end.

(** [try: m except Exception as e: h e] *)
Definition try_except {E A} (m : M E A) (h : exn -> M E A) : M E A :=
  match m with
  | (tr, Ok a) => (tr, Ok a)
  | (tr, Raise e) => let '(tr', r) := h e in (tr ++ tr', r)
  end.

Definition trace {E A} (m : M E A) : list E := fst m.
Definition outcome {E A} (m : M E A) : result A := snd m.

End Py.

Export Py.

Declare Scope py_scope.
Delimit Scope py_scope with py.
Notation "'let*' x ':=' m 'in' k" := (bind m (fun x => k))
  (at level 10, x name, m at level 100, k at level 200) : py_scope.
Notation "'do!' m 'in' k" := (bind m (fun _ => k))
  (at level 10, m at level 100, k at level 200) : py_scope.
Local Open Scope py_scope.


(* ===================================================================== *)
(** * The dataframe library, as far as the services use it              *)
(* ===================================================================== *)

Module Pandas.

(** A cell is a missing value ([NaN]/[None]), a string or a whole number.
    Whether a number is held as an integer or as a float is said by the
    dtype of its column: in a [float64] column [Int z] stands for the float
    [z.0], in any other column for the integer [z].  Row labels (the index)
    are not part of the model: every statement below is about cell contents
    and row order. *)
Inductive cell :=
  | NaN
  | Str (s : string)
  | Int (z : Z).

(** Equality as [isin] and Python sets see it: equal strings, equal
    numbers, and a missing value matches a missing value. *)
Definition cell_eqb (a b : cell) : bool :=
  match a, b with
  | NaN, NaN => true
  | Str s, Str t => String.eqb s t
  | Int x, Int y => Z.eqb x y
  | _, _ => false
  end.

Definition isna (c : cell) : bool :=
  match c with NaN => true | _ => false end.
Definition notna (c : cell) : bool := negb (isna c).

(** [x in values] *)
Fixpoint mem_cell (x : cell) (values : list cell) : bool :=
  match values with
  | [] => false
  | y :: rest => if cell_eqb x y then true else mem_cell x rest
  end.

(** [set(values)]: one representative of every value.  A Python set has
    no order; only membership and cardinality are observed. *)
Fixpoint to_set (values : list cell) : list cell :=
  match values with
  | [] => []
  | x :: rest => if mem_cell x rest then to_set rest else x :: to_set rest
  end.

(** A dtype is known to the services only through its name [str(dtype)]
    and through comparisons with a name: ["object"], ["string"],
    ["category"], ["int64"], ["float64"], ["datetime64[ns]"], ["bool"]. *)
Definition dtype := string.

Record Series := mk_series { s_dtype : dtype; s_values : list cell }.

Definition row := list cell.

Record DataFrame := mk_df {
  df_columns : list (string * dtype);   (* name and dtype, in column order *)
  df_rows : list row
}.

Definition columns (df : DataFrame) : list string := map fst (df_columns df).
(** [len(df)], a Python integer. *)
Definition len (df : DataFrame) : Z := Z.of_nat (List.length (df_rows df)).

(** [df.empty]: no rows or no columns. *)
Definition empty (df : DataFrame) : bool :=
  match df_rows df, df_columns df with
  | [], _ | _, [] => true
  | _, _ => false
  end.

(** Position of a column name. *)
Fixpoint col_index (cols : list (string * dtype)) (col : string) : option nat :=
  match cols with
  | [] => None
  | (name, _) :: rest =>
      if String.eqb name col then Some 0%nat
      else option_map S (col_index rest col)
  end.

(** [col in df.columns] *)
Definition has_column (df : DataFrame) (col : string) : bool :=
  match col_index (df_columns df) col with Some _ => true | None => false end.

Definition cell_at (i : nat) (r : row) : cell := nth i r NaN.

(** The column [col] as a series, when the frame has it. *)
Definition column (df : DataFrame) (col : string) : option Series :=
  match col_index (df_columns df) col with
  | Some i =>
      Some (mk_series (snd (nth i (df_columns df) (col, "object")))
                      (map (cell_at i) (df_rows df)))
  | None => None
  end.

(** [df[col]]: raises [KeyError] for an unknown column. *)
Definition getitem {E} (df : DataFrame) (col : string) : M E Series :=
  match column df col with
  | Some s => ret s
  | None => raise (mk_exn KeyError col)
  end.

(** [df[mask]]: the rows whose mask entry is true. *)
Fixpoint select {A} (mask : list bool) (l : list A) : list A :=
  match mask, l with
  | b :: mask', x :: l' => if b then x :: select mask' l' else select mask' l'
  | _, _ => []
  end.

Definition boolean_index (df : DataFrame) (mask : list bool) : DataFrame :=
  mk_df (df_columns df) (select mask (df_rows df)).

(** [~mask] *)
Definition invert (mask : list bool) : list bool := map negb mask.

(** [df.iloc[start:stop]] for [0 <= start] (a negative bound would count
    from the end; the callers never pass one). *)
Definition iloc (df : DataFrame) (start stop : Z) : DataFrame :=
  mk_df (df_columns df)
        (firstn (Z.to_nat (stop - start)) (skipn (Z.to_nat start) (df_rows df))).

(** ** Series operations *)

Definition dropna (s : Series) : Series :=
  mk_series (s_dtype s) (List.filter notna (s_values s)).

(** [s.isna().all()] *)
Definition isna_all (s : Series) : bool := forallb isna (s_values s).

(** [s.isin(values)] *)
Definition isin (s : Series) (values : list cell) : list bool :=
  map (fun c => mem_cell c values) (s_values s).

(** [s.nunique()]: distinct non-missing values. *)
Definition nunique (s : Series) : Z :=
  Z.of_nat (List.length (to_set (s_values (dropna s)))).

Definition is_int_dtype (dt : dtype) : bool := String.eqb dt "int64".
Definition is_float_dtype (dt : dtype) : bool := String.eqb dt "float64".
Definition is_bool_dtype (dt : dtype) : bool := String.eqb dt "bool".

(** [str(x)] of a cell; a missing value prints as [nan] in an object
    column and as [<NA>] in a [string] column, a number of a [float64]
    column as a float. *)
Definition str_of_cell (dt : dtype) (c : cell) : string :=
  match c with
  | NaN => if String.eqb dt "string" then "<NA>" else "nan"
  | Str s => s
  | Int z => if is_float_dtype dt then str_float z else str_Z z
  end.

(** [s.astype(str)] *)
Definition astype_str (s : Series) : Series :=
  mk_series "object" (map (fun c => Str (str_of_cell (s_dtype s) c)) (s_values s)).

(** [s.str.lower()]: a non-string element yields a missing value. *)
Definition str_lower (s : Series) : Series :=
  mk_series (s_dtype s)
    (map (fun c => match c with Str x => Str (lower x) | _ => NaN end) (s_values s)).

(** ** Frame updates *)

Fixpoint set_nth {A} (i : nat) (x : A) (l : list A) : list A :=
  match i, l with
  | O, _ :: l' => x :: l'
  | S i', y :: l' => y :: set_nth i' x l'
  | _, [] => []
  end.

(** [df[col] = df[col].astype('category')]: only the dtype changes. *)
Definition astype_category (df : DataFrame) (col : string) : DataFrame :=
  match col_index (df_columns df) col with
  | Some i => mk_df (set_nth i (col, "category") (df_columns df)) (df_rows df)
  | None => df
  end.

(** [df[col] = value] with a scalar: overwrite the column when it exists,
    append it otherwise. *)
Definition setitem_scalar (df : DataFrame) (col : string) (value : cell) : DataFrame :=
  match col_index (df_columns df) col with
  | Some i =>
      mk_df (set_nth i (col, "object") (df_columns df))
            (map (set_nth i value) (df_rows df))
  | None =>
      mk_df (df_columns df ++ [(col, "object")])
            (map (fun r => r ++ [value]) (df_rows df))
  end.

(** [pd.concat(frames, ignore_index=True)]: the columns are the union of
    the frames' columns in order of first appearance; each row is
    re-aligned to them, a column the row's frame lacks reading as
    missing. *)
Fixpoint union_columns (acc : list (string * dtype)) (cols : list (string * dtype))
  : list (string * dtype) :=
  match cols with
  | [] => acc
  | (name, dt) :: rest =>
      match col_index acc name with
      | Some _ => union_columns acc rest
      | None => union_columns (acc ++ [(name, dt)]) rest
      end
  end.

(** The dtype of a column of the result, for the dtypes named above.  The
    frames that have the column agree on a common dtype: their own when it
    is the same everywhere (two [category] columns being taken to have the
    same categories), [float64] for a mix of [int64] and [float64],
    [object] for any other mix.  When a frame lacks the column, the result
    must hold missing values: [int64] becomes [float64] and [bool] becomes
    [object]. *)
Definition find_common_type (dtypes : list dtype) : dtype :=
  match dtypes with
  | [] => "object"
  | dt :: rest =>
      if forallb (String.eqb dt) rest then dt
      else if forallb (fun d => is_int_dtype d || is_float_dtype d) dtypes then "float64"
      else "object"
  end.

Definition ensure_dtype_can_hold_na (dt : dtype) : dtype :=
  if is_int_dtype dt then "float64"
  else if is_bool_dtype dt then "object"
  else dt.

Definition dtype_of (df : DataFrame) (name : string) : option dtype :=
  match col_index (df_columns df) name with
  | Some i => Some (snd (nth i (df_columns df) (name, "object")))
  | None => None
  end.

Definition concat_dtype (frames : list DataFrame) (name : string) : dtype :=
  let present :=
    flat_map (fun df => match dtype_of df name with Some dt => [dt] | None => [] end)
             frames in
  let common := find_common_type present in
  if forallb (fun df => has_column df name) frames then common
  else ensure_dtype_can_hold_na common.

(** A cell moved to a column of another dtype: an integer that lands in a
    [float64] column becomes the nearest float. *)
Definition cast_cell (from to : dtype) (c : cell) : cell :=
  if String.eqb from to then c
  else match c with
       | Int z => if is_float_dtype to then Int (round_double z) else c
       | _ => c
       end.

Definition align (target : list (string * dtype)) (df : DataFrame) : list row :=
  map (fun r =>
         map (fun nd => match col_index (df_columns df) (fst nd) with
                        | Some i =>
                            cast_cell (snd (nth i (df_columns df) (fst nd, "object")))
                                      (snd nd) (cell_at i r)
                        | None => NaN
                        end) target)
      (df_rows df).

(** [sum(df.shape) > 0]: the frame has a row or a column. *)
Definition has_shape (df : DataFrame) : bool :=
  match df_rows df, df_columns df with
  | [], [] => false
  | _, _ => true
  end.

(** Frames with neither rows nor columns are left out, unless all are. *)
Definition concat (frames : list DataFrame) : DataFrame :=
  let frames :=
    match List.filter has_shape frames with
    | [] => frames
    | non_empties => non_empties
    end in
  let names := fold_left (fun acc df => union_columns acc (df_columns df)) frames [] in
  let cols := map (fun nd => (fst nd, concat_dtype frames (fst nd))) names in
  mk_df cols (flat_map (align cols) frames).

(** [pd.concat] refuses an empty list of frames. *)
Definition pd_concat {E} (frames : list DataFrame) : M E DataFrame :=
  match frames with
  | [] => raise (mk_exn ValueError "No objects to concatenate")
  | _ :: _ => ret (concat frames)
  end.

End Pandas.

Export Pandas.

(* ===================================================================== *)
(** * services/performance_optimizer.py                                   *)
(* ===================================================================== *)

(** A progress notification [progress_callback(percent, message)].  The
    percentage is a literal of the source or, inside the chunk loop, the
    quotient [(i / total_chunks) * 100]. *)
Inductive percent :=
  | Pct (z : Z)
  | PctOfChunks (i : nat) (total_chunks : Z).

Inductive progress_event :=
  | Progress (p : percent) (message : string).

(** [progress_callback] is an optional callable: [true] when one was
    supplied.  [notify] is the guarded call
    [if progress_callback: progress_callback(p, message)]. *)
Definition notify (progress_callback : bool) (p : percent) (message : string)
  : M progress_event unit :=
  if progress_callback then emit (Progress p message) else ret tt.

Module ChunkedProcessor.

Record t := mk {
  chunk_size : Z;
  max_memory_mb : Z
}.

(** [ChunkedProcessor()] *)
Definition __init__ : t := mk 10000 500.

(** [_chunk_dataframe]: [df.iloc[i:i + chunk_size]] for
    [i in range(0, len(df), chunk_size)]; [n] bounds the number of chunks. *)
Fixpoint chunk_rows (n : nat) (size : nat) (rows : list row) : list (list row) :=
  match n with
  | O => []
  | S n' =>
      match rows with
      | [] => []
      | _ :: _ => firstn size rows :: chunk_rows n' size (skipn size rows)
      end
  end.

Definition _chunk_dataframe (self : t) (df : DataFrame) : M progress_event (list DataFrame) :=
  if (chunk_size self =? 0)%Z
  then raise (mk_exn ValueError "range() arg 3 must not be zero")
  else if (chunk_size self <? 0)%Z then ret []   (* an empty range *)
  else ret (map (mk_df (df_columns df))
                (chunk_rows (List.length (df_rows df)) (Z.to_nat (chunk_size self))
                            (df_rows df))).

(** The loop body of [process_dataframe_chunks] over the enumerated chunks. *)
Fixpoint process_chunks (process_func : DataFrame -> M progress_event DataFrame)
    (progress_callback : bool) (total_chunks : Z) (i : nat) (chunks : list DataFrame)
  : M progress_event (list DataFrame) :=
  match chunks with
  | [] => ret []
  | chunk :: rest =>
      do! notify progress_callback (PctOfChunks i total_chunks)
            ("Processing chunk " +:+ str_nat (i + 1) +:+ " of " +:+ str_Z total_chunks +:+ "...") in
      let* processed_chunk := process_func chunk in
      let* processed_rest :=
        process_chunks process_func progress_callback total_chunks (S i) rest in
      ret (processed_chunk :: processed_rest)
  end.

Definition process_dataframe_chunks (self : t) (df : DataFrame)
    (process_func : DataFrame -> M progress_event DataFrame)
    (progress_callback : bool) : M progress_event DataFrame :=
  if (len df <=? chunk_size self)%Z then
    (* Small dataset, process directly *)
    do! notify progress_callback (Pct 0) "Processing data..." in
    let* result := process_func df in
    do! notify progress_callback (Pct 100) "Processing complete" in
    ret result
  else if (chunk_size self =? 0)%Z then
    (* total_chunks = (len(df) + chunk_size - 1) // chunk_size *)
    raise (mk_exn ZeroDivisionError "integer division or modulo by zero")
  else
    let total_chunks := ((len df + chunk_size self - 1) / chunk_size self)%Z in
    let* chunks := _chunk_dataframe self df in
    let* processed_chunks :=
      process_chunks process_func progress_callback total_chunks 0 chunks in
    do! notify progress_callback (Pct 95) "Combining results..." in
    let* result := pd_concat processed_chunks in
    do! notify progress_callback (Pct 100) "Processing complete" in
    ret result.

End ChunkedProcessor.

Module PerformanceOptimizer.

Record t := mk { chunked_processor : ChunkedProcessor.t }.

Definition __init__ : t := mk ChunkedProcessor.__init__.

(** One step of the loop of [_optimize_dataframe] over [important_columns]:
    an [object] column whose ratio of distinct values to rows is below one
    half becomes categorical.  [nunique / len < 0.5] is decided on the
    integers as [2 * nunique < len]; the quotient raises on an empty frame. *)
Definition optimize_column (df_opt : DataFrame) (col : string)
  : M progress_event DataFrame :=
  match column df_opt col with
  | Some s =>
      if String.eqb (s_dtype s) "object" then
        if (len df_opt =? 0)%Z
        then raise (mk_exn ZeroDivisionError "division by zero")
        else if (2 * nunique s <? len df_opt)%Z
             then ret (astype_category df_opt col)
             else ret df_opt
      else ret df_opt
  | None => ret df_opt
  end.

Fixpoint _optimize_dataframe (df : DataFrame) (important_columns : list string)
  : M progress_event DataFrame :=
  match important_columns with
  | [] => ret df
  | col :: rest =>
      let* df_opt := optimize_column df col in
      _optimize_dataframe df_opt rest
  end.

Definition _create_optimized_lookup (df : DataFrame) (col : string)
    (case_sensitive : bool) : M progress_event (list cell) :=
  let* s := getitem df col in
  let values := dropna s in
  let values :=
    if negb case_sensitive && String.eqb (s_dtype values) "object"
    then str_lower (astype_str values) else values in
  ret (to_set (s_values values)).

(** [df[col].astype(str).str.lower() if df[col].dtype == 'object' else df[col]] *)
Definition lowered_if_object (s : Series) : Series :=
  if String.eqb (s_dtype s) "object" then str_lower (astype_str s) else s.

(** The source writes the masking code twice, once for the whole frame
    and once as the [process_chunk] closure; it is the same code, stated
    once here and applied to the frame or to each chunk. *)
Definition _optimized_remove_matches (self : t) (df : DataFrame) (col : string)
    (lookup_set : list cell) (case_sensitive use_chunked progress_callback : bool)
  : M progress_event DataFrame :=
  let process_chunk chunk :=
    let* s := getitem chunk col in
    let mask :=
      if case_sensitive then invert (isin s lookup_set)
      else invert (isin (lowered_if_object s) lookup_set) in
    ret (boolean_index chunk mask) in
  if negb use_chunked then process_chunk df
  else ChunkedProcessor.process_dataframe_chunks
         (chunked_processor self) df process_chunk progress_callback.

Definition _optimized_keep_matches (self : t) (df : DataFrame) (col : string)
    (lookup_set : list cell) (case_sensitive use_chunked progress_callback : bool)
  : M progress_event DataFrame :=
  let process_chunk chunk :=
    let* s := getitem chunk col in
    let mask :=
      if case_sensitive then isin s lookup_set
      else isin (lowered_if_object s) lookup_set in
    ret (boolean_index chunk mask) in
  if negb use_chunked then process_chunk df
  else ChunkedProcessor.process_dataframe_chunks
         (chunked_processor self) df process_chunk progress_callback.

(** [set(df2[col2].dropna())], case-folded like the lookup set. *)
Definition second_set (df2 : DataFrame) (col2 : string) (case_sensitive : bool)
  : M progress_event (list cell) :=
  let* s2 := getitem df2 col2 in
  let df2_values := dropna s2 in
  let df2_values :=
    if negb case_sensitive && String.eqb (s_dtype df2_values) "object"
    then str_lower (astype_str df2_values) else df2_values in
  ret (to_set (s_values df2_values)).

(** Rows of both frames whose key is in [wanted1] resp. [wanted2], tagged
    with their source file and concatenated. *)
Definition tagged_rows (df1 df2 : DataFrame) (col1 col2 : string)
    (wanted1 wanted2 : list cell) (case_sensitive : bool)
  : M progress_event DataFrame :=
  let* s1 := getitem df1 col1 in
  let* s2 := getitem df2 col2 in
  let df1_values := if case_sensitive then s1 else lowered_if_object s1 in
  let df2_values := if case_sensitive then s2 else lowered_if_object s2 in
  let df1_part := boolean_index df1 (isin df1_values wanted1) in
  let df2_part := boolean_index df2 (isin df2_values wanted2) in
  let df1_part := setitem_scalar df1_part "_source_file" (Str "file1") in
  let df2_part := setitem_scalar df2_part "_source_file" (Str "file2") in
  ret (concat [df1_part; df2_part]).

Definition intersection (a b : list cell) : list cell :=
  List.filter (fun x => mem_cell x b) a.
Definition difference (a b : list cell) : list cell :=
  List.filter (fun x => negb (mem_cell x b)) a.

Definition _optimized_find_common (self : t) (df1 df2 : DataFrame)
    (col1 col2 : string) (lookup_set : list cell)
    (case_sensitive use_chunked progress_callback : bool)
  : M progress_event DataFrame :=
  let* df2_set := second_set df2 col2 case_sensitive in
  let common_values := intersection lookup_set df2_set in
  tagged_rows df1 df2 col1 col2 common_values common_values case_sensitive.

Definition _optimized_find_unique (self : t) (df1 df2 : DataFrame)
    (col1 col2 : string) (lookup_set : list cell)
    (case_sensitive use_chunked progress_callback : bool)
  : M progress_event DataFrame :=
  let* df2_set := second_set df2 col2 case_sensitive in
  let unique_to_df1 := difference lookup_set df2_set in
  let unique_to_df2 := difference df2_set lookup_set in
  tagged_rows df1 df2 col1 col2 unique_to_df1 unique_to_df2 case_sensitive.

(** The memory monitor started and stopped around the body only samples
    the process and has no part in the result. *)
Definition optimize_comparison_operation (self : t) (df1 df2 : DataFrame)
    (col1 col2 operation : string) (case_sensitive progress_callback : bool)
  : M progress_event DataFrame :=
  let total_rows := (len df1 + len df2)%Z in
  let use_chunked := (50000 <? total_rows)%Z in
  do! notify progress_callback (Pct 5) "Preparing data for comparison..." in
  let* df1_opt := _optimize_dataframe df1 [col1] in
  let* df2_opt := _optimize_dataframe df2 [col2] in
  do! notify progress_callback (Pct 15) "Optimizing comparison columns..." in
  let* lookup_set := _create_optimized_lookup df1_opt col1 case_sensitive in
  do! notify progress_callback (Pct 25) ("Performing " +:+ operation +:+ " operation...") in
  let* result :=
    if String.eqb operation "remove_matches" then
      _optimized_remove_matches self df2_opt col2 lookup_set case_sensitive
        use_chunked progress_callback
    else if String.eqb operation "keep_matches" then
      _optimized_keep_matches self df2_opt col2 lookup_set case_sensitive
        use_chunked progress_callback
    else if String.eqb operation "find_common" then
      _optimized_find_common self df1_opt df2_opt col1 col2 lookup_set
        case_sensitive use_chunked progress_callback
    else if String.eqb operation "find_unique" then
      _optimized_find_unique self df1_opt df2_opt col1 col2 lookup_set
        case_sensitive use_chunked progress_callback
    else raise (mk_exn ValueError ("Unknown operation: " +:+ operation)) in
  do! notify progress_callback (Pct 95) "Finalizing results..." in
  do! notify progress_callback (Pct 100) "Operation completed" in
  ret result.

(** ** [estimate_processing_time], on binary64 floats as in Python. *)

(** A Python number: [base_rate] is an [int] until a float factor is
    applied to it. *)
Inductive number :=
  | PyInt (z : Z)
  | PyFloat (f : float).

(** [float(n)] for [0 <= n < 2^63]. *)
Definition float_of_Z (z : Z) : float := PrimFloat.of_uint63 (Uint63.of_Z z).

Definition to_float (x : number) : float :=
  match x with PyInt z => float_of_Z z | PyFloat f => f end.

(** [x *= f] *)
Definition imul (x : number) (f : float) : number :=
  PyFloat (to_float x * f)%float.

(** [n / x]; for integers below [2^53] the true division of two integers
    is the float quotient of their conversions. *)
Definition truediv (n : Z) (x : number) : float :=
  (float_of_Z n / to_float x)%float.

(** [max(a, b)] returns [a] unless [b > a]. *)
Definition py_max (a b : float) : float :=
  if (a <? b)%float then b else a.

Definition base_rates : list (string * Z) :=
  [("remove_matches", 100000%Z); ("keep_matches", 100000%Z);
   ("find_common", 80000%Z); ("find_unique", 80000%Z)].

(** [d.get(key, default)] *)
Fixpoint dict_get (d : list (string * Z)) (key : string) (default : Z) : Z :=
  match d with
  | [] => default
  | (k, v) :: rest => if String.eqb k key then v else dict_get rest key default
  end.

Definition estimate_processing_time (self : t) (df1 df2 : DataFrame)
    (operation : string) : float :=
  let total_rows := (len df1 + len df2)%Z in
  let base_rate := PyInt (dict_get base_rates operation 50000) in
  let base_rate :=
    if (100000 <? total_rows)%Z then imul base_rate 0.8 else base_rate in
  let base_rate :=
    if (500000 <? total_rows)%Z then imul base_rate 0.6 else base_rate in
  let estimated_time := truediv total_rows base_rate in
  py_max 1.0 estimated_time.

End PerformanceOptimizer.

(* ===================================================================== *)
(** * models/data_models.py and services/comparison_engine.py             *)
(* ===================================================================== *)

(** [OperationResult].  The wall-clock [processing_time] is left out: it
    is a difference of two readings of the system clock, taken to be
    non-negative, and no statement below depends on it.  Row counts are
    lengths, so the non-negativity check of [__post_init__] cannot fail. *)
Record OperationResult := mk_result {
  result_data : DataFrame;
  original_count : Z;
  result_count : Z;
  operation_type : string;
  summary : string
}.

Module ComparisonEngine.

Record t := mk {
  supported_operations : list string;
  performance_optimizer : PerformanceOptimizer.t;
  cancelled : bool
}.

Definition __init__ : t :=
  mk ["remove_matches"; "keep_matches"; "find_common"; "find_unique"]
     PerformanceOptimizer.__init__ false.

Definition numeric_types : list string :=
  ["int64"; "int32"; "float64"; "float32"; "number"].
Definition string_types : list string := ["object"; "string"].
Definition datetime_types : list string := ["datetime64[ns]"; "datetime"].

Definition get_type_group (dt : dtype) : string :=
  if List.existsb (fun t => contains t dt) numeric_types then "numeric"
  else if List.existsb (fun t => contains t dt) datetime_types then "datetime"
  else "string".

Definition validate_column_compatibility (self : t) (df1 df2 : DataFrame)
    (col1 col2 : string) : bool * string :=
  match column df1 col1 with
  | None => (false, "Column '" +:+ col1 +:+ "' not found in first file")
  | Some s1 =>
  match column df2 col2 with
  | None => (false, "Column '" +:+ col2 +:+ "' not found in second file")
  | Some s2 =>
      let dtype1 := s_dtype s1 in
      let dtype2 := s_dtype s2 in
      if (0 <? len df1)%Z && isna_all s1 then
        (false, "Column '" +:+ col1 +:+ "' in first file contains only null values")
      else if (0 <? len df2)%Z && isna_all s2 then
        (false, "Column '" +:+ col2 +:+ "' in second file contains only null values")
      else
        let type_group1 := get_type_group dtype1 in
        let type_group2 := get_type_group dtype2 in
        if negb (String.eqb type_group1 type_group2) then
          (false, "Incompatible column types: '" +:+ col1 +:+ "' is " +:+ type_group1
                  +:+ " but '" +:+ col2 +:+ "' is " +:+ type_group2)
        else (true, "Columns are compatible")
  end end.

(** [s.dtype == 'object' or str(s.dtype) == 'string'] *)
Definition is_string_like (s : Series) : bool :=
  String.eqb (s_dtype s) "object" || String.eqb (s_dtype s) "string".

Definition _prepare_comparison_values (self : t) (df1 df2 : DataFrame)
    (col1 col2 : string) (case_sensitive : bool)
  : M progress_event (list cell * list cell) :=
  let* s1 := getitem df1 col1 in
  let* s2 := getitem df2 col2 in
  let values1 := dropna s1 in
  let values2 := dropna s2 in
  let values1 :=
    if negb case_sensitive && is_string_like values1
    then str_lower (astype_str values1) else values1 in
  let values2 :=
    if negb case_sensitive && is_string_like values2
    then str_lower (astype_str values2) else values2 in
  ret (to_set (s_values values1), to_set (s_values values2)).

(** The membership test of the direct path of [remove_matches] and
    [keep_only_matches], before it is negated or not: [df2[col2].isin(df1[col1])],
    both sides lower-cased when the comparison is case-insensitive and the
    column of [df2] is string-like. *)
Definition membership_mask (s1 s2 : Series) (case_sensitive : bool) : list bool :=
  if case_sensitive then isin s2 (s_values s1)
  else if is_string_like s2 then
    let df2_lower := str_lower (astype_str s2) in
    let df1_lower := str_lower (astype_str s1) in
    isin df2_lower (s_values df1_lower)
  else isin s2 (s_values s1).

Definition match_mask (df1 df2 : DataFrame) (col1 col2 : string)
    (case_sensitive : bool) : M progress_event (list bool) :=
  let* s2 := getitem df2 col2 in
  let* s1 := getitem df1 col1 in
  ret (membership_mask s1 s2 case_sensitive).

Definition remove_matches (self : t) (df1 df2 : DataFrame) (col1 col2 : string)
    (case_sensitive progress_callback : bool) : M progress_event OperationResult :=
  let original_count := len df2 in
  (* Check for cancellation *)
  if cancelled self then raise (mk_exn InterruptedError "Operation was cancelled") else
  (* Validate column compatibility *)
  let '(is_compatible, error_msg) := validate_column_compatibility self df1 df2 col1 col2 in
  if negb is_compatible
  then raise (mk_exn ValueError ("Column compatibility error: " +:+ error_msg)) else
  let total_rows := (len df1 + len df2)%Z in
  let* result_df :=
    if (10000 <? total_rows)%Z && progress_callback then
      PerformanceOptimizer.optimize_comparison_operation (performance_optimizer self)
        df1 df2 col1 col2 "remove_matches" case_sensitive progress_callback
    else
      do! notify progress_callback (Pct 25) "Preparing comparison values..." in
      let* _values := _prepare_comparison_values self df1 df2 col1 col2 case_sensitive in
      do! notify progress_callback (Pct 50) "Removing matching rows..." in
      let* m := match_mask df1 df2 col1 col2 case_sensitive in
      let result_df := boolean_index df2 (invert m) in
      do! notify progress_callback (Pct 90) "Finalizing results..." in
      ret result_df in
  let result_count := len result_df in
  let summary := "Removed " +:+ str_Z (original_count - result_count)
                 +:+ " matching rows. Result contains " +:+ str_Z result_count +:+ " rows." in
  ret (mk_result result_df original_count result_count "remove_matches" summary).

Definition keep_only_matches (self : t) (df1 df2 : DataFrame) (col1 col2 : string)
    (case_sensitive progress_callback : bool) : M progress_event OperationResult :=
  let original_count := len df2 in
  if cancelled self then raise (mk_exn InterruptedError "Operation was cancelled") else
  let '(is_compatible, error_msg) := validate_column_compatibility self df1 df2 col1 col2 in
  if negb is_compatible
  then raise (mk_exn ValueError ("Column compatibility error: " +:+ error_msg)) else
  let total_rows := (len df1 + len df2)%Z in
  let* result_df :=
    if (10000 <? total_rows)%Z && progress_callback then
      PerformanceOptimizer.optimize_comparison_operation (performance_optimizer self)
        df1 df2 col1 col2 "keep_matches" case_sensitive progress_callback
    else
      do! notify progress_callback (Pct 25) "Preparing comparison..." in
      let* m := match_mask df1 df2 col1 col2 case_sensitive in
      do! notify progress_callback (Pct 75) "Filtering matching rows..." in
      ret (boolean_index df2 m) in
  let result_count := len result_df in
  let summary := "Kept " +:+ str_Z result_count +:+ " matching rows from "
                 +:+ str_Z original_count +:+ " total rows. Removed "
                 +:+ str_Z (original_count - result_count) +:+ " non-matching rows." in
  ret (mk_result result_df original_count result_count "keep_only_matches" summary).

(** [df[df[col].isin(wanted)]] as [find_common_values] and
    [find_unique_values] write it: on the lower-cased column when the
    comparison is case-insensitive and the column is string-like. *)
Definition rows_with (df : DataFrame) (col : string) (wanted : list cell)
    (case_sensitive : bool) : M progress_event DataFrame :=
  let* s := getitem df col in
  if case_sensitive then ret (boolean_index df (isin s wanted))
  else if is_string_like s then
    let df_lower := str_lower (astype_str s) in
    ret (boolean_index df (isin df_lower wanted))
  else ret (boolean_index df (isin s wanted)).

Definition find_common_values (self : t) (df1 df2 : DataFrame) (col1 col2 : string)
    (case_sensitive progress_callback : bool) : M progress_event OperationResult :=
  let original_count := (len df1 + len df2)%Z in
  let '(is_compatible, error_msg) := validate_column_compatibility self df1 df2 col1 col2 in
  if negb is_compatible
  then raise (mk_exn ValueError ("Column compatibility error: " +:+ error_msg)) else
  let* values := _prepare_comparison_values self df1 df2 col1 col2 case_sensitive in
  let '(values1, values2) := values in
  let common_values := PerformanceOptimizer.intersection values1 values2 in
  let* df1_common := rows_with df1 col1 common_values case_sensitive in
  let* df2_common := rows_with df2 col2 common_values case_sensitive in
  let df1_common := setitem_scalar df1_common "_source_file" (Str "file1") in
  let df2_common := setitem_scalar df2_common "_source_file" (Str "file2") in
  let* result_df := pd_concat [df1_common; df2_common] in
  let result_count := len result_df in
  let summary := "Found " +:+ str_nat (List.length common_values)
                 +:+ " common values. Result contains " +:+ str_Z result_count
                 +:+ " rows from both files." in
  ret (mk_result result_df original_count result_count "find_common_values" summary).

Definition find_unique_values (self : t) (df1 df2 : DataFrame) (col1 col2 : string)
    (case_sensitive progress_callback : bool) : M progress_event OperationResult :=
  let original_count := (len df1 + len df2)%Z in
  let '(is_compatible, error_msg) := validate_column_compatibility self df1 df2 col1 col2 in
  if negb is_compatible
  then raise (mk_exn ValueError ("Column compatibility error: " +:+ error_msg)) else
  let* values := _prepare_comparison_values self df1 df2 col1 col2 case_sensitive in
  let '(values1, values2) := values in
  let unique_to_df1 := PerformanceOptimizer.difference values1 values2 in
  let unique_to_df2 := PerformanceOptimizer.difference values2 values1 in
  let* df1_unique := rows_with df1 col1 unique_to_df1 case_sensitive in
  let* df2_unique := rows_with df2 col2 unique_to_df2 case_sensitive in
  let df1_unique := setitem_scalar df1_unique "_source_file" (Str "file1") in
  let df2_unique := setitem_scalar df2_unique "_source_file" (Str "file2") in
  let* result_df := pd_concat [df1_unique; df2_unique] in
  let result_count := len result_df in
  let summary := "Found " +:+ str_nat (List.length unique_to_df1)
                 +:+ " values unique to file1 and " +:+ str_nat (List.length unique_to_df2)
                 +:+ " values unique to file2. Result contains " +:+ str_Z result_count
                 +:+ " rows." in
  ret (mk_result result_df original_count result_count "find_unique_values" summary).

(** The optimizer has no [cancel_operation]/[reset_cancellation] of its
    own, so the [hasattr] branches do nothing. *)
Definition cancel_operation (self : t) : t :=
  mk (supported_operations self) (performance_optimizer self) true.

Definition reset_cancellation (self : t) : t :=
  mk (supported_operations self) (performance_optimizer self) false.

Definition estimate_processing_time (self : t) (df1 df2 : DataFrame)
    (operation : string) : float :=
  PerformanceOptimizer.estimate_processing_time (performance_optimizer self)
    df1 df2 operation.

End ComparisonEngine.

(* ===================================================================== *)
(** * pathlib (POSIX flavour)                                             *)
(* ===================================================================== *)

Module Pathlib.

(** A parsed path: its root (empty, ["/"] or ["//"]) and its components,
    with empty and ["."] components dropped, as [PurePosixPath] does. *)
Record PurePath := mk { root : string; parts : list string }.

(** Split at every ['/']. *)
Fixpoint split_slash (s : string) (cur : string) : list string :=
  match s with
  | EmptyString => [cur]
  | String c s' =>
      if Ascii.eqb c "/"%char then cur :: split_slash s' EmptyString
      else split_slash s' (cur +:+ String c EmptyString)
  end.

Definition Path (s : string) : PurePath :=
  let r :=
    if String.prefix "//" s && negb (String.prefix "///" s) then "//"
    else if String.prefix "/" s then "/" else "" in
  mk r (List.filter (fun c => negb (String.eqb c "" || String.eqb c "."))
                    (split_slash s EmptyString)).

(** [p.name]: the last component. *)
Definition name (p : PurePath) : string := last (parts p) "".

(** [s.rfind(c)] *)
Fixpoint rfind (c : ascii) (s : string) : option nat :=
  match s with
  | EmptyString => None
  | String a s' =>
      match rfind c s' with
      | Some i => Some (S i)
      | None => if Ascii.eqb a c then Some 0%nat else None
      end
  end.

(** [p.suffix]: from the last dot of the name on, unless the name starts
    or ends with that dot. *)
Definition suffix (p : PurePath) : string :=
  let n := name p in
  match rfind "."%char n with
  | Some i =>
      if (0 <? i)%nat && (i <? String.length n - 1)%nat
      then substring i (String.length n - i) n
      else ""
  | None => ""
  end.

(** [p.parent] *)
Definition parent (p : PurePath) : PurePath := mk (root p) (removelast (parts p)).

(** [str(p)] *)
Definition str (p : PurePath) : string :=
  match parts p with
  | [] => if String.eqb (root p) "" then "." else root p
  | _ :: _ => root p +:+ String.concat "/" (parts p)
  end.

End Pathlib.

(* ===================================================================== *)
(** * services/file_parser_service.py                                     *)
(* ===================================================================== *)

Module FileParserService.

(** The outside world of the parser: the file system test, the two
    readers of the dataframe library (a reader returns a table or raises),
    and the order in which this run of the interpreter iterates over the
    set [SUPPORTED_EXTENSIONS], some arrangement of its three elements. *)
Record Env := mk_env {
  os_path_exists : string -> bool;
  (* pd.read_csv(file_path, encoding=..., on_bad_lines=...) *)
  read_csv : string -> string -> string -> result DataFrame;
  (* pd.read_excel(file_path, sheet_name=0) *)
  read_excel : string -> Z -> result DataFrame;
  (* list(SUPPORTED_EXTENSIONS) *)
  iter_SUPPORTED_EXTENSIONS : list string
}.

(** The calls made to the readers, in order. *)
Inductive io_event :=
  | ReadCsv (file_path encoding on_bad_lines : string)
  | ReadExcel (file_path : string) (sheet_name : Z).

Record t := mk { _encoding_fallbacks : list string }.

(** The set [{'.csv', '.xlsx', '.xls'}], used for membership. *)
Definition SUPPORTED_EXTENSIONS : list string := [".csv"; ".xlsx"; ".xls"].

Definition __init__ : t := mk ["utf-8"; "latin-1"; "cp1252"; "iso-8859-1"].

Definition file_extension (file_path : string) : string :=
  lower (Pathlib.suffix (Pathlib.Path file_path)).

(** The message lists [SUPPORTED_EXTENSIONS], a Python set, in its
    iteration order, which differs from run to run. *)
Definition validate_file_format (env : Env) (self : t) (file_path : string)
  : M io_event bool :=
  if negb (os_path_exists env file_path)
  then raise (mk_exn FileNotFoundError ("File not found: " +:+ file_path))
  else
    if negb (mem_str (file_extension file_path) SUPPORTED_EXTENSIONS)
    then raise (mk_exn UnsupportedFileFormatError
                  ("Unsupported file format: " +:+ file_extension file_path
                   +:+ ". Supported formats: "
                   +:+ String.concat ", " (iter_SUPPORTED_EXTENSIONS env)))
    else ret true.

(** [str(last_error)] *)
Definition str_last_error (last_error : option exn) : string :=
  match last_error with Some e => exn_msg e | None => "None" end.

(** The [for encoding in self._encoding_fallbacks] loop of [_parse_csv],
    with the loop variable [last_error]. *)
Fixpoint parse_csv_loop (env : Env) (file_path : string) (encodings : list string)
    (last_error : option exn) : M io_event DataFrame :=
  match encodings with
  | [] =>
      raise (mk_exn ParserFileParsingError
               ("Failed to parse CSV file with any supported encoding. Last error: "
                +:+ str_last_error last_error))
  | encoding :: rest =>
      let attempt : M io_event DataFrame :=
        do! emit (ReadCsv file_path encoding "skip") in
        let* df := ([], read_csv env file_path encoding "skip") in
        if empty df
        then raise (mk_exn ParserFileParsingError
                      "CSV file is empty or contains no valid data")
        else ret df in
      match attempt with
      | (tr, Ok df) => (tr, Ok df)
      | (tr, Raise e) =>
          if isinstance e UnicodeDecodeError then
            (* except UnicodeDecodeError: last_error = e; continue *)
            let '(tr', r) := parse_csv_loop env file_path rest (Some e) in
            (tr ++ tr', r)
          else
            (* except Exception *)
            (tr, Raise (mk_exn ParserFileParsingError
                          ("Failed to parse CSV file: " +:+ exn_msg e)))
      end
  end.

Definition _parse_csv (env : Env) (self : t) (file_path : string)
  : M io_event DataFrame :=
  parse_csv_loop env file_path (_encoding_fallbacks self) None.

Definition _parse_excel (env : Env) (self : t) (file_path : string)
  : M io_event DataFrame :=
  try_except
    (do! emit (ReadExcel file_path 0) in
     let* df := ([], read_excel env file_path 0) in
     if empty df
     then raise (mk_exn ParserFileParsingError
                   "Excel file is empty or contains no valid data")
     else ret df)
    (fun e => raise (mk_exn ParserFileParsingError
                       ("Failed to parse Excel file: " +:+ exn_msg e))).

Definition parse_file (env : Env) (self : t) (file_path : string)
  : M io_event DataFrame :=
  do! validate_file_format env self file_path in
  let ext := file_extension file_path in
  try_except
    (if String.eqb ext ".csv" then _parse_csv env self file_path
     else if mem_str ext [".xlsx"; ".xls"] then _parse_excel env self file_path
     else raise (mk_exn UnsupportedFileFormatError
                   ("Unsupported file format: " +:+ ext)))
    (fun e =>
       if isinstance e UnsupportedFileFormatError || isinstance e ParserFileParsingError
       then raise e
       else raise (mk_exn ParserFileParsingError
                     ("Failed to parse file " +:+ file_path +:+ ": " +:+ exn_msg e))).

End FileParserService.

(* ===================================================================== *)
(** * services/export_service.py                                          *)
(* ===================================================================== *)

Module ExportService.

(** The file system as the service sees it: an abstract state [fs], the
    queries [Path.exists] and [os.access(_, os.W_OK)], and the three
    mutating calls, each returning the new state and the exception it
    raised, if any. *)
Record OS (fs : Type) := mk_os {
  path_exists : fs -> Pathlib.PurePath -> bool;
  access_w : fs -> Pathlib.PurePath -> bool;
  (* p.mkdir(parents=True, exist_ok=True) *)
  mkdir : fs -> Pathlib.PurePath -> fs * option exn;
  (* data.to_csv(file_path, **kwargs) *)
  to_csv : fs -> DataFrame -> string -> list (string * string) -> fs * option exn;
  (* data.to_excel(file_path, **kwargs) *)
  to_excel : fs -> DataFrame -> string -> list (string * string) -> fs * option exn
}.
Arguments path_exists {fs}.
Arguments access_w {fs}.
Arguments mkdir {fs}.
Arguments to_csv {fs}.
Arguments to_excel {fs}.

(** The mutating calls issued, in order. *)
Inductive fs_event :=
  | Mkdir (p : Pathlib.PurePath)
  | ToCsv (file_path : string) (data : DataFrame) (kwargs : list (string * string))
  | ToExcel (file_path : string) (data : DataFrame) (kwargs : list (string * string)).

Record t := mk { supported_formats : list string }.

Definition __init__ : t := mk ["csv"; "excel"].

(** Run a mutating call: log it, then return the new state or raise. *)
Definition call {fs} (ev : fs_event) (r : fs * option exn) : M fs_event fs :=
  do! emit ev in
  match r with
  | (s, None) => ret s
  | (_, Some e) => raise e
  end.

(** [{**defaults, **kwargs}] *)
Definition dict_merge (defaults kwargs : list (string * string)) : list (string * string) :=
  List.filter (fun kv => negb (mem_str (fst kv) (map fst kwargs))) defaults ++ kwargs.

Definition validate_file_path {fs} (os : OS fs) (self : t) (s : fs) (file_path : string)
  : M fs_event fs :=
  if String.eqb file_path ""
  then raise (mk_exn ValueError "File path must be a non-empty string")
  else
    let path := Pathlib.Path file_path in
    let parent_dir := Pathlib.parent path in
    (* Check if parent directory exists or can be created *)
    let* s :=
      if negb (path_exists os s parent_dir) then
        try_except
          (call (Mkdir parent_dir) (mkdir os s parent_dir))
          (fun e =>
             if isinstance e PermissionError
             then raise (mk_exn PermissionError
                         ("Cannot create directory: " +:+ Pathlib.str parent_dir))
             else raise e)
      else ret s in
    (* Check write permissions on parent directory *)
    if negb (access_w os s parent_dir)
    then raise (mk_exn PermissionError
                  ("No write permission for directory: " +:+ Pathlib.str parent_dir))
    else
      (* If file exists, check if it's writable *)
      if path_exists os s path && negb (access_w os s path)
      then raise (mk_exn PermissionError ("No write permission for file: " +:+ file_path))
      else ret s.

Definition _validate_export_inputs {fs} (os : OS fs) (self : t) (s : fs)
    (data : DataFrame) (file_path format_type : string) : M fs_event fs :=
  if empty data then raise (mk_exn ValueError "Cannot export empty DataFrame")
  else if negb (mem_str format_type (supported_formats self))
  then raise (mk_exn ValueError ("Unsupported format: " +:+ format_type))
  else
    (* Validate file path *)
    let* s := validate_file_path os self s file_path in
    (* Validate file extension matches format *)
    let path := Pathlib.Path file_path in
    if String.eqb format_type "csv"
       && negb (mem_str (lower (Pathlib.suffix path)) [".csv"])
    then raise (mk_exn ValueError "CSV format requires .csv file extension")
    else if String.eqb format_type "excel"
            && negb (mem_str (lower (Pathlib.suffix path)) [".xlsx"; ".xls"])
    then raise (mk_exn ValueError "Excel format requires .xlsx or .xls file extension")
    else ret s.

Definition _ensure_directory_exists {fs} (os : OS fs) (self : t) (s : fs)
    (file_path : string) : M fs_event fs :=
  let directory := Pathlib.parent (Pathlib.Path file_path) in
  call (Mkdir directory) (mkdir os s directory).

Definition export_to_csv {fs} (os : OS fs) (self : t) (s : fs) (data : DataFrame)
    (file_path : string) (kwargs : list (string * string)) : M fs_event (fs * bool) :=
  try_except
    ((* Validate inputs *)
     let* s := _validate_export_inputs os self s data file_path "csv" in
     (* Ensure directory exists *)
     let* s := _ensure_directory_exists os self s file_path in
     let csv_kwargs := dict_merge [("index", "False"); ("encoding", "utf-8")] kwargs in
     (* Export to CSV *)
     let* s := call (ToCsv file_path data csv_kwargs) (to_csv os s data file_path csv_kwargs) in
     ret (s, true))
    (fun e => raise (mk_exn Exception ("Failed to export CSV file: " +:+ exn_msg e))).

Definition export_to_excel {fs} (os : OS fs) (self : t) (s : fs) (data : DataFrame)
    (file_path : string) (kwargs : list (string * string)) : M fs_event (fs * bool) :=
  try_except
    (let* s := _validate_export_inputs os self s data file_path "excel" in
     let* s := _ensure_directory_exists os self s file_path in
     let excel_kwargs := dict_merge [("index", "False"); ("engine", "openpyxl")] kwargs in
     let* s := call (ToExcel file_path data excel_kwargs)
                    (to_excel os s data file_path excel_kwargs) in
     ret (s, true))
    (fun e => raise (mk_exn Exception ("Failed to export Excel file: " +:+ exn_msg e))).

Definition export_result {fs} (os : OS fs) (self : t) (s : fs)
    (operation_result : OperationResult) (file_path format_type : string)
    (kwargs : list (string * string)) : M fs_event (fs * bool) :=
  if String.eqb (lower format_type) "csv"
  then export_to_csv os self s (result_data operation_result) file_path kwargs
  else if String.eqb (lower format_type) "excel"
  then export_to_excel os self s (result_data operation_result) file_path kwargs
  else raise (mk_exn ValueError
                ("Unsupported format: " +:+ format_type +:+ ". Must be 'csv' or 'excel'")).

End ExportService.

(* ===================================================================== *)
(** * services/error_handler.py                                           *)
(* ===================================================================== *)

Module ErrorHandler.

Inductive ErrorSeverity := INFO | WARNING | ERROR | CRITICAL.

Inductive ErrorCategory :=
  | FILE_OPERATION | DATA_PROCESSING | VALIDATION | EXPORT | SYSTEM | GUI.

(** What the user and the log see, in order. *)
Inductive ui_event :=
  | LogInfo (text : string)
  | LogError (error : exn) (context : string)      (* _log_error *)
  | LogWarning (text : string)
  | LogCritical (text : string)
  | ShowError (title message : string)             (* messagebox.showerror *)
  | ShowWarning (title message : string)           (* messagebox.showwarning *)
  | ShowInfo (title message : string)              (* messagebox.showinfo *)
  | AskYesNo (title message : string).             (* messagebox.askyesno *)

(** What one call of the retry callback does. *)
Inductive callback_outcome :=
  | Returns (truthy : bool)
  | Raises (e : exn).

(** The handler.  The two message tables and their pattern matching are
    kept as functions of the handler: the retry logic hands their text to
    the dialogs and never inspects it. *)
Record t := mk {
  retry_counts : gmap string Z;
  max_retries : Z;
  _generate_user_message : exn -> string -> string;
  _get_recovery_suggestions : exn -> string
}.

Definition __init__ (messages : exn -> string -> string) (suggestions : exn -> string) : t :=
  mk ∅ 3 messages suggestions.

Definition set_retry_count (self : t) (context : string) (n : Z) : t :=
  mk (<[context := n]> (retry_counts self)) (max_retries self)
     (_generate_user_message self) (_get_recovery_suggestions self).

(** The part of the world the dialogs talk to: the [k]-th yes/no question
    gets the answer [answers k], the [k]-th call of the retry callback
    does [callback k]; the two counters say how many of each happened. *)
Record World := mk_world {
  answers : nat -> bool;
  callback : nat -> callback_outcome;
  asked : nat;
  called : nat;
  shown : list ui_event
}.

Definition show (w : World) (ev : ui_event) : World :=
  mk_world (answers w) (callback w) (asked w) (called w) (shown w ++ [ev]).

(** [messagebox.askyesno(title, message)] *)
Definition askyesno (w : World) (title message : string) : World * bool :=
  (mk_world (answers w) (callback w) (S (asked w)) (called w)
            (shown w ++ [AskYesNo title message]),
   answers w (asked w)).

(** [retry_callback()] *)
Definition call_retry (w : World) : World * callback_outcome :=
  (mk_world (answers w) (callback w) (asked w) (S (called w)) (shown w),
   callback w (called w)).

Definition _categorize_error (error : exn) : ErrorCategory * ErrorSeverity :=
  if isinstance error FileParsingError then (FILE_OPERATION, ERROR)
  else if isinstance error InvalidFileFormatError then (FILE_OPERATION, WARNING)
  else if isinstance error ComparisonOperationError then (DATA_PROCESSING, ERROR)
  else if isinstance error ExportError then (EXPORT, ERROR)
  else if isinstance error ValidationError then (VALIDATION, WARNING)
  else if isinstance error MemoryError then (SYSTEM, CRITICAL)
  else if isinstance error PermissionError then (SYSTEM, ERROR)
  else if isinstance error FileNotFoundError then (FILE_OPERATION, ERROR)
  else (SYSTEM, ERROR).

Definition newline : string := String (ascii_of_nat 10) EmptyString.

(** [handle_error], [_show_error_dialog] and [_show_retry_dialog] call
    each other.  The two dialog functions take the [handle_error] they
    call back into as their first argument; [handle_error] ties the knot,
    [fuel] bounding the depth of its calls ([None]: it ran out).
    [retry_callback] is the optional callable: [true] when one was given,
    its behaviour being that of the [World]. *)
Definition handler := t -> World -> exn -> string -> bool -> bool -> bool
                      -> option (t * World * bool).

Definition _show_retry_dialog (handle_error : handler) (self : t) (w : World)
    (title message : string) (retry_callback : bool) (context : string)
  : option (t * World * bool) :=
  (* Check retry count *)
  let retry_count := default 0%Z (retry_counts self !! context) in
  if (max_retries self <=? retry_count)%Z then
    (* Max retries reached *)
    let final_message :=
      message +:+ newline +:+ newline +:+ "Maximum retry attempts ("
      +:+ str_Z (max_retries self) +:+ ") reached." in
    Some (self, show w (ShowError title final_message), false)
  else
    (* Show retry dialog *)
    let retry_message :=
      message +:+ newline +:+ newline +:+ "Would you like to try again? (Attempt "
      +:+ str_Z (retry_count + 1) +:+ " of " +:+ str_Z (max_retries self) +:+ ")" in
    let '(w, result) := askyesno w title retry_message in
    if result then
      (* User chose to retry *)
      let self := set_retry_count self context (retry_count + 1) in
      let '(w, retry_result) := call_retry w in
      match retry_result with
      | Returns truthy =>
          (* Reset retry count on success *)
          let self := if truthy then set_retry_count self context 0 else self in
          Some (self, w, truthy)
      | Raises retry_error =>
          (* Handle retry error *)
          let w := show w (LogWarning ("Retry attempt " +:+ str_Z (retry_count + 1)
                                       +:+ " failed: " +:+ exn_msg retry_error)) in
          handle_error self w retry_error
            ("Retry attempt " +:+ str_Z (retry_count + 1)) true true retry_callback
      end
    else
      (* User chose not to retry *)
      Some (set_retry_count self context 0, w, false).

Definition _show_error_dialog (handle_error : handler) (self : t) (w : World)
    (message suggestions : string) (severity : ErrorSeverity)
    (allow_retry retry_callback : bool) (context : string)
  : option (t * World * bool) :=
  (* Determine dialog type based on severity *)
  let title :=
    match severity with
    | CRITICAL => "Critical Error"
    | ERROR => "Error"
    | WARNING => "Warning"
    | INFO => "Information"
    end in
  (* Create detailed message *)
  let detailed_message :=
    message +:+ newline +:+ newline +:+ "Suggestions:" +:+ newline +:+ suggestions in
  (* Show retry dialog if allowed *)
  if allow_retry && retry_callback then
    _show_retry_dialog handle_error self w title detailed_message retry_callback context
  else
    (* Show standard error dialog *)
    let w :=
      match severity with
      | CRITICAL | ERROR => show w (ShowError title detailed_message)
      | WARNING => show w (ShowWarning title detailed_message)
      | INFO => show w (ShowInfo title detailed_message)
      end in
    Some (self, w, false).

Fixpoint handle_error (fuel : nat) (self : t) (w : World) (error : exn)
    (context : string) (show_dialog allow_retry retry_callback : bool)
  : option (t * World * bool) :=
  match fuel with
  | O => None
  | S fuel' =>
      (* Log the error *)
      let w := show w (LogError error context) in
      (* Categorize the error *)
      let '(category, severity) := _categorize_error error in
      (* Generate user-friendly message *)
      let user_message := _generate_user_message self error context in
      (* Get recovery suggestions *)
      let suggestions := _get_recovery_suggestions self error in
      (* Show dialog if requested *)
      if show_dialog then
        _show_error_dialog (handle_error fuel') self w user_message suggestions
          severity allow_retry retry_callback context
      else Some (self, w, true)
  end.

(** [reset_retry_count] *)
Definition reset_retry_count (self : t) (context : string) : t :=
  mk (delete context (retry_counts self)) (max_retries self)
     (_generate_user_message self) (_get_recovery_suggestions self).

End ErrorHandler.

(* ===================================================================== *)
(** * gui/results_panel.py                                                *)
(* ===================================================================== *)

Module ResultsPanel.

Inductive button_state := normal | disabled.

(** The widgets the panel writes to.  [_create_pagination_controls] runs
    twice (above and below the table) and binds the same attributes both
    times, so [prev_button], [next_button], [page_info_var] and
    [rows_per_page_var] are the controls created last; they are the ones
    every method below updates.  The elapsed-time label is left out, as is
    [processing_time].  [export_status_var] is the line under the export
    button, written by [_export_results] and blanked by [clear_results]. *)
Record Widgets := mk_widgets {
  operation_var : string;
  original_count_var : string;
  result_count_var : string;
  summary_var : string;
  page_info_var : string;
  rows_per_page_var : string;
  tree_columns : list (string * Z * Z);       (* heading, width, minwidth *)
  tree_rows : list (list string);
  prev_button : button_state;
  next_button : button_state;
  export_button : button_state;
  empty_state_label_shown : bool;
  export_status_var : string
}.

Record t := mk {
  operation_result : option OperationResult;
  current_page : Z;
  rows_per_page : Z;
  total_pages : Z;
  widgets : Widgets
}.

Definition __init__ : t :=
  mk None 0 100 0
     (mk_widgets "No operation performed" "-" "-" "No results to display"
                 "No data" "100" [] [] disabled disabled disabled true "").

Definition set_widgets (self : t) (w : Widgets) : t :=
  mk (operation_result self) (current_page self) (rows_per_page self) (total_pages self) w.

Definition operation_display (operation_type : string) : string :=
  if String.eqb operation_type "remove_matches" then "Remove Matches"
  else if String.eqb operation_type "keep_matches" then "Keep Only Matches"
  else if String.eqb operation_type "find_common" then "Find Common Values"
  else if String.eqb operation_type "find_unique" then "Find Unique Values"
  else operation_type.

Definition _update_summary (self : t) : t :=
  match operation_result self with
  | None => self
  | Some r =>
      let w := widgets self in
      set_widgets self
        (mk_widgets (operation_display (operation_type r))
                    (str_nat_grouped (Z.to_nat (original_count r)))
                    (str_nat_grouped (Z.to_nat (result_count r)))
                    (summary r)
                    (page_info_var w) (rows_per_page_var w) (tree_columns w) (tree_rows w)
                    (prev_button w) (next_button w) (export_button w)
                    (empty_state_label_shown w) (export_status_var w))
  end.

Definition _update_pagination_buttons (self : t) : t :=
  let w := widgets self in
  let prev := if (0 <? current_page self)%Z then normal else disabled in
  let next := if (current_page self <? total_pages self - 1)%Z then normal else disabled in
  set_widgets self
    (mk_widgets (operation_var w) (original_count_var w) (result_count_var w)
                (summary_var w) (page_info_var w) (rows_per_page_var w)
                (tree_columns w) (tree_rows w) prev next (export_button w)
                (empty_state_label_shown w) (export_status_var w)).

(** The table and the caption, set together by [_update_table_display]. *)
Definition set_table (self : t) (cols : list (string * Z * Z))
    (rows : list (list string)) (page_info : string) : t :=
  let w := widgets self in
  set_widgets self
    (mk_widgets (operation_var w) (original_count_var w) (result_count_var w)
                (summary_var w) page_info (rows_per_page_var w)
                cols rows (prev_button w) (next_button w) (export_button w)
                (empty_state_label_shown w) (export_status_var w)).

(** [str(val) if pd.notna(val) else ""]; a number held as a float prints
    as one. *)
Definition render_cell (as_float : bool) (c : cell) : string :=
  match c with
  | NaN => ""
  | Str s => s
  | Int z => if as_float then str_float z else str_Z z
  end.

(** [iterrows] hands out every row as a series of one dtype.  In a frame
    whose columns are all [int64] or [float64], one of them [float64], that
    dtype is [float64] and every number of the row is a float; otherwise
    each number is as its own column holds it. *)
Definition as_float (cols : list (string * dtype)) : list bool :=
  let dtypes := map snd cols in
  let all_float :=
    forallb (fun dt => is_int_dtype dt || is_float_dtype dt) dtypes
    && existsb is_float_dtype dtypes in
  map (fun dt => is_float_dtype dt || all_float) dtypes.

(** The texts of one row, one for each column of the frame. *)
Definition render_row (cols : list (string * dtype)) (r : row) : list string :=
  map (fun jf => render_cell (snd jf) (cell_at (fst jf) r))
      (combine (seq 0 (List.length cols)) (as_float cols)).

(** Bounds of the page being displayed. *)
Definition start_idx (self : t) : Z := (current_page self * rows_per_page self)%Z.
Definition end_idx (self : t) (df : DataFrame) : Z :=
  Z.min (start_idx self + rows_per_page self) (len df).

Definition _update_table_display (self : t) : t :=
  match operation_result self with
  | None => self
  | Some r =>
      let df := result_data r in
      (* Clear existing data *)
      let self := set_table self (tree_columns (widgets self)) []
                            (page_info_var (widgets self)) in
      if empty df then
        _update_pagination_buttons
          (set_table self (tree_columns (widgets self)) [] "No data to display")
      else
        (* Calculate page bounds *)
        let page_data := iloc df (start_idx self) (end_idx self df) in
        (* Configure columns *)
        let cols :=
          map (fun col =>
                 let max_width := (Z.max (Z.of_nat (String.length col)) 10 * 8)%Z in
                 (col, Z.min max_width 200, 80%Z))
              (columns df) in
        (* Insert data rows *)
        let rows := map (render_row (df_columns page_data)) (df_rows page_data) in
        (* Update pagination info *)
        let page_info :=
          "Page " +:+ str_Z (current_page self + 1) +:+ " of " +:+ str_Z (total_pages self)
          +:+ " (showing rows " +:+ str_Z (start_idx self + 1) +:+ "-"
          +:+ str_Z (end_idx self df) +:+ " of "
          +:+ str_nat_grouped (Z.to_nat (len df)) +:+ ")" in
        _update_pagination_buttons (set_table self cols rows page_info)
  end.

(** [rows_per_page] is 100 at creation and afterwards an entry of the
    selector; the floor division of the page count is written for a
    non-zero [rows_per_page] (Python raises on zero). *)
Definition display_results (self : t) (operation_result : OperationResult) : t :=
  let self := mk (Some operation_result) 0 (rows_per_page self) (total_pages self)
                 (widgets self) in
  (* Update summary information *)
  let self := _update_summary self in
  (* Calculate pagination *)
  let total_rows := len (result_data operation_result) in
  let self :=
    mk (Some operation_result) (current_page self) (rows_per_page self)
       (Z.max 1 ((total_rows + rows_per_page self - 1) / rows_per_page self))
       (widgets self) in
  (* Display data *)
  let self := _update_table_display self in
  (* Enable export button, hide empty state message *)
  let w := widgets self in
  set_widgets self
    (mk_widgets (operation_var w) (original_count_var w) (result_count_var w)
                (summary_var w) (page_info_var w) (rows_per_page_var w)
                (tree_columns w) (tree_rows w) (prev_button w) (next_button w)
                normal false (export_status_var w)).

Definition _previous_page (self : t) : t :=
  if (0 <? current_page self)%Z then
    _update_table_display
      (mk (operation_result self) (current_page self - 1) (rows_per_page self)
          (total_pages self) (widgets self))
  else self.

Definition _next_page (self : t) : t :=
  if (current_page self <? total_pages self - 1)%Z then
    _update_table_display
      (mk (operation_result self) (current_page self + 1) (rows_per_page self)
          (total_pages self) (widgets self))
  else self.

(** [int(s)] on a decimal numeral (the selector is read-only and offers
    ["50"], ["100"], ["200"], ["500"]). *)
Definition py_int (s : string) : option Z :=
  option_map Z.of_int (NilZero.int_of_string s).

(** The selector handler; the event delivers the chosen text in
    [rows_per_page_var].  A zero would make the page count raise. *)
Definition _on_rows_per_page_changed (self : t) : result t :=
  match py_int (rows_per_page_var (widgets self)) with
  | Some new_rows_per_page =>
      if negb (new_rows_per_page =? rows_per_page self)%Z then
        let self := mk (operation_result self) 0 new_rows_per_page (total_pages self)
                       (widgets self) in
        match operation_result self with
        | Some r =>
            if (new_rows_per_page =? 0)%Z
            then Raise (mk_exn ZeroDivisionError "integer division or modulo by zero")
            else
              let total_rows := len (result_data r) in
              Ok (_update_table_display
                    (mk (operation_result self) (current_page self) (rows_per_page self)
                        (Z.max 1 ((total_rows + rows_per_page self - 1) / rows_per_page self))
                        (widgets self)))
        | None => Ok self
        end
      else Ok self
  | None =>
      (* except ValueError: reset to previous valid value *)
      let w := widgets self in
      Ok (set_widgets self
            (mk_widgets (operation_var w) (original_count_var w) (result_count_var w)
                        (summary_var w) (page_info_var w) (str_Z (rows_per_page self))
                        (tree_columns w) (tree_rows w) (prev_button w) (next_button w)
                        (export_button w) (empty_state_label_shown w) (export_status_var w)))
  end.

(** The user picks an entry of the selector. *)
Definition select_rows_per_page (self : t) (choice : string) : t :=
  let w := widgets self in
  set_widgets self
    (mk_widgets (operation_var w) (original_count_var w) (result_count_var w)
                (summary_var w) (page_info_var w) choice
                (tree_columns w) (tree_rows w) (prev_button w) (next_button w)
                (export_button w) (empty_state_label_shown w) (export_status_var w)).

End ResultsPanel.

(* ===================================================================== *)
(** * controllers/main_controller.py: the workflow state machine          *)
(* ===================================================================== *)

Module MainController.

Inductive WorkflowState :=
  | FILE_SELECTION | COLUMN_MAPPING | OPERATION_CONFIG | RESULTS.

(** [state.value] *)
Definition value (s : WorkflowState) : Z :=
  match s with
  | FILE_SELECTION => 0
  | COLUMN_MAPPING => 1
  | OPERATION_CONFIG => 2
  | RESULTS => 3
  end.


Definition state_eqb (a b : WorkflowState) : bool := (value a =? value b)%Z.

Definition state_name (s : WorkflowState) : string :=
  match s with
  | FILE_SELECTION => "FILE_SELECTION"
  | COLUMN_MAPPING => "COLUMN_MAPPING"
  | OPERATION_CONFIG => "OPERATION_CONFIG"
  | RESULTS => "RESULTS"
  end.

(** [len(WorkflowState)] *)
Definition n_states : Z := 4.

Record FileInfo := mk_file_info {
  file_path : string;
  file_type : string;
  fi_columns : list string;
  row_count : Z;
  file_size : Z
}.

(** Whether the panel of a state can be put on screen: it passes every
    check of [_show_current_panel] and the toolkit calls succeed
    ([Displayable]), it is absent from the panel dictionary ([Missing]),
    its entry is [None] ([IsNone]), or a later check or a toolkit call
    fails, reported under the given message and dialog title
    (["Panel Not Ready"], ["Content Frame Error"],
    ["Display Sequence Error"], ...). *)
Inductive display_status :=
  | Displayable
  | Missing
  | IsNone
  | Broken (error_msg error_title : string).

(** [state in self.panels and self.panels[state]] *)
Definition panel_present (st : display_status) : bool :=
  match st with
  | Missing | IsNone => false
  | Displayable | Broken _ _ => true
  end.

(** [not self.panels]: the panel dictionary is empty. *)
Definition no_panels (panels : WorkflowState -> display_status) : bool :=
  forallb (fun s => match panels s with Missing => true | _ => false end)
          [FILE_SELECTION; COLUMN_MAPPING; OPERATION_CONFIG; RESULTS].

Inductive ui_event :=
  | MessageBoxError (title message : string)      (* messagebox.showerror *)
  | PanelShown (s : WorkflowState)                (* main_window.show_panel *)
  | StatusSet (message : string)                  (* main_window.set_status *)
  | NavigationButtonsUpdated
  | OperationConfigPrepared                       (* panel.set_file_info *)
  | FallbackPanelsCreated
  | MinimalErrorPanelShown (error_message : string)
  | DisplayErrorReported (error_title error_msg : string).

Record t := mk {
  current_state : WorkflowState;
  (* workflow_data *)
  file1_info : option FileInfo;
  file2_info : option FileInfo;
  (* panels[COLUMN_MAPPING].get_selected_columns(), when the panel has it *)
  selected_columns : option (option string * option string);
  (* panels[OPERATION_CONFIG].get_operation_config().get('operation'),
     when the panel has the accessor *)
  selected_operation : option (option string);
  has_set_file_info : bool;
  panel_status : WorkflowState -> display_status;
  main_window_current_step : Z;
  shown : list ui_event
}.

(** What lies outside the state machine: the comparison run started from
    the configuration step, the generic error pipeline, and the effect of
    [_create_fallback_panels] on the panels ([None]: it raised). *)
Record Env := mk_env {
  _execute_comparison : t -> t * option exn;
  _handle_error : t -> exn -> string -> t;
  _create_fallback_panels :
    (WorkflowState -> display_status) -> option (WorkflowState -> display_status)
}.

Definition set_state (self : t) (s : WorkflowState) : t :=
  mk s (file1_info self) (file2_info self) (selected_columns self)
     (selected_operation self) (has_set_file_info self) (panel_status self)
     (main_window_current_step self) (shown self).

Definition set_step (self : t) (v : Z) : t :=
  mk (current_state self) (file1_info self) (file2_info self) (selected_columns self)
     (selected_operation self) (has_set_file_info self) (panel_status self) v (shown self).

Definition set_panels (self : t) (ps : WorkflowState -> display_status) : t :=
  mk (current_state self) (file1_info self) (file2_info self) (selected_columns self)
     (selected_operation self) (has_set_file_info self) ps
     (main_window_current_step self) (shown self).

Definition show (self : t) (ev : ui_event) : t :=
  mk (current_state self) (file1_info self) (file2_info self) (selected_columns self)
     (selected_operation self) (has_set_file_info self) (panel_status self)
     (main_window_current_step self) (shown self ++ [ev]).

(** Truthiness of an optional string: [None] and [""] are false. *)
Definition truthy (s : option string) : bool :=
  match s with
  | Some x => negb (String.eqb x "")
  | None => false
  end.

Definition is_some {A} (o : option A) : bool :=
  match o with Some _ => true | None => false end.

Definition _validate_file_selection (self : t) : t * bool :=
  if negb (is_some (file1_info self)) || negb (is_some (file2_info self)) then
    (show self (MessageBoxError "Validation Error"
                  "Please select both files before proceeding."), false)
  else (self, true).

Definition _validate_column_mapping (self : t) : t * bool :=
  match selected_columns self with
  | None => (self, true)   (* Skip validation if panel not available *)
  | Some (file1_col, file2_col) =>
      if negb (truthy file1_col) || negb (truthy file2_col) then
        (show self (MessageBoxError "Validation Error"
                      "Please select columns from both files."), false)
      else (self, true)
  end.

Definition _validate_operation_config (self : t) : t * bool :=
  match selected_operation self with
  | None => (self, true)   (* Skip validation if panel not available *)
  | Some operation =>
      if negb (truthy operation) then
        (show self (MessageBoxError "Validation Error"
                      "Please select a comparison operation."), false)
      else (self, true)
  end.


Definition _validate_workflow_transition (self : t) (forward : bool) : t * bool :=
  let current_value := value (current_state self) in
  if forward then
    (* Validate forward transition *)
    if (n_states - 1 <=? current_value)%Z then (self, false)
    else
      match current_state self with
      | FILE_SELECTION => _validate_file_selection self
      | COLUMN_MAPPING => _validate_column_mapping self
      | OPERATION_CONFIG => _validate_operation_config self
      | RESULTS => (self, true)
      end
  else
    (* Validate backward transition *)
    if (current_value <=? 0)%Z then (self, false) else (self, true).

Definition _update_navigation_button_states (self : t) : t :=
  show self NavigationButtonsUpdated.

Definition status_message (s : WorkflowState) : string :=
  match s with
  | FILE_SELECTION => "Select files for comparison"
  | COLUMN_MAPPING => "Map columns between files"
  | OPERATION_CONFIG => "Configure comparison operation"
  | RESULTS => "View comparison results"
  end.

(** [_show_current_panel] (the second, live definition) and
    [_handle_panel_display_error] call each other; the latter takes the
    former as an argument and [fuel] bounds the nesting ([None]: Python's
    recursion limit). *)
Definition _handle_panel_display_error (env : Env)
    (_show_current_panel : t -> option (t * bool))
    (self : t) (error_msg error_title : string) : option (t * bool) :=
  (* Recovery 1: Try to create fallback panel if missing *)
  let after1 : t * bool * bool :=         (* state, recovery_attempted, retry *)
    if contains "does not exist" error_msg || contains "is None" error_msg then
      match _create_fallback_panels env (panel_status self) with
      | Some ps =>
          let self := show (set_panels self ps) FallbackPanelsCreated in
          (* Retry display after fallback creation *)
          if panel_present (panel_status self (current_state self))
          then (self, false, true)
          else (self, true, false)
      | None => (self, false, false)
      end
    else (self, false, false) in
  let '(self, recovery_attempted, retry) := after1 in
  if retry then _show_current_panel self else
  (* Recovery 2: Try to reset to FILE_SELECTION state *)
  let after2 : t * bool * bool :=
    if negb (state_eqb (current_state self) FILE_SELECTION) then
      let self := set_state self FILE_SELECTION in
      if panel_present (panel_status self FILE_SELECTION)
      then (self, recovery_attempted, true)
      else (self, true, false)
    else (self, recovery_attempted, false) in
  let '(self, recovery_attempted, retry) := after2 in
  if retry then _show_current_panel self else
  (* Recovery 3: Show minimal error panel as last resort *)
  let self :=
    if negb recovery_attempted then show self (MinimalErrorPanelShown error_msg)
    else self in
  (* Show user-friendly error message *)
  Some (show self (DisplayErrorReported error_title error_msg), false).

Fixpoint _show_current_panel (env : Env) (fuel : nat) (self : t) : option (t * bool) :=
  match fuel with
  | O => None
  | S fuel' =>
      let fail error_msg error_title :=
        match _handle_panel_display_error env (_show_current_panel env fuel')
                self error_msg error_title with
        | Some (self, _) => Some (self, false)
        | None => None
        end in
      if no_panels (panel_status self)
      then fail "Panel dictionary not initialized" "Panel System Error" else
      match panel_status self (current_state self) with
      | Missing =>
          fail ("Panel for state " +:+ state_name (current_state self)
                +:+ " does not exist in panels dictionary") "Missing Panel"
      | IsNone =>
          fail ("Panel for state " +:+ state_name (current_state self) +:+ " is None")
               "Invalid Panel"
      | Broken error_msg error_title => fail error_msg error_title
      | Displayable =>
          let self := show self (PanelShown (current_state self)) in
          let self := set_step self (value (current_state self)) in
          let self := _update_navigation_button_states self in
          let self := show self (StatusSet (status_message (current_state self))) in
          Some (self, true)
      end
  end.





End MainController.


(* ===================================================================== *)
(** * Sample inputs                                                       *)
(* ===================================================================== *)

Module Samples.

(** File 1 with the keys [a, b, c], file 2 with the keys [a, d, c, e]. *)
Definition abc : DataFrame :=
  mk_df [("key", "object")] [[Str "a"]; [Str "b"]; [Str "c"]].

Definition adce : DataFrame :=
  mk_df [("id", "int64"); ("key", "object")]
        [[Int 1; Str "a"]; [Int 2; Str "d"]; [Int 3; Str "c"]; [Int 4; Str "e"]].

(** A one-row file 1 and a file 2 of ten thousand rows, every key being
    the string [A]: 10001 rows in total, just above the engine's
    threshold of 10000. *)
Definition one_A : DataFrame := mk_df [("key", "object")] [[Str "A"]].

Definition many_A : DataFrame :=
  mk_df [("key", "object")] (repeat [Str "A"] 10000).

(** [many_A] after the optimizer made its key column categorical. *)
Definition many_A_categorical : DataFrame :=
  mk_df [("key", "category")] (repeat [Str "A"] 10000).

End Samples.

(* ===================================================================== *)
(** * The processing-time estimate as the specification words it          *)
(* ===================================================================== *)

Module EstimateSpec.

Import PerformanceOptimizer.

(** Base throughput in rows per second: 100000 for [remove_matches] and
    [keep_matches], 80000 for [find_common] and [find_unique], 50000 for
    any other operation name. *)
Definition base_throughput (operation : string) : Z :=
  if String.eqb operation "remove_matches" || String.eqb operation "keep_matches"
  then 100000
  else if String.eqb operation "find_common" || String.eqb operation "find_unique"
  then 80000
  else 50000.

(** The rate: the base throughput, multiplied by 0.8 when the total exceeds
    100000 rows and by a further 0.6 when it exceeds 500000 rows. *)
Definition rate (total_rows : Z) (operation : string) : number :=
  let base := base_throughput operation in
  if (500000 <? total_rows)%Z then PyFloat ((float_of_Z base * 0.8) * 0.6)%float
  else if (100000 <? total_rows)%Z then PyFloat (float_of_Z base * 0.8)%float
  else PyInt base.

(** [max(1.0, total_rows / rate)] *)
Definition estimate (total_rows : Z) (operation : string) : float :=
  py_max 1.0 (truediv total_rows (rate total_rows operation)).

End EstimateSpec.

(* ===================================================================== *)
(** * Sample environments of the parser and the export service           *)
(* ===================================================================== *)

Module SampleFiles.

Definition customers : DataFrame :=
  mk_df [("name", "object")] [[Str "Zoe"]; [Str "Rene"]].

(** A file holding bytes that are not valid UTF-8: reading it as [utf-8]
    raises a decode error, reading it under any other encoding succeeds. *)
Definition non_utf8_file : FileParserService.Env :=
  FileParserService.mk_env
    (fun _ => true)
    (fun _ encoding _ =>
       if String.eqb encoding "utf-8"
       then Raise (mk_exn UnicodeDecodeError
                     "'utf-8' codec can't decode byte 0xe9 in position 12")
       else Ok customers)
    (fun _ _ => Ok customers)
    [".csv"; ".xlsx"; ".xls"].

(** The same files in a run that iterates over the supported extensions
    in another order. *)
Definition another_run : FileParserService.Env :=
  FileParserService.mk_env
    (FileParserService.os_path_exists non_utf8_file)
    (FileParserService.read_csv non_utf8_file)
    (FileParserService.read_excel non_utf8_file)
    [".xls"; ".csv"; ".xlsx"].

(** A file system in which every path exists and is writable, whose state
    is the list of mutating calls made so far. *)
Definition open_fs : ExportService.OS (list string) :=
  ExportService.mk_os (list string)
    (fun _ _ => true)
    (fun _ _ => true)
    (fun s p => (s ++ ["mkdir " +:+ Pathlib.str p], None))
    (fun s _ file_path _ => (s ++ ["to_csv " +:+ file_path], None))
    (fun s _ file_path _ => (s ++ ["to_excel " +:+ file_path], None)).

End SampleFiles.

(* ===================================================================== *)
(** * Vocabulary of the statements about the parser                       *)
(* ===================================================================== *)

(** Reading [file_path] under [encoding] fails to decode, with the error [e]. *)
Definition decode_fails (env : FileParserService.Env) (file_path encoding : string)
    (e : exn) : Prop :=
  FileParserService.read_csv env file_path encoding "skip" = Raise e /\
  isinstance e UnicodeDecodeError = true.

(** The reads of [file_path] under the given encodings, malformed lines
    being skipped. *)
Definition attempts (file_path : string) (encodings : list string)
  : list FileParserService.io_event :=
  map (fun encoding => FileParserService.ReadCsv file_path encoding "skip") encodings.

(* ===================================================================== *)
(** * Vocabulary of the statements about the retry dialog                 *)
(* ===================================================================== *)

Module RetrySpec.

Import ErrorHandler.

(** The same failure handled [n] times in a row under one context, each
    time with the dialog shown, a retry allowed and a retry callback given. *)
Fixpoint fail_repeatedly (fuel n : nat) (self : t) (w : World) (error : exn)
    (context : string) : option (t * World) :=
  match n with
  | O => Some (self, w)
  | S n' =>
      match handle_error fuel self w error context true true true with
      | Some (self', w', _) => fail_repeatedly fuel n' self' w' error context
      | None => None
      end
  end.

Definition dialog_title (error : exn) : string :=
  match snd (_categorize_error error) with
  | CRITICAL => "Critical Error"
  | ERROR => "Error"
  | WARNING => "Warning"
  | INFO => "Information"
  end.

Definition detailed_message (self : t) (error : exn) (context : string) : string :=
  _generate_user_message self error context +:+ newline +:+ newline
  +:+ "Suggestions:" +:+ newline +:+ _get_recovery_suggestions self error.

(** The yes/no prompt offering retry number [attempt]. *)
Definition retry_prompt (self : t) (error : exn) (context : string) (attempt : Z)
  : ui_event :=
  AskYesNo (dialog_title error)
    (detailed_message self error context +:+ newline +:+ newline
     +:+ "Would you like to try again? (Attempt " +:+ str_Z attempt +:+ " of "
     +:+ str_Z (max_retries self) +:+ ")").

(** The terminal dialog shown once the cap is reached. *)
Definition max_retries_dialog (self : t) (error : exn) (context : string) : ui_event :=
  ShowError (dialog_title error)
    (detailed_message self error context +:+ newline +:+ newline
     +:+ "Maximum retry attempts (" +:+ str_Z (max_retries self) +:+ ") reached.").

Definition is_prompt (ev : ui_event) : bool :=
  match ev with AskYesNo _ _ => true | _ => false end.

(** A handler with plain message tables, a user who always answers yes and
    a retry callback that fails by returning a false value. *)
Definition plain_handler : t :=
  __init__ (fun e _ => "An error occurred: " +:+ exn_msg e)
           (fun _ => "Try the operation again").

Definition persistent_failure : World :=
  mk_world (fun _ => true) (fun _ => Returns false) 0 0 [].

(** The same user with a retry callback that raises each time. *)
Definition raising_failure : World :=
  mk_world (fun _ => true)
           (fun _ => Raises (mk_exn ComparisonOperationError "comparison failed")) 0 0 [].

End RetrySpec.

(* ===================================================================== *)
(** * Vocabulary of the statements about the results panel                *)
(* ===================================================================== *)

Module PanelSpec.

Import ResultsPanel.

(** [ceil(n / d)] for [0 < d]. *)
Definition ceil_div (n d : Z) : Z :=
  if (n mod d =? 0)%Z then (n / d)%Z else (n / d + 1)%Z.

(** The rows numbered [first] to [last], counting from 1, both included. *)
Definition rows_between {A} (first last : Z) (rows : list A) : list A :=
  firstn (Z.to_nat (last - first + 1)) (skipn (Z.to_nat (first - 1)) rows).

(** The entries of the rows-per-page selector. *)
Inductive rows_choice := R50 | R100 | R200 | R500.

Definition choice_text (c : rows_choice) : string :=
  match c with R50 => "50" | R100 => "100" | R200 => "200" | R500 => "500" end.

(** What the user can do on the panel once a result is displayed. *)
Inductive action :=
  | Next                          (* the Next button: [_next_page] *)
  | Previous                      (* the Previous button: [_previous_page] *)
  | RowsPerPage (c : rows_choice) (* picking an entry of the selector *).

Definition step (self : t) (a : action) : t :=
  match a with
  | Next => _next_page self
  | Previous => _previous_page self
  | RowsPerPage c =>
      match _on_rows_per_page_changed (select_rows_per_page self (choice_text c)) with
      | Ok self' => self'
      | Raise _ => self
      end
  end.

Definition run (actions : list action) (self : t) : t := fold_left step actions self.

(** The panel shows the current page of the result [r]: the page count is
    the rounded-up quotient with a floor of one, the current page is one of
    the pages, the table holds exactly the rows of that page, and each of
    the two buttons is disabled exactly at its end of the range. *)
Definition shows_current_page (r : OperationResult) (self : t) : Prop :=
  let n := len (result_data r) in
  let p := current_page self in
  let k := rows_per_page self in
  operation_result self = Some r /\
  (0 < k)%Z /\
  total_pages self = Z.max 1 (ceil_div n k) /\
  (0 <= p < total_pages self)%Z /\
  tree_rows (widgets self)
    = map (render_row (df_columns (result_data r)))
          (rows_between (p * k + 1) (Z.min ((p + 1) * k) n) (df_rows (result_data r))) /\
  (next_button (widgets self) = disabled <-> p = (total_pages self - 1)%Z) /\
  (prev_button (widgets self) = disabled <-> p = 0%Z).

(** A result of 250 rows. *)
Definition result_250 : OperationResult :=
  mk_result (mk_df [("n", "int64")] (map (fun i => [Int (Z.of_nat i)]) (seq 1 250)))
            400 250 "remove_matches"
            "Removed 150 matching rows. Result contains 250 rows.".

End PanelSpec.

(* ===================================================================== *)
(** * Sample controller states                                            *)
(* ===================================================================== *)

Module SampleWorkflow.

Import MainController.




(** The controller right after start-up, every panel ready. *)
Definition started : t :=
  mk FILE_SELECTION None None (Some (None, None)) (Some None) true
     (fun _ => Displayable) 0 [].



End SampleWorkflow.

(* ===================================================================== *)
(** * Vocabulary of the statements about the workflow                     *)
(* ===================================================================== *)

Module WorkflowSpec.
Import MainController.



End WorkflowSpec.

(* ===================================================================== *)
(** * Further sample inputs of the comparison engine                      *)
(* ===================================================================== *)

Module LargeSamples.

(** File 1: one row without a key, then ten thousand rows with the key [k]. *)
Definition gap_then_k : DataFrame :=
  mk_df [("key", "object")] ([NaN] :: repeat [Str "k"] 10000).

(** File 2: one row without a key and one row with the key [d]. *)
Definition gap_and_d : DataFrame :=
  mk_df [("key", "object")] [[NaN]; [Str "d"]].

(** File 1: 10001 rows with the key [k]; file 2: no rows. *)
Definition many_k : DataFrame :=
  mk_df [("key", "object")] (repeat [Str "k"] 10001).

Definition no_rows : DataFrame := mk_df [("key", "object")] [].

End LargeSamples.

(* ===================================================================== *)
(** * Vocabulary and samples for the further properties                  *)
(* ===================================================================== *)

Module FrameSpec.

(** A frame is rectangular when its column names are pairwise distinct and
    every row has one cell per column; every frame the dataframe library
    builds from a file is. *)
Fixpoint distinct (names : list string) : bool :=
  match names with
  | [] => true
  | n :: rest => negb (mem_str n rest) && distinct rest
  end.

Definition rectangular (df : DataFrame) : bool :=
  distinct (columns df)
  && forallb (fun r => Nat.eqb (List.length r) (List.length (df_columns df))) (df_rows df).

(** The rows whose cell in column [j] is present. *)
Definition with_key (j : nat) (rows : list row) : list row :=
  List.filter (fun r => notna (cell_at j r)) rows.

(** The text two keys are compared by when case is ignored. *)
Definition folded (dt : dtype) (c : cell) : cell := Str (lower (str_of_cell dt c)).

(** The keys of a column are ASCII texts (or numbers, or missing): the
    texts on which [lower] is Python's [str.lower]. *)
Definition ascii_key (c : cell) : bool :=
  match c with
  | Str s => is_ascii s
  | _ => true
  end.

Definition ascii_keys (s : Series) : bool := forallb ascii_key (s_values s).

(** The key test of the direct path of [remove_matches] and
    [keep_only_matches] on one row of file 2, [j] being the position of the
    comparison column: plain membership among the keys of file 1, or
    membership of the lower-cased text when case is ignored and the column
    of file 2 is string-like. *)
Definition direct_match (s1 s2 : Series) (j : nat) (case_sensitive : bool) (r : row)
  : bool :=
  if case_sensitive || negb (ComparisonEngine.is_string_like s2)
  then mem_cell (cell_at j r) (s_values s1)
  else mem_cell (folded (s_dtype s2) (cell_at j r))
                (map (folded (s_dtype s1)) (s_values s1)).

(** The key test of the optimized path on one row of the optimized
    file 2: membership in the lookup set, of the key as it is or, when case
    is ignored and the column still has the dtype [object], of its
    lower-cased text. *)
Definition optimized_match (dt : dtype) (lookup : list cell) (j : nat)
    (case_sensitive : bool) (r : row) : bool :=
  if case_sensitive || negb (String.eqb dt "object") then mem_cell (cell_at j r) lookup
  else mem_cell (folded dt (cell_at j r)) lookup.

(** [lookup] is the lookup set the optimized path builds from the key
    column [s] of file 1, whose dtype after optimization is some [dt]. *)
Definition lookup_of (s : Series) (case_sensitive : bool) (lookup : list cell) : Prop :=
  exists dt, lookup
  = to_set (s_values (if negb case_sensitive && String.eqb dt "object"
                      then str_lower (astype_str (dropna (mk_series dt (s_values s))))
                      else dropna (mk_series dt (s_values s)))).

End FrameSpec.

(** [d.get(key)] on a dictionary with string keys and values kept as an
    association list, the first binding of a key being the one in force. *)
Fixpoint dict_lookup (key : string) (d : list (string * string)) : option string :=
  match d with
  | [] => None
  | (k, v) :: rest => if String.eqb k key then Some v else dict_lookup key rest
  end.

Module ExportSpec.

(** The events that write a file. *)
Definition is_write (ev : ExportService.fs_event) : bool :=
  match ev with
  | ExportService.Mkdir _ => false
  | ExportService.ToCsv _ _ _ | ExportService.ToExcel _ _ _ => true
  end.

(** A file system in which nothing exists and nothing may be created. *)
Definition locked_fs : ExportService.OS (list string) :=
  ExportService.mk_os (list string)
    (fun _ _ => false)
    (fun _ _ => false)
    (fun s p => (s, Some (mk_exn PermissionError "[Errno 13] Permission denied")))
    (fun s _ file_path _ => (s, Some (mk_exn PermissionError "[Errno 13] Permission denied")))
    (fun s _ file_path _ => (s, Some (mk_exn PermissionError "[Errno 13] Permission denied"))).

Definition no_data : DataFrame := mk_df [("name", "object")] [].

End ExportSpec.

(* ===================================================================== *)
(** * services/error_handler.py: message and suggestion tables           *)
(* ===================================================================== *)

Module ErrorMessages.

(** An exception together with the attributes the message code reads with
    [getattr]: [filename] of the [OSError] family, and the fields the
    constructors of [models.exceptions] set.  [None] is Python's [None]. *)
Record error := mk_error {
  exc : exn;
  filename : option string;
  file_path : option string;
  supported_formats : list string;
  field_name : option string;
  output_path : option string
}.

(** An exception built from a message alone. *)
Definition plain (e : exn) : error :=
  mk_error e None None ["csv"; "xlsx"; "xls"] None None.

(** How [str.format] renders a value that may be [None]. *)
Definition str_or_None (o : option string) : string :=
  match o with Some s => s | None => "None" end.

(** [getattr(error, 'filename', 'unknown')]: the attribute exists on the
    [OSError] family only. *)
Definition getattr_filename (error : error) : string :=
  if isinstance (exc error) OSError then str_or_None (filename error) else "unknown".

(** The templates of [_initialize_error_messages] that
    [_generate_user_message] formats, each with its fields filled in. *)
Definition file_not_found (file_path : string) : string :=
  "The file '" +:+ file_path
  +:+ "' could not be found. Please check the file path and try again.".
Definition file_access_denied (file_path : string) : string :=
  "Access denied to file '" +:+ file_path +:+ "'. Please check file permissions.".
Definition file_corrupted (file_path : string) : string :=
  "The file '" +:+ file_path +:+ "' appears to be corrupted or damaged.".
Definition unsupported_format (format supported_formats : string) : string :=
  "The file format '" +:+ format +:+ "' is not supported. Supported formats: "
  +:+ supported_formats +:+ ".".
Definition file_empty (file_path : string) : string :=
  "The file '" +:+ file_path +:+ "' is empty or contains no valid data.".
Definition memory_error : string :=
  "Not enough memory to process the selected files. Try closing other applications or use smaller files.".
Definition export_permission_denied (path : string) : string :=
  "Permission denied when trying to save to '" +:+ path +:+ "'.".
Definition export_disk_full (path : string) : string :=
  "Not enough disk space to save the file to '" +:+ path +:+ "'.".

Definition truthy (o : option string) : bool :=
  match o with Some s => negb (String.eqb s "") | None => false end.

Definition _generate_user_message (error : error) (context : string) : string :=
  let e := exc error in
  let error_message := lower (exn_msg e) in
  (* File not found errors *)
  if isinstance e FileNotFoundError || contains "not found" error_message then
    file_not_found (getattr_filename error)
  (* Permission errors *)
  else if isinstance e PermissionError || contains "permission denied" error_message then
    file_access_denied (getattr_filename error)
  (* Memory errors *)
  else if isinstance e MemoryError || contains "memory" error_message then
    memory_error
  (* Custom application errors *)
  else if isinstance e InvalidFileFormatError then
    unsupported_format (str_or_None (file_path error))
                       (String.concat ", " (supported_formats error))
  else if isinstance e FileParsingError then
    if contains "empty" error_message then
      file_empty (str_or_None (file_path error))
    else if contains "corrupted" error_message || contains "damaged" error_message then
      file_corrupted (str_or_None (file_path error))
    else "Error reading file: " +:+ exn_msg e
  else if isinstance e ValidationError then
    if truthy (field_name error) then
      "Validation error in " +:+ str_or_None (field_name error) +:+ ": " +:+ exn_msg e
    else "Validation error: " +:+ exn_msg e
  else if isinstance e ExportError then
    if contains "permission" error_message then
      export_permission_denied (str_or_None (output_path error))
    else if contains "space" error_message || contains "disk full" error_message then
      export_disk_full (str_or_None (output_path error))
    else "Export error: " +:+ exn_msg e
  (* Generic fallback *)
  else if negb (String.eqb context "") then context +:+ ": " +:+ exn_msg e
  else "An error occurred: " +:+ exn_msg e.

(** The bullet character U+2022, in UTF-8. *)
Definition bullet : string :=
  String (ascii_of_nat 226) (String (ascii_of_nat 128) (String (ascii_of_nat 162) "")).

Definition nl : string := String (ascii_of_nat 10) EmptyString.

(** A suggestion text: one bulleted line per entry. *)
Definition bullets (lines : list string) : string :=
  String.concat nl (map (fun line => bullet +:+ " " +:+ line) lines).

Definition _initialize_recovery_suggestions : list (string * string) :=
  [("file_not_found",
    bullets ["Check if the file path is correct";
             "Verify the file hasn't been moved or deleted";
             "Try browsing for the file again"]);
   ("file_access_denied",
    bullets ["Check file permissions";
             "Close the file if it's open in another application";
             "Run the application as administrator if needed"]);
   ("unsupported_format",
    bullets ["Convert the file to CSV or Excel format";
             "Check if the file extension is correct"]);
   ("file_corrupted",
    bullets ["Try opening the file in Excel or a text editor";
             "Use a backup copy if available";
             "Re-export the file from its original source"]);
   ("column_not_found",
    bullets ["Check the column name spelling";
             "Verify the file has the expected structure";
             "Try refreshing the file data"]);
   ("memory_error",
    bullets ["Close other applications to free memory";
             "Split large files into smaller chunks";
             "Restart the application"]);
   ("export_permission_denied",
    bullets ["Choose a different save location";
             "Check folder permissions";
             "Close the file if it's open elsewhere"]);
   ("missing_files",
    bullets ["Use the Browse buttons to select files";
             "Ensure both files are valid and accessible"]);
   ("missing_columns",
    bullets ["Select a column from each file dropdown";
             "Refresh the file data if columns are missing"])].

(** [self._recovery_suggestions[key]], for the keys of the table. *)
Definition suggestion (key : string) : string :=
  default "" (dict_lookup key _initialize_recovery_suggestions).

Definition default_suggestions : string :=
  bullets ["Try the operation again";
           "Check the application logs for more details";
           "Contact support if the problem persists"].

Definition _get_recovery_suggestions (error : error) : string :=
  let e := exc error in
  let error_message := lower (exn_msg e) in
  if isinstance e FileNotFoundError || contains "not found" error_message then
    suggestion "file_not_found"
  else if isinstance e PermissionError || contains "permission denied" error_message then
    suggestion "file_access_denied"
  else if isinstance e InvalidFileFormatError then
    suggestion "unsupported_format"
  else if isinstance e MemoryError || contains "memory" error_message then
    suggestion "memory_error"
  else if contains "corrupted" error_message || contains "damaged" error_message then
    suggestion "file_corrupted"
  else if contains "column" error_message && contains "not found" error_message then
    suggestion "column_not_found"
  else if isinstance e ValidationError then
    if contains "files" error_message then suggestion "missing_files"
    else if contains "column" error_message then suggestion "missing_columns"
    else default_suggestions
  else if isinstance e ExportError then
    if contains "permission" error_message then suggestion "export_permission_denied"
    else default_suggestions
  else default_suggestions.

End ErrorMessages.

(* ===================================================================== *)
(** * gui/results_panel.py: clearing the panel                            *)
(* ===================================================================== *)

Module ResultsPanelReset.

Import ResultsPanel.

(** [clear_results]: everything but the rows-per-page setting and its
    selector goes back to the initial state, the export status line
    included. *)
Definition clear_results (self : t) : t :=
  mk None 0 (rows_per_page self) 0
     (mk_widgets "No operation performed" "-" "-" "No results to display"
                 "No data" (rows_per_page_var (widgets self)) [] []
                 disabled disabled disabled true "").

(** The panel with another text on the export status line. *)
Definition with_export_status (self : t) (text : string) : t :=
  let w := widgets self in
  set_widgets self
    (mk_widgets (operation_var w) (original_count_var w) (result_count_var w)
                (summary_var w) (page_info_var w) (rows_per_page_var w)
                (tree_columns w) (tree_rows w) (prev_button w) (next_button w)
                (export_button w) (empty_state_label_shown w) text).

(** [has_results] *)
Definition has_results (self : t) : bool :=
  match operation_result self with Some _ => true | None => false end.

(** [get_current_results] *)
Definition get_current_results (self : t) : option OperationResult :=
  operation_result self.

(** The pages of a displayed result as the user sees them when pressing
    Next again and again from the first page: the table of page [i]. *)
Definition page_table (first : t) (i : nat) : list (list string) :=
  tree_rows (widgets (Nat.iter i _next_page first)).

End ResultsPanelReset.
(* ===================================================================== *)
(** * Properties                                                          *)
(* ===================================================================== *)

(** ** The effect monad *)

Lemma bind_ret_l {E A B} (a : A) (k : A -> M E B) : bind (ret a) k = k a.
Proof. unfold bind, ret. destruct (k a) as [tr r]. reflexivity. Qed.

Lemma outcome_bind_ok {E A B} (m : M E A) (k : A -> M E B) a :
  outcome m = Ok a -> outcome (bind m k) = outcome (k a).
Proof.
  destruct m as [tr r]. simpl. intros ->. unfold bind, outcome.
  destruct (k a). reflexivity.
Qed.

Lemma outcome_bind_raise {E A B} (m : M E A) (k : A -> M E B) e :
  outcome m = Raise e -> outcome (bind m k) = Raise e.
Proof. destruct m as [tr r]. simpl. intros ->. reflexivity. Qed.

Lemma outcome_ret {E A} (a : A) : outcome (@ret E A a) = Ok a.
Proof. reflexivity. Qed.

Lemma outcome_notify cb p msg : outcome (notify cb p msg) = Ok tt.
Proof. destruct cb; reflexivity. Qed.

Lemma outcome_bind_notify {B} cb p msg (k : unit -> M progress_event B) :
  outcome (bind (notify cb p msg) k) = outcome (k tt).
Proof. apply outcome_bind_ok, outcome_notify. Qed.

Lemma outcome_getitem {E} df col s :
  column df col = Some s -> outcome (@getitem E df col) = Ok s.
Proof. unfold getitem. intros ->. reflexivity. Qed.

Lemma getitem_some {E} df col s :
  column df col = Some s -> @getitem E df col = ret s.
Proof. unfold getitem. intros ->. reflexivity. Qed.

(** ** Masks and row selection *)

Lemma select_length_le {A} (mask : list bool) (l : list A) :
  (List.length (select mask l) <= List.length l)%nat.
Proof.
  revert l. induction mask as [|b mask IH]; intros [|x l]; simpl; try lia.
  destruct b; simpl; specialize (IH l); lia.
Qed.

(** Selecting by a mask and by its negation splits the rows. *)
Lemma select_partition {A} (mask : list bool) (l : list A) :
  List.length mask = List.length l ->
  Permutation (select mask l ++ select (invert mask) l) l.
Proof.
  revert l. induction mask as [|b mask IH]; intros [|x l] Hlen; simpl in *;
    try discriminate; [constructor|].
  injection Hlen as Hlen. destruct b; simpl.
  - constructor. apply IH, Hlen.
  - etransitivity; [symmetry; apply Permutation_middle|].
    constructor. apply IH, Hlen.
Qed.

Lemma select_partition_length {A} (mask : list bool) (l : list A) :
  List.length mask = List.length l ->
  (List.length (select mask l) + List.length (select (invert mask) l)
   = List.length l)%nat.
Proof.
  intros H. rewrite <- length_app.
  apply Permutation_length, select_partition, H.
Qed.

Lemma isin_length s vals : List.length (isin s vals) = List.length (s_values s).
Proof. unfold isin. apply length_map. Qed.

Lemma str_lower_length s :
  List.length (s_values (str_lower s)) = List.length (s_values s).
Proof. unfold str_lower. simpl. apply length_map. Qed.

Lemma astype_str_length s :
  List.length (s_values (astype_str s)) = List.length (s_values s).
Proof. unfold astype_str. simpl. apply length_map. Qed.

Lemma column_length df col s :
  column df col = Some s -> List.length (s_values s) = List.length (df_rows df).
Proof.
  unfold column. destruct (col_index _ _); [|discriminate].
  intros [= <-]. simpl. apply length_map.
Qed.

(** ** Column validation *)

Lemma validate_ok_columns self df1 df2 col1 col2 :
  fst (ComparisonEngine.validate_column_compatibility self df1 df2 col1 col2) = true ->
  exists s1 s2, column df1 col1 = Some s1 /\ column df2 col2 = Some s2.
Proof.
  unfold ComparisonEngine.validate_column_compatibility.
  destruct (column df1 col1) as [s1|]; [|discriminate].
  destruct (column df2 col2) as [s2|]; [|discriminate].
  intros _. eauto.
Qed.

(** ** The comparison engine: the direct path *)

Section DirectPath.

Import ComparisonEngine.

Variables (self : ComparisonEngine.t) (df1 df2 : DataFrame) (col1 col2 : string).
Variables (s1 s2 : Series).
Hypothesis Hcol1 : column df1 col1 = Some s1.
Hypothesis Hcol2 : column df2 col2 = Some s2.

Lemma prepare_values_ret cs :
  exists v, _prepare_comparison_values self df1 df2 col1 col2 cs = ret v.
Proof.
  unfold _prepare_comparison_values.
  rewrite (getitem_some _ _ _ Hcol1), (getitem_some _ _ _ Hcol2), !bind_ret_l.
  eauto.
Qed.

Lemma match_mask_ret cs :
  match_mask df1 df2 col1 col2 cs = ret (membership_mask s1 s2 cs).
Proof.
  unfold match_mask.
  rewrite (getitem_some _ _ _ Hcol1), (getitem_some _ _ _ Hcol2), !bind_ret_l.
  reflexivity.
Qed.

Lemma membership_mask_length cs :
  List.length (membership_mask s1 s2 cs) = List.length (df_rows df2).
Proof.
  unfold membership_mask.
  destruct cs; [|destruct (is_string_like s2)];
    rewrite isin_length, ?str_lower_length, ?astype_str_length;
    apply (column_length _ _ _ Hcol2).
Qed.

Hypothesis Hrun : cancelled self = false.
Hypothesis Hvalid : fst (validate_column_compatibility self df1 df2 col1 col2) = true.

(** The result of [remove_matches] when the optimizer is not entered. *)
Lemma remove_matches_direct cs cb :
  (10000 <? len df1 + len df2)%Z && cb = false ->
  exists r,
    outcome (remove_matches self df1 df2 col1 col2 cs cb) = Ok r /\
    result_data r = boolean_index df2 (invert (membership_mask s1 s2 cs)) /\
    original_count r = len df2 /\
    result_count r = len (result_data r) /\
    operation_type r = "remove_matches".
Proof.
  intros Hsmall. unfold remove_matches. rewrite Hrun.
  destruct (validate_column_compatibility self df1 df2 col1 col2) as [ok msg].
  simpl in Hvalid. subst ok. simpl negb. cbv iota. rewrite Hsmall.
  destruct (prepare_values_ret cs) as [v Hv].
  eexists. split.
  - erewrite outcome_bind_ok; [reflexivity|].
    rewrite outcome_bind_notify, Hv, bind_ret_l, outcome_bind_notify,
      match_mask_ret, bind_ret_l, outcome_bind_notify.
    reflexivity.
  - simpl. auto.
Qed.

(** The result of [keep_only_matches] when the optimizer is not entered. *)
Lemma keep_only_matches_direct cs cb :
  (10000 <? len df1 + len df2)%Z && cb = false ->
  exists r,
    outcome (keep_only_matches self df1 df2 col1 col2 cs cb) = Ok r /\
    result_data r = boolean_index df2 (membership_mask s1 s2 cs) /\
    original_count r = len df2 /\
    result_count r = len (result_data r) /\
    operation_type r = "keep_only_matches".
Proof.
  intros Hsmall. unfold keep_only_matches. rewrite Hrun.
  destruct (validate_column_compatibility self df1 df2 col1 col2) as [ok msg].
  simpl in Hvalid. subst ok. simpl negb. cbv iota. rewrite Hsmall.
  eexists. split.
  - erewrite outcome_bind_ok; [reflexivity|].
    rewrite outcome_bind_notify, match_mask_ret, bind_ret_l, outcome_bind_notify.
    reflexivity.
  - simpl. auto.
Qed.

End DirectPath.

(** C9: on the direct path (no progress callback), with compatible columns
    and an engine that was not cancelled, [remove_matches] and
    [keep_only_matches] split the rows of [df2]: one mask over the rows of
    [df2] selects the kept rows and its negation the remaining ones, so every
    row of [df2] is in exactly one of the two results and the two result
    counts add up to [len(df2)]. *)
Theorem remove_keep_partition
    (self : ComparisonEngine.t) (df1 df2 : DataFrame) (col1 col2 : string)
    (case_sensitive : bool) :
  ComparisonEngine.cancelled self = false ->
  fst (ComparisonEngine.validate_column_compatibility self df1 df2 col1 col2) = true ->
  exists removed kept mask,
    outcome (ComparisonEngine.remove_matches self df1 df2 col1 col2 case_sensitive false)
      = Ok removed /\
    outcome (ComparisonEngine.keep_only_matches self df1 df2 col1 col2 case_sensitive false)
      = Ok kept /\
    List.length mask = List.length (df_rows df2) /\
    df_rows (result_data kept) = select mask (df_rows df2) /\
    df_rows (result_data removed) = select (invert mask) (df_rows df2) /\
    Permutation (df_rows (result_data kept) ++ df_rows (result_data removed))
                (df_rows df2) /\
    (result_count removed + result_count kept = len df2)%Z.
Proof.
  intros Hrun Hvalid.
  destruct (validate_ok_columns _ _ _ _ _ Hvalid) as (s1 & s2 & H1 & H2).
  destruct (remove_matches_direct self df1 df2 col1 col2 s1 s2 H1 H2 Hrun Hvalid
              case_sensitive false) as (rm & Hrm & Drm & _ & Crm & _);
    [apply andb_false_r|].
  destruct (keep_only_matches_direct self df1 df2 col1 col2 s1 s2 H1 H2 Hrun Hvalid
              case_sensitive false) as (kp & Hkp & Dkp & _ & Ckp & _);
    [apply andb_false_r|].
  pose proof (membership_mask_length df2 col2 s1 s2 H2 case_sensitive) as Hlen.
  exists rm, kp, (ComparisonEngine.membership_mask s1 s2 case_sensitive).
  rewrite Crm, Ckp, Drm, Dkp. simpl.
  repeat split; auto.
  - apply select_partition, Hlen.
  - unfold len. simpl.
    pose proof (select_partition_length _ (df_rows df2) Hlen). lia.
Qed.

(** The hypotheses of [remove_keep_partition] hold for the sample files. *)
Lemma remove_keep_partition_witness :
  exists removed kept mask,
    outcome (ComparisonEngine.remove_matches ComparisonEngine.__init__
               Samples.abc Samples.adce "key" "key" true false) = Ok removed /\
    outcome (ComparisonEngine.keep_only_matches ComparisonEngine.__init__
               Samples.abc Samples.adce "key" "key" true false) = Ok kept /\
    List.length mask = List.length (df_rows Samples.adce) /\
    df_rows (result_data kept) = select mask (df_rows Samples.adce) /\
    df_rows (result_data removed) = select (invert mask) (df_rows Samples.adce) /\
    Permutation (df_rows (result_data kept) ++ df_rows (result_data removed))
                (df_rows Samples.adce) /\
    (result_count removed + result_count kept = len Samples.adce)%Z.
Proof.
  apply (remove_keep_partition ComparisonEngine.__init__ Samples.abc Samples.adce
           "key" "key" true); reflexivity.
Defined.

(** ** [remove_matches]: the example of the specification *)

(** File 1 has the keys [a, b, c] and file 2 the keys [a, d, c, e]:
    case-sensitive [remove_matches] returns the rows [d] and [e] of file 2,
    in that order, with [result_count = 2] and [original_count = 4], with or
    without a progress callback. *)
Lemma remove_matches_example (progress_callback : bool) :
  outcome (ComparisonEngine.remove_matches ComparisonEngine.__init__
             Samples.abc Samples.adce "key" "key" true progress_callback)
  = Ok (mk_result
          (mk_df [("id", "int64"); ("key", "object")]
                 [[Int 2; Str "d"]; [Int 4; Str "e"]])
          4 2 "remove_matches"
          "Removed 2 matching rows. Result contains 2 rows.").
Proof. destruct progress_callback; vm_compute; reflexivity. Qed.

(** Same inputs: [keep_only_matches] returns the rows [a] and [c]. *)
Lemma keep_only_matches_example (progress_callback : bool) :
  outcome (ComparisonEngine.keep_only_matches ComparisonEngine.__init__
             Samples.abc Samples.adce "key" "key" true progress_callback)
  = Ok (mk_result
          (mk_df [("id", "int64"); ("key", "object")]
                 [[Int 1; Str "a"]; [Int 3; Str "c"]])
          4 2 "keep_only_matches"
          "Kept 2 matching rows from 4 total rows. Removed 2 non-matching rows.").
Proof. destruct progress_callback; vm_compute; reflexivity. Qed.

(** ** The optimized path against the direct path *)

(** C1: [remove_matches] evaluated on a one-row file 1 with the key [A] and
    a file 2 of 10000 rows with the key [A], case-insensitive, with a
    progress callback (so that the optimizer is entered): every row of
    file 2 carries a key that occurs in file 1, and the result still holds
    all 10000 rows; [original_count] is [len(df2)]. *)
Theorem remove_matches_optimized_keeps_matching_rows :
  outcome (ComparisonEngine.remove_matches ComparisonEngine.__init__
             Samples.one_A Samples.many_A "key" "key" false true)
  = Ok (mk_result Samples.many_A_categorical 10000 10000 "remove_matches"
          "Removed 0 matching rows. Result contains 10000 rows.")
  /\ column Samples.one_A "key" = Some (mk_series "object" [Str "A"])
  /\ forallb (fun r => mem_cell (cell_at 0 r) [Str "A"])
             (df_rows Samples.many_A_categorical) = true.
Proof. repeat split; vm_compute; reflexivity. Qed.

(** C2: the same call made without a progress callback takes the direct
    path and removes all 10000 rows, while the call with a callback takes the
    optimized path and removes none: the two paths disagree on one input. *)
Theorem optimized_path_differs_from_direct_path :
  option_map (fun r => df_rows (result_data r))
    (match outcome (ComparisonEngine.remove_matches ComparisonEngine.__init__
                      Samples.one_A Samples.many_A "key" "key" false false) with
     | Ok r => Some r | Raise _ => None end)
  = Some []
  /\
  option_map (fun r => df_rows (result_data r))
    (match outcome (ComparisonEngine.remove_matches ComparisonEngine.__init__
                      Samples.one_A Samples.many_A "key" "key" false true) with
     | Ok r => Some r | Raise _ => None end)
  = Some (repeat [Str "A"] 10000)
  /\
  (10000 <? len Samples.one_A + len Samples.many_A)%Z = true.
Proof. repeat split; vm_compute; reflexivity. Qed.

(** ** Cancellation *)

Section Cancellation.

Import ComparisonEngine.

Lemma validate_ignores_flag self df1 df2 col1 col2 b :
  validate_column_compatibility
    (ComparisonEngine.mk (supported_operations self) (performance_optimizer self) b)
    df1 df2 col1 col2
  = validate_column_compatibility self df1 df2 col1 col2.
Proof. reflexivity. Qed.

Lemma rows_with_ret df col s wanted cs :
  column df col = Some s ->
  exists d, rows_with df col wanted cs = ret d.
Proof.
  intros H. unfold rows_with. rewrite (getitem_some _ _ _ H), bind_ret_l.
  destruct cs; [|destruct (is_string_like s)]; eauto.
Qed.

Lemma find_common_values_returns self df1 df2 col1 col2 cs cb :
  fst (validate_column_compatibility self df1 df2 col1 col2) = true ->
  exists r, outcome (find_common_values self df1 df2 col1 col2 cs cb) = Ok r.
Proof.
  intros Hvalid.
  destruct (validate_ok_columns _ _ _ _ _ Hvalid) as (s1 & s2 & H1 & H2).
  unfold find_common_values.
  destruct (validate_column_compatibility self df1 df2 col1 col2) as [ok msg].
  simpl in Hvalid. subst ok. simpl negb. cbv iota.
  destruct (prepare_values_ret self df1 df2 col1 col2 s1 s2 H1 H2 cs) as [[v1 v2] ->].
  rewrite bind_ret_l.
  destruct (rows_with_ret df1 col1 s1 (PerformanceOptimizer.intersection v1 v2) cs H1)
    as [d1 ->].
  rewrite bind_ret_l.
  destruct (rows_with_ret df2 col2 s2 (PerformanceOptimizer.intersection v1 v2) cs H2)
    as [d2 ->].
  rewrite bind_ret_l. unfold pd_concat. rewrite bind_ret_l. eauto.
Qed.

Lemma find_unique_values_returns self df1 df2 col1 col2 cs cb :
  fst (validate_column_compatibility self df1 df2 col1 col2) = true ->
  exists r, outcome (find_unique_values self df1 df2 col1 col2 cs cb) = Ok r.
Proof.
  intros Hvalid.
  destruct (validate_ok_columns _ _ _ _ _ Hvalid) as (s1 & s2 & H1 & H2).
  unfold find_unique_values.
  destruct (validate_column_compatibility self df1 df2 col1 col2) as [ok msg].
  simpl in Hvalid. subst ok. simpl negb. cbv iota.
  destruct (prepare_values_ret self df1 df2 col1 col2 s1 s2 H1 H2 cs) as [[v1 v2] ->].
  rewrite bind_ret_l.
  destruct (rows_with_ret df1 col1 s1 (PerformanceOptimizer.difference v1 v2) cs H1)
    as [d1 ->].
  rewrite bind_ret_l.
  destruct (rows_with_ret df2 col2 s2 (PerformanceOptimizer.difference v2 v1) cs H2)
    as [d2 ->].
  rewrite bind_ret_l. unfold pd_concat. rewrite bind_ret_l. eauto.
Qed.

(** Neither operation can end in an [InterruptedError]: the only
    exception it raises itself is the [ValueError] of the column check. *)
Lemma find_common_values_outcome self df1 df2 col1 col2 cs cb :
  (exists r, outcome (find_common_values self df1 df2 col1 col2 cs cb) = Ok r) \/
  (exists msg, outcome (find_common_values self df1 df2 col1 col2 cs cb)
               = Raise (mk_exn ValueError msg)
               /\ fst (validate_column_compatibility self df1 df2 col1 col2) = false).
Proof.
  destruct (fst (validate_column_compatibility self df1 df2 col1 col2)) eqn:Hv.
  - left. apply find_common_values_returns, Hv.
  - right. unfold find_common_values.
    destruct (validate_column_compatibility self df1 df2 col1 col2) as [ok msg].
    simpl in Hv. subst ok. simpl. eauto.
Qed.

Lemma find_unique_values_outcome self df1 df2 col1 col2 cs cb :
  (exists r, outcome (find_unique_values self df1 df2 col1 col2 cs cb) = Ok r) \/
  (exists msg, outcome (find_unique_values self df1 df2 col1 col2 cs cb)
               = Raise (mk_exn ValueError msg)
               /\ fst (validate_column_compatibility self df1 df2 col1 col2) = false).
Proof.
  destruct (fst (validate_column_compatibility self df1 df2 col1 col2)) eqn:Hv.
  - left. apply find_unique_values_returns, Hv.
  - right. unfold find_unique_values.
    destruct (validate_column_compatibility self df1 df2 col1 col2) as [ok msg].
    simpl in Hv. subst ok. simpl. eauto.
Qed.

End Cancellation.

(** C10: [find_common_values] and [find_unique_values] do not look at the
    cancellation flag.  After [cancel_operation] each of them behaves exactly
    as after [reset_cancellation] (same trace, same outcome), never raises
    [InterruptedError], and returns an [OperationResult] whenever the column
    check passes (the check's [ValueError] being the only other outcome);
    [remove_matches] and [keep_only_matches] raise [InterruptedError] at
    entry on the same cancelled engine. *)
Theorem find_operations_ignore_cancellation
    (self : ComparisonEngine.t) (df1 df2 : DataFrame) (col1 col2 : string)
    (case_sensitive progress_callback : bool) :
  let cancelled_engine := ComparisonEngine.cancel_operation self in
  let fresh_engine := ComparisonEngine.reset_cancellation self in
  ComparisonEngine.cancelled cancelled_engine = true /\
  ComparisonEngine.find_common_values cancelled_engine df1 df2 col1 col2
      case_sensitive progress_callback
    = ComparisonEngine.find_common_values fresh_engine df1 df2 col1 col2
        case_sensitive progress_callback /\
  ComparisonEngine.find_unique_values cancelled_engine df1 df2 col1 col2
      case_sensitive progress_callback
    = ComparisonEngine.find_unique_values fresh_engine df1 df2 col1 col2
        case_sensitive progress_callback /\
  (forall e,
      outcome (ComparisonEngine.find_common_values cancelled_engine df1 df2 col1 col2
                 case_sensitive progress_callback) = Raise e ->
      exn_cls e = ValueError /\
      fst (ComparisonEngine.validate_column_compatibility self df1 df2 col1 col2) = false) /\
  (forall e,
      outcome (ComparisonEngine.find_unique_values cancelled_engine df1 df2 col1 col2
                 case_sensitive progress_callback) = Raise e ->
      exn_cls e = ValueError /\
      fst (ComparisonEngine.validate_column_compatibility self df1 df2 col1 col2) = false) /\
  outcome (ComparisonEngine.remove_matches cancelled_engine df1 df2 col1 col2
             case_sensitive progress_callback)
    = Raise (mk_exn InterruptedError "Operation was cancelled") /\
  outcome (ComparisonEngine.keep_only_matches cancelled_engine df1 df2 col1 col2
             case_sensitive progress_callback)
    = Raise (mk_exn InterruptedError "Operation was cancelled").
Proof.
  intros cancelled_engine fresh_engine.
  split; [reflexivity|]. split; [reflexivity|]. split; [reflexivity|].
  split; [|split; [|split; reflexivity]].
  - intros e He.
    destruct (find_common_values_outcome cancelled_engine df1 df2 col1 col2
                case_sensitive progress_callback) as [[r Hr]|(msg & Hm & Hv)].
    + rewrite Hr in He. discriminate.
    + rewrite Hm in He. injection He as <-. split; [reflexivity|exact Hv].
  - intros e He.
    destruct (find_unique_values_outcome cancelled_engine df1 df2 col1 col2
                case_sensitive progress_callback) as [[r Hr]|(msg & Hm & Hv)].
    + rewrite Hr in He. discriminate.
    + rewrite Hm in He. injection He as <-. split; [reflexivity|exact Hv].
Qed.

(** ** The processing-time estimate *)

Lemma base_rate_lookup operation :
  PerformanceOptimizer.dict_get PerformanceOptimizer.base_rates operation 50000
  = EstimateSpec.base_throughput operation.
Proof.
  unfold PerformanceOptimizer.dict_get, PerformanceOptimizer.base_rates,
    EstimateSpec.base_throughput.
  rewrite !(String.eqb_sym _ operation).
  destruct (String.eqb operation "remove_matches"); [reflexivity|].
  destruct (String.eqb operation "keep_matches"); [reflexivity|].
  destruct (String.eqb operation "find_common"); [reflexivity|].
  destruct (String.eqb operation "find_unique"); reflexivity.
Qed.

(** C7: [estimate_processing_time] returns [max(1.0, total_rows / rate)]
    for [total_rows = len(df1) + len(df2)], where [rate] is the base
    throughput of the operation (100000, 100000, 80000, 80000, and 50000
    for an unknown name), times 0.8 above 100000 rows and times a further
    0.6 above 500000 rows; all arithmetic is on binary64 floats. *)
Theorem estimate_processing_time_formula
    (self : PerformanceOptimizer.t) (df1 df2 : DataFrame) (operation : string) :
  PerformanceOptimizer.estimate_processing_time self df1 df2 operation
  = EstimateSpec.estimate (len df1 + len df2) operation.
Proof.
  unfold PerformanceOptimizer.estimate_processing_time, EstimateSpec.estimate,
    EstimateSpec.rate.
  rewrite base_rate_lookup.
  destruct (500000 <? len df1 + len df2)%Z eqn:H5;
    destruct (100000 <? len df1 + len df2)%Z eqn:H1; try reflexivity.
  apply Z.ltb_lt in H5. apply Z.ltb_ge in H1. lia.
Qed.

(** The estimate on a few sizes: one second up to the base rate, 2.5 s for
    200000 rows of [remove_matches] (rate 80000), and 600000 rows of
    [find_unique] at the rate [80000 * 0.8 * 0.6]. *)
Lemma estimate_examples :
  EstimateSpec.estimate 7 "remove_matches" = 1%float /\
  EstimateSpec.estimate 100000 "keep_matches" = 1%float /\
  EstimateSpec.estimate 200000 "remove_matches" = 2.5%float /\
  EstimateSpec.estimate 200000 "sort" = 5%float /\
  EstimateSpec.estimate 600000 "find_unique"
    = (600000 / ((80000 * 0.8) * 0.6))%float.
Proof. repeat split; vm_compute; reflexivity. Qed.

(** ** The file parser: encoding fallback *)

Section EncodingFallback.

Import FileParserService.

Variable env : Env.
Variable file_path : string.

Local Abbreviation decode_fails := (decode_fails env file_path).
Local Abbreviation attempts := (attempts file_path).

Lemma last_cons_some {A} (x : A) (l : list A) (d : option A) :
  last (map Some (x :: l)) d = last (map Some l) (Some x).
Proof.
  simpl. destruct l as [|y l]; [reflexivity|].
  simpl. generalize (Some y) as z.
  induction l as [|w l IH]; intros z; [reflexivity|apply IH].
Qed.

(** Encodings that fail to decode are skipped, the last error being kept. *)
Lemma parse_csv_loop_skips pre errs rest last_error :
  Forall2 decode_fails pre errs ->
  parse_csv_loop env file_path (pre ++ rest) last_error
  = let '(tr, r) := parse_csv_loop env file_path rest
                      (last (map Some errs) last_error) in
    (attempts pre ++ tr, r).
Proof.
  intros H. revert last_error.
  induction H as [|encoding e pre errs [Hread Hdec] _ IH]; intros last_error.
  - simpl. destruct (parse_csv_loop env file_path rest last_error). reflexivity.
  - rewrite last_cons_some.
    change ((encoding :: pre) ++ rest) with (encoding :: (pre ++ rest)).
    cbn [parse_csv_loop]. unfold bind, emit. rewrite Hread. cbn [app].
    rewrite Hdec, IH.
    destruct (parse_csv_loop env file_path rest (last (map Some errs) (Some e))).
    reflexivity.
Qed.

Lemma parse_csv_loop_success encoding rest last_error df :
  read_csv env file_path encoding "skip" = Ok df ->
  empty df = false ->
  parse_csv_loop env file_path (encoding :: rest) last_error
  = ([ReadCsv file_path encoding "skip"], Ok df).
Proof.
  intros Hread Hne. cbn [parse_csv_loop]. unfold bind, emit. rewrite Hread. simpl.
  rewrite Hne. reflexivity.
Qed.

Hypothesis Hexists : os_path_exists env file_path = true.
Hypothesis Hcsv : file_extension file_path = ".csv".

Lemma parse_file_csv :
  parse_file env __init__ file_path
  = try_except (_parse_csv env __init__ file_path)
      (fun e =>
         if isinstance e UnsupportedFileFormatError || isinstance e ParserFileParsingError
         then raise e
         else raise (mk_exn ParserFileParsingError
                       ("Failed to parse file " +:+ file_path +:+ ": " +:+ exn_msg e))).
Proof.
  unfold parse_file, validate_file_format. rewrite Hexists, Hcsv. simpl.
  unfold bind, ret. simpl.
  destruct (try_except _ _) as [tr r]. reflexivity.
Qed.

End EncodingFallback.

(** C3: for an existing path with the extension [.csv], [parse_file] reads
    the file with [on_bad_lines='skip'] under [utf-8], [latin-1], [cp1252],
    [iso-8859-1] in this order, going on to the next encoding when one
    fails to decode.  The first encoding that reads a non-empty table ends
    the search and that table is returned; when all four fail to decode,
    the service's [FileParsingError] is raised and its message ends with
    the text of the last decode error. *)
Theorem parse_file_encoding_fallback
    (env : FileParserService.Env) (file_path : string) :
  FileParserService.os_path_exists env file_path = true ->
  FileParserService.file_extension file_path = ".csv" ->
  FileParserService._encoding_fallbacks FileParserService.__init__
    = ["utf-8"; "latin-1"; "cp1252"; "iso-8859-1"] /\
  (forall pre encoding post errs df,
      ["utf-8"; "latin-1"; "cp1252"; "iso-8859-1"] = pre ++ encoding :: post ->
      Forall2 (decode_fails env file_path) pre errs ->
      FileParserService.read_csv env file_path encoding "skip" = Ok df ->
      empty df = false ->
      FileParserService.parse_file env FileParserService.__init__ file_path
      = (attempts file_path (pre ++ [encoding]), Ok df)) /\
  (forall e1 e2 e3 e4,
      Forall2 (decode_fails env file_path)
        ["utf-8"; "latin-1"; "cp1252"; "iso-8859-1"] [e1; e2; e3; e4] ->
      FileParserService.parse_file env FileParserService.__init__ file_path
      = (attempts file_path ["utf-8"; "latin-1"; "cp1252"; "iso-8859-1"],
         Raise (mk_exn ParserFileParsingError
                  ("Failed to parse CSV file with any supported encoding. Last error: "
                   +:+ exn_msg e4)))).
Proof.
  intros Hexists Hcsv. split; [reflexivity|]. split.
  - intros pre encoding post errs df Hsplit Hpre Hread Hne.
    rewrite (parse_file_csv env file_path Hexists Hcsv).
    unfold FileParserService._parse_csv. simpl FileParserService._encoding_fallbacks.
    rewrite Hsplit, (parse_csv_loop_skips env file_path pre errs _ _ Hpre),
      (parse_csv_loop_success env file_path encoding post _ df Hread Hne).
    unfold attempts. rewrite map_app. reflexivity.
  - intros e1 e2 e3 e4 Hall.
    rewrite (parse_file_csv env file_path Hexists Hcsv).
    unfold FileParserService._parse_csv. simpl FileParserService._encoding_fallbacks.
    pose proof (parse_csv_loop_skips env file_path _ _ [] None Hall) as H.
    rewrite app_nil_r in H. rewrite H. reflexivity.
Qed.

(** A file with non-UTF-8 bytes is parsed without the caller naming an
    encoding: [utf-8] fails, [latin-1] is tried next and its table returned. *)
Lemma parse_file_encoding_fallback_witness :
  FileParserService.parse_file SampleFiles.non_utf8_file FileParserService.__init__
    "data/customers.CSV"
  = ([FileParserService.ReadCsv "data/customers.CSV" "utf-8" "skip";
      FileParserService.ReadCsv "data/customers.CSV" "latin-1" "skip"],
     Ok SampleFiles.customers).
Proof.
  refine (proj1 (proj2 (parse_file_encoding_fallback SampleFiles.non_utf8_file
                          "data/customers.CSV" _ _))
            ["utf-8"] "latin-1" ["cp1252"; "iso-8859-1"]
            [mk_exn UnicodeDecodeError
               "'utf-8' codec can't decode byte 0xe9 in position 12"]
            SampleFiles.customers _ _ _ _);
    try reflexivity.
  constructor; [split; reflexivity|constructor].
Defined.

(** ** The export service: the extension is checked before anything is written *)

Section ExportValidation.

Import ExportService.

Context {fs : Type} (os : OS fs) (s : fs).
Variables (data : DataFrame) (file_path : string) (kwargs : list (string * string)).

(** Path validation issues no call other than creating the parent directory. *)
Lemma validate_file_path_trace ev :
  In ev (trace (validate_file_path os __init__ s file_path)) ->
  ev = Mkdir (Pathlib.parent (Pathlib.Path file_path)).
Proof.
  unfold validate_file_path, call, bind, ret, raise, emit, try_except, trace.
  destruct (String.eqb file_path ""); simpl; [tauto|].
  destruct (path_exists os s (Pathlib.parent (Pathlib.Path file_path))); simpl.
  - destruct (access_w os s _); simpl; [|tauto].
    destruct (path_exists os s (Pathlib.Path file_path) && _); simpl; tauto.
  - destruct (mkdir os s _) as [s' [e|]]; simpl.
    + destruct (isinstance e PermissionError); simpl; intuition congruence.
    + destruct (access_w os s' _); simpl; [|intuition congruence].
      destruct (path_exists os s' (Pathlib.Path file_path) && _); simpl;
        intuition congruence.
Qed.

Hypothesis Hdata : empty data = false.

Lemma export_to_csv_wrong_extension :
  lower (Pathlib.suffix (Pathlib.Path file_path)) <> ".csv" ->
  exists msg,
    outcome (export_to_csv os __init__ s data file_path kwargs)
      = Raise (mk_exn Exception ("Failed to export CSV file: " +:+ msg)) /\
    (forall ev, In ev (trace (export_to_csv os __init__ s data file_path kwargs)) ->
                ev = Mkdir (Pathlib.parent (Pathlib.Path file_path))) /\
    (forall s', outcome (validate_file_path os __init__ s file_path) = Ok s' ->
                msg = "CSV format requires .csv file extension").
Proof.
  intros Hext. apply String.eqb_neq in Hext.
  pose proof validate_file_path_trace as Htr.
  unfold export_to_csv, _validate_export_inputs. rewrite Hdata. simpl.
  destruct (validate_file_path os __init__ s file_path) as [tr [s'|e]]; simpl in *.
  - rewrite Hext. simpl.
    exists "CSV format requires .csv file extension".
    split; [reflexivity|]. split; [|reflexivity].
    intros ev Hin. rewrite !app_nil_r in Hin. apply Htr, Hin.
  - exists (exn_msg e). split; [reflexivity|]. split.
    + intros ev Hin. rewrite !app_nil_r in Hin. apply Htr, Hin.
    + intros s' [=].
Qed.

Lemma export_to_excel_wrong_extension :
  lower (Pathlib.suffix (Pathlib.Path file_path)) <> ".xlsx" ->
  lower (Pathlib.suffix (Pathlib.Path file_path)) <> ".xls" ->
  exists msg,
    outcome (export_to_excel os __init__ s data file_path kwargs)
      = Raise (mk_exn Exception ("Failed to export Excel file: " +:+ msg)) /\
    (forall ev, In ev (trace (export_to_excel os __init__ s data file_path kwargs)) ->
                ev = Mkdir (Pathlib.parent (Pathlib.Path file_path))) /\
    (forall s', outcome (validate_file_path os __init__ s file_path) = Ok s' ->
                msg = "Excel format requires .xlsx or .xls file extension").
Proof.
  intros Hx Hxs. apply String.eqb_neq in Hx, Hxs.
  pose proof validate_file_path_trace as Htr.
  unfold export_to_excel, _validate_export_inputs. rewrite Hdata. simpl.
  destruct (validate_file_path os __init__ s file_path) as [tr [s'|e]]; simpl in *.
  - rewrite Hx, Hxs. simpl.
    exists "Excel format requires .xlsx or .xls file extension".
    split; [reflexivity|]. split; [|reflexivity].
    intros ev Hin. rewrite !app_nil_r in Hin. apply Htr, Hin.
  - exists (exn_msg e). split; [reflexivity|]. split.
    + intros ev Hin. rewrite !app_nil_r in Hin. apply Htr, Hin.
    + intros s' [=].
Qed.

End ExportValidation.

(** C6: for a non-empty table, the CSV export to a path whose extension
    is not [.csv] (such as [.xlsx]) and the Excel export to a path whose
    extension is neither [.xlsx] nor [.xls] (such as [.csv]) both raise.
    The error is raised by input validation: it is the extension error
    whenever the path itself validates, and nothing was written before it,
    the only file-system call that can precede it being the creation of the
    parent directory by the path check (no [to_csv], no [to_excel]).  The
    service re-raises it as a generic exception carrying the message. *)
Theorem export_extension_enforced {fs : Type} (os : ExportService.OS fs) (s : fs)
    (data : DataFrame) (file_path : string) (kwargs : list (string * string)) :
  empty data = false ->
  (lower (Pathlib.suffix (Pathlib.Path file_path)) <> ".csv" ->
   exists msg,
     outcome (ExportService.export_to_csv os ExportService.__init__ s data file_path kwargs)
       = Raise (mk_exn Exception ("Failed to export CSV file: " +:+ msg)) /\
     (forall ev,
         In ev (trace (ExportService.export_to_csv os ExportService.__init__ s
                         data file_path kwargs)) ->
         ev = ExportService.Mkdir (Pathlib.parent (Pathlib.Path file_path))) /\
     (forall s',
         outcome (ExportService.validate_file_path os ExportService.__init__ s file_path)
           = Ok s' ->
         msg = "CSV format requires .csv file extension"))
  /\
  (lower (Pathlib.suffix (Pathlib.Path file_path)) <> ".xlsx" ->
   lower (Pathlib.suffix (Pathlib.Path file_path)) <> ".xls" ->
   exists msg,
     outcome (ExportService.export_to_excel os ExportService.__init__ s data file_path kwargs)
       = Raise (mk_exn Exception ("Failed to export Excel file: " +:+ msg)) /\
     (forall ev,
         In ev (trace (ExportService.export_to_excel os ExportService.__init__ s
                         data file_path kwargs)) ->
         ev = ExportService.Mkdir (Pathlib.parent (Pathlib.Path file_path))) /\
     (forall s',
         outcome (ExportService.validate_file_path os ExportService.__init__ s file_path)
           = Ok s' ->
         msg = "Excel format requires .xlsx or .xls file extension")).
Proof.
  intros Hdata. split.
  - apply export_to_csv_wrong_extension, Hdata.
  - apply export_to_excel_wrong_extension, Hdata.
Qed.

(** The CSV export of a two-row table to [out/result.xlsx] on a writable
    file system. *)
Lemma export_extension_enforced_witness :
  exists msg,
    outcome (ExportService.export_to_csv SampleFiles.open_fs ExportService.__init__ []
               SampleFiles.customers "out/result.xlsx" [])
      = Raise (mk_exn Exception ("Failed to export CSV file: " +:+ msg)) /\
    (forall ev,
        In ev (trace (ExportService.export_to_csv SampleFiles.open_fs
                        ExportService.__init__ [] SampleFiles.customers
                        "out/result.xlsx" [])) ->
        ev = ExportService.Mkdir (Pathlib.parent (Pathlib.Path "out/result.xlsx"))) /\
    (forall s',
        outcome (ExportService.validate_file_path SampleFiles.open_fs
                   ExportService.__init__ [] "out/result.xlsx") = Ok s' ->
        msg = "CSV format requires .csv file extension").
Proof.
  apply (proj1 (export_extension_enforced SampleFiles.open_fs [] SampleFiles.customers
                  "out/result.xlsx" [] eq_refl)).
  intros H. vm_compute in H. discriminate H.
Defined.

(** The two exports of the specification's example, evaluated: nothing is
    written, and the message is the extension error. *)
Lemma export_examples :
  ExportService.export_to_csv SampleFiles.open_fs ExportService.__init__ []
    SampleFiles.customers "out/result.xlsx" []
  = ([], Raise (mk_exn Exception
                  "Failed to export CSV file: CSV format requires .csv file extension"))
  /\
  ExportService.export_to_excel SampleFiles.open_fs ExportService.__init__ []
    SampleFiles.customers "out/result.csv" []
  = ([], Raise (mk_exn Exception
                  "Failed to export Excel file: Excel format requires .xlsx or .xls file extension"))
  /\
  ExportService.export_to_csv SampleFiles.open_fs ExportService.__init__ []
    SampleFiles.customers "out/result.csv" []
  = ([ExportService.Mkdir (Pathlib.mk "" ["out"]);
      ExportService.ToCsv "out/result.csv" SampleFiles.customers
        [("index", "False"); ("encoding", "utf-8")]],
     Ok (["mkdir out"; "to_csv out/result.csv"], true)).
Proof. repeat split; vm_compute; reflexivity. Qed.

(** ** The error handler: the retry cap *)

Section RetryCap.

Import ErrorHandler RetrySpec.

Variables (error : exn) (context : string).

Lemma dialog_title_eq (self : t) :
  match snd (_categorize_error error) with
  | CRITICAL => "Critical Error"
  | ERROR => "Error"
  | WARNING => "Warning"
  | INFO => "Information"
  end = dialog_title error.
Proof. reflexivity. Qed.

(** Below the cap: one prompt; when the user accepts and the retry fails
    by returning a false value, the counter of the context goes up by one. *)
Lemma handle_error_below_cap fuel (self : t) (w : World) (c : Z) :
  default 0%Z (retry_counts self !! context) = c ->
  (c < max_retries self)%Z ->
  answers w (asked w) = true ->
  callback w (called w) = Returns false ->
  handle_error (S fuel) self w error context true true true
  = Some (set_retry_count self context (c + 1),
          mk_world (answers w) (callback w) (S (asked w)) (S (called w))
            ((shown w ++ [LogError error context])
             ++ [retry_prompt self error context (c + 1)]),
          false).
Proof.
  intros Hc Hlt Hyes Hfail.
  cbn [handle_error].
  destruct (_categorize_error error) as [category severity] eqn:Hcat.
  unfold _show_error_dialog, _show_retry_dialog. cbn [andb].
  rewrite Hc. apply Z.leb_gt in Hlt. rewrite Hlt.
  unfold askyesno, call_retry, show. cbn.
  rewrite Hyes, Hfail.
  unfold retry_prompt, dialog_title, detailed_message. rewrite Hcat. cbn [snd].
  reflexivity.
Qed.

(** At the cap: the terminal dialog, no prompt, no retry, counter unchanged. *)
Lemma handle_error_at_cap fuel (self : t) (w : World) :
  (max_retries self <= default 0%Z (retry_counts self !! context))%Z ->
  handle_error (S fuel) self w error context true true true
  = Some (self,
          mk_world (answers w) (callback w) (asked w) (called w)
            ((shown w ++ [LogError error context])
             ++ [max_retries_dialog self error context]),
          false).
Proof.
  intros Hge.
  cbn [handle_error].
  destruct (_categorize_error error) as [category severity] eqn:Hcat.
  unfold _show_error_dialog, _show_retry_dialog. cbn [andb].
  apply Z.leb_le in Hge. rewrite Hge.
  unfold show, max_retries_dialog, dialog_title, detailed_message.
  rewrite Hcat. cbn. reflexivity.
Qed.

(** Below the cap, when the user accepts and the retry raises: the
    handler logs a warning and calls itself with the new error, under the
    context [Retry attempt n], a retry still being allowed. *)
Lemma handle_error_retry_raises fuel (self : t) (w : World) (c : Z) (retry_error : exn) :
  default 0%Z (retry_counts self !! context) = c ->
  (c < max_retries self)%Z ->
  answers w (asked w) = true ->
  callback w (called w) = Raises retry_error ->
  handle_error (S fuel) self w error context true true true
  = handle_error fuel (set_retry_count self context (c + 1))
      (mk_world (answers w) (callback w) (S (asked w)) (S (called w))
         (shown w ++ [LogError error context;
                      retry_prompt self error context (c + 1);
                      LogWarning ("Retry attempt " +:+ str_Z (c + 1) +:+ " failed: "
                                  +:+ exn_msg retry_error)]))
      retry_error ("Retry attempt " +:+ str_Z (c + 1)) true true true.
Proof.
  intros Hc Hlt Hyes Hraise.
  cbn [handle_error].
  destruct (_categorize_error error) as [category severity] eqn:Hcat.
  unfold _show_error_dialog, _show_retry_dialog. cbn [andb].
  rewrite Hc. apply Z.leb_gt in Hlt. rewrite Hlt.
  unfold askyesno, call_retry, show. cbn.
  rewrite Hyes, Hraise.
  unfold retry_prompt, dialog_title, detailed_message. rewrite Hcat. cbn [snd].
  rewrite <- !app_assoc. reflexivity.
Qed.

Lemma retry_count_after_set (self : t) (n : Z) :
  default 0%Z (retry_counts (set_retry_count self context n) !! context) = n.
Proof. unfold set_retry_count. cbn. rewrite lookup_insert_eq. reflexivity. Qed.

End RetryCap.

(** C8: a handler is created with [max_retries = 3] and no counters.
    When one failure is handled four times in a row under one
    context through the retry dialog (each prompt answered yes, each retry
    failing again by returning a false value, the context's counter
    starting at zero), the first three times offer a retry, as attempts 1, 2
    and 3 of 3, and the fourth time shows the terminal dialog saying that
    the maximum of 3 retry attempts is reached, with no prompt and no
    retry: three prompts and three retries in all.  A retry that fails by
    raising is another matter: below the cap the dialog hands the new error
    to [handle_error] again, retry allowed, under the context
    [Retry attempt n], which has a counter of its own. *)
Theorem retry_cap_enforced :
  (forall messages suggestions,
      ErrorHandler.max_retries (ErrorHandler.__init__ messages suggestions) = 3%Z /\
      ErrorHandler.retry_counts (ErrorHandler.__init__ messages suggestions) = ∅) /\
  (forall (fuel : nat) (self : ErrorHandler.t) (w : ErrorHandler.World)
          (error : exn) (context : string),
      ErrorHandler.max_retries self = 3%Z ->
      default 0%Z (ErrorHandler.retry_counts self !! context) = 0%Z ->
      (forall k, ErrorHandler.answers w k = true) ->
      (forall k, ErrorHandler.callback w k = ErrorHandler.Returns false) ->
      exists self' w',
        RetrySpec.fail_repeatedly (S fuel) 4 self w error context = Some (self', w') /\
        ErrorHandler.shown w'
        = ErrorHandler.shown w
          ++ [ErrorHandler.LogError error context;
              RetrySpec.retry_prompt self error context 1;
              ErrorHandler.LogError error context;
              RetrySpec.retry_prompt self error context 2;
              ErrorHandler.LogError error context;
              RetrySpec.retry_prompt self error context 3;
              ErrorHandler.LogError error context;
              RetrySpec.max_retries_dialog self error context] /\
        ErrorHandler.asked w' = (ErrorHandler.asked w + 3)%nat /\
        ErrorHandler.called w' = (ErrorHandler.called w + 3)%nat /\
        ErrorHandler.retry_counts self' !! context = Some 3%Z) /\
  (forall (fuel : nat) (self : ErrorHandler.t) (w : ErrorHandler.World)
          (error retry_error : exn) (context : string) (c : Z),
      default 0%Z (ErrorHandler.retry_counts self !! context) = c ->
      (c < ErrorHandler.max_retries self)%Z ->
      ErrorHandler.answers w (ErrorHandler.asked w) = true ->
      ErrorHandler.callback w (ErrorHandler.called w) = ErrorHandler.Raises retry_error ->
      ErrorHandler.handle_error (S fuel) self w error context true true true
      = ErrorHandler.handle_error fuel
          (ErrorHandler.set_retry_count self context (c + 1))
          (ErrorHandler.mk_world (ErrorHandler.answers w) (ErrorHandler.callback w)
             (S (ErrorHandler.asked w)) (S (ErrorHandler.called w))
             (ErrorHandler.shown w
              ++ [ErrorHandler.LogError error context;
                  RetrySpec.retry_prompt self error context (c + 1);
                  ErrorHandler.LogWarning
                    ("Retry attempt " +:+ str_Z (c + 1) +:+ " failed: "
                     +:+ exn_msg retry_error)]))
          retry_error ("Retry attempt " +:+ str_Z (c + 1)) true true true).
Proof.
  split; [intros; split; reflexivity|].
  split; [|intros fuel self w error retry_error context c;
           apply handle_error_retry_raises].
  intros fuel self w error context Hmax Hzero Hyes Hfail.
  unfold RetrySpec.fail_repeatedly.
  rewrite (handle_error_below_cap error context fuel self w 0); auto; [|lia].
  rewrite (handle_error_below_cap error context fuel _ _ 1);
    [|apply retry_count_after_set|cbn; lia|apply Hyes|apply Hfail].
  rewrite (handle_error_below_cap error context fuel _ _ 2);
    [|apply retry_count_after_set|cbn; lia|apply Hyes|apply Hfail].
  rewrite handle_error_at_cap; [|rewrite retry_count_after_set; cbn; lia].
  eexists _, _. split; [reflexivity|]. cbn.
  repeat split.
  - rewrite <- !app_assoc. reflexivity.
  - lia.
  - lia.
  - apply lookup_insert_eq.
Qed.

(** A fresh handler, a user who always retries and a callback that always
    fails: three prompts, then the terminal dialog. *)
Lemma retry_cap_enforced_witness :
  exists self' w',
    RetrySpec.fail_repeatedly 1 4 RetrySpec.plain_handler RetrySpec.persistent_failure
      (mk_exn ComparisonOperationError "comparison failed") "Error during comparison"
    = Some (self', w') /\
    List.length (List.filter RetrySpec.is_prompt (ErrorHandler.shown w')) = 3%nat /\
    last (ErrorHandler.shown w') (ErrorHandler.LogInfo "")
    = RetrySpec.max_retries_dialog RetrySpec.plain_handler
        (mk_exn ComparisonOperationError "comparison failed") "Error during comparison".
Proof.
  destruct (proj1 (proj2 retry_cap_enforced) 0%nat RetrySpec.plain_handler
              RetrySpec.persistent_failure
              (mk_exn ComparisonOperationError "comparison failed")
              "Error during comparison" eq_refl eq_refl
              (fun _ => eq_refl) (fun _ => eq_refl))
    as (self' & w' & Hrun & Hshown & _).
  exists self', w'. split; [exact Hrun|]. rewrite Hshown. split; reflexivity.
Defined.

(** The cap does not bound the prompts when the retry raises: the same
    failure handled four times in a row under one context, every prompt
    accepted and every retry raising, is offered twelve retries, not three. *)
Lemma retry_prompts_exceed_cap_when_retry_raises :
  option_map
    (fun r => List.length (List.filter RetrySpec.is_prompt (ErrorHandler.shown (snd r))))
    (RetrySpec.fail_repeatedly 7 4 RetrySpec.plain_handler RetrySpec.raising_failure
       (mk_exn ComparisonOperationError "comparison failed") "Error during comparison")
  = Some 12%nat.
Proof. vm_compute. reflexivity. Qed.

(** When the retry callback fails by raising instead, the handler calls
    itself under the new context [Retry attempt n], whose counter starts
    at zero: one call on a fresh handler, with every prompt accepted, asks
    six times before a terminal dialog appears. *)
Lemma retry_chain_when_callback_raises :
  option_map
    (fun r => (List.length (List.filter RetrySpec.is_prompt
                              (ErrorHandler.shown (snd (fst r)))),
               ErrorHandler.called (snd (fst r)),
               ErrorHandler.retry_counts (fst (fst r)) !! "Error during comparison",
               ErrorHandler.retry_counts (fst (fst r)) !! "Retry attempt 1",
               ErrorHandler.retry_counts (fst (fst r)) !! "Retry attempt 2",
               ErrorHandler.retry_counts (fst (fst r)) !! "Retry attempt 3"))
    (ErrorHandler.handle_error 8 RetrySpec.plain_handler RetrySpec.raising_failure
       (mk_exn ComparisonOperationError "comparison failed")
       "Error during comparison" true true true)
  = Some (6%nat, 6%nat, Some 1%Z, Some 3%Z, Some 1%Z, Some 1%Z).
Proof. vm_compute. reflexivity. Qed.

(** ** The results panel: pagination *)

Section Pagination.

Import ResultsPanel PanelSpec.

Lemma ceil_div_formula n d :
  (0 <= n)%Z -> (0 < d)%Z -> ((n + d - 1) / d = ceil_div n d)%Z.
Proof.
  intros Hn Hd. unfold ceil_div.
  pose proof (Z.div_mod n d ltac:(lia)) as Hdm.
  pose proof (Z.mod_pos_bound n d Hd) as Hb.
  destruct (n mod d =? 0)%Z eqn:Hz.
  - apply Z.eqb_eq in Hz.
    symmetry. apply (Z.div_unique _ _ _ (d - 1)); lia.
  - apply Z.eqb_neq in Hz.
    symmetry. apply (Z.div_unique _ _ _ (n mod d - 1)); lia.
Qed.

Lemma ceil_div_bounds n d :
  (0 <= n)%Z -> (0 < d)%Z ->
  (n <= ceil_div n d * d /\ (ceil_div n d - 1) * d < n \/ n = 0 /\ ceil_div n d = 0)%Z.
Proof.
  intros Hn Hd. unfold ceil_div.
  pose proof (Z.div_mod n d ltac:(lia)) as Hdm.
  pose proof (Z.mod_pos_bound n d Hd) as Hb.
  destruct (n mod d =? 0)%Z eqn:Hz.
  - apply Z.eqb_eq in Hz.
    destruct (Z.eq_dec n 0) as [->|Hn0].
    + right. split; [reflexivity|]. apply Z.div_0_l. lia.
    + left. nia.
  - apply Z.eqb_neq in Hz. left. nia.
Qed.

Lemma len_nonneg df : (0 <= len df)%Z.
Proof. unfold len. lia. Qed.

Lemma empty_iff_no_rows df :
  df_columns df <> [] -> (empty df = true <-> df_rows df = []).
Proof.
  unfold empty. intros Hc.
  destruct (df_rows df), (df_columns df); try contradiction; split; congruence.
Qed.

Variable r : OperationResult.
Hypothesis Hcols : df_columns (result_data r) <> [].

(** Re-rendering a panel whose page fields are right shows the page. *)
Lemma update_table_display_shows (self : t) :
  operation_result self = Some r ->
  (0 < rows_per_page self)%Z ->
  total_pages self = Z.max 1 (ceil_div (len (result_data r)) (rows_per_page self)) ->
  (0 <= current_page self < total_pages self)%Z ->
  shows_current_page r (_update_table_display self).
Proof.
  intros Hres Hk Htot Hp.
  unfold _update_table_display. rewrite Hres.
  destruct (empty (result_data r)) eqn:He.
  - apply (empty_iff_no_rows _ Hcols) in He.
    unfold shows_current_page, _update_pagination_buttons, set_table, set_widgets.
    cbn. rewrite He.
    repeat split; auto; try lia.
    + unfold rows_between. rewrite skipn_nil, firstn_nil. reflexivity.
    + destruct (current_page self <? total_pages self - 1)%Z eqn:E;
        [discriminate|]. apply Z.ltb_ge in E. lia.
    + intros ->. replace (total_pages self - 1 <? total_pages self - 1)%Z with false;
        [reflexivity|]. symmetry. apply Z.ltb_irrefl.
    + destruct (0 <? current_page self)%Z eqn:E; [discriminate|].
      apply Z.ltb_ge in E. lia.
    + intros ->. reflexivity.
  - unfold shows_current_page, _update_pagination_buttons, set_table, set_widgets.
    cbn. unfold end_idx. unfold start_idx. cbn.
    repeat split; auto; try lia.
    + unfold rows_between. f_equal. f_equal; [f_equal; lia|f_equal; f_equal; lia].
    + destruct (current_page self <? total_pages self - 1)%Z eqn:E;
        [discriminate|]. apply Z.ltb_ge in E. lia.
    + intros ->. replace (total_pages self - 1 <? total_pages self - 1)%Z with false;
        [reflexivity|]. symmetry. apply Z.ltb_irrefl.
    + destruct (0 <? current_page self)%Z eqn:E; [discriminate|].
      apply Z.ltb_ge in E. lia.
    + intros ->. reflexivity.
Qed.

(** Writing to widgets other than the table and the two page buttons
    does not change what is shown. *)
Lemma shows_set_widgets (self : t) (w : Widgets) :
  shows_current_page r self ->
  tree_rows w = tree_rows (widgets self) ->
  next_button w = next_button (widgets self) ->
  prev_button w = prev_button (widgets self) ->
  shows_current_page r (set_widgets self w).
Proof.
  unfold shows_current_page, set_widgets. cbn.
  intros (H1 & H2 & H3 & H4 & H5 & H6 & H7) -> -> ->. auto 10.
Qed.

Lemma display_results_shows (self : t) :
  (0 < rows_per_page self)%Z ->
  shows_current_page r (display_results self r).
Proof.
  intros Hk. unfold display_results.
  apply shows_set_widgets; try reflexivity.
  apply update_table_display_shows; cbn.
  - reflexivity.
  - exact Hk.
  - rewrite ceil_div_formula; [reflexivity|apply len_nonneg|exact Hk].
  - lia.
Qed.

Lemma next_page_shows (self : t) :
  shows_current_page r self -> shows_current_page r (_next_page self).
Proof.
  intros H. pose proof H as (H1 & H2 & H3 & H4 & _).
  unfold _next_page.
  destruct (current_page self <? total_pages self - 1)%Z eqn:E; [|exact H].
  apply Z.ltb_lt in E.
  apply update_table_display_shows; cbn; auto; lia.
Qed.

Lemma previous_page_shows (self : t) :
  shows_current_page r self -> shows_current_page r (_previous_page self).
Proof.
  intros H. pose proof H as (H1 & H2 & H3 & H4 & _).
  unfold _previous_page.
  destruct (0 <? current_page self)%Z eqn:E; [|exact H].
  apply Z.ltb_lt in E.
  apply update_table_display_shows; cbn; auto; lia.
Qed.

Lemma py_int_choice c :
  exists v, py_int (choice_text c) = Some v /\ (0 < v)%Z.
Proof. destruct c; eexists; (split; [vm_compute; reflexivity|lia]). Qed.

Lemma rows_per_page_shows (self : t) (c : rows_choice) :
  shows_current_page r self -> shows_current_page r (step self (RowsPerPage c)).
Proof.
  intros H. pose proof H as (H1 & H2 & H3 & H4 & _).
  destruct (py_int_choice c) as (v & Hv & Hpos).
  unfold step, _on_rows_per_page_changed, select_rows_per_page.
  cbn [widgets set_widgets rows_per_page_var rows_per_page operation_result].
  rewrite Hv.
  destruct (v =? rows_per_page self)%Z eqn:E; cbn [negb].
  - apply shows_set_widgets; auto.
  - rewrite H1.
    replace (v =? 0)%Z with false by (symmetry; apply Z.eqb_neq; lia).
    apply update_table_display_shows; cbn; auto.
    + rewrite ceil_div_formula; [reflexivity|apply len_nonneg|exact Hpos].
    + lia.
Qed.

Lemma run_shows (actions : list action) (self : t) :
  shows_current_page r self -> shows_current_page r (run actions self).
Proof.
  revert self. induction actions as [|a actions IH]; intros self H; [exact H|].
  apply IH. destruct a.
  - apply next_page_shows, H.
  - apply previous_page_shows, H.
  - apply rows_per_page_shows, H.
Qed.

End Pagination.

(** C5: after [display_results], and after any further use of the Next
    and Previous buttons and of the rows-per-page selector, the panel shows
    the current page [p] of a result of [n] rows with [k] rows per page: the
    page count is [ceil(n / k)] with a floor of one, the table holds the rows
    [p*k + 1] to [min((p+1)*k, n)] and no other, the Next button is disabled
    exactly on the last page and the Previous button exactly on the first.
    For 250 rows and 100 rows per page there are 3 pages and page 2 shows
    the rows 201 to 250. *)
Theorem pagination_shows_current_page
    (self : ResultsPanel.t) (r : OperationResult) (actions : list PanelSpec.action) :
  (0 < ResultsPanel.rows_per_page self)%Z ->
  df_columns (result_data r) <> [] ->
  PanelSpec.shows_current_page r
    (PanelSpec.run actions (ResultsPanel.display_results self r))
  /\
  (let first := ResultsPanel.display_results ResultsPanel.__init__ PanelSpec.result_250 in
   let last := PanelSpec.run [PanelSpec.Next; PanelSpec.Next] first in
   ResultsPanel.total_pages first = 3%Z /\
   ResultsPanel.current_page first = 0%Z /\
   ResultsPanel.prev_button (ResultsPanel.widgets first) = ResultsPanel.disabled /\
   ResultsPanel.next_button (ResultsPanel.widgets first) = ResultsPanel.normal /\
   ResultsPanel.current_page last = 2%Z /\
   ResultsPanel.page_info_var (ResultsPanel.widgets last)
     = "Page 3 of 3 (showing rows 201-250 of 250)" /\
   ResultsPanel.tree_rows (ResultsPanel.widgets last)
     = map (fun i => [str_nat i]) (seq 201 50) /\
   ResultsPanel.prev_button (ResultsPanel.widgets last) = ResultsPanel.normal /\
   ResultsPanel.next_button (ResultsPanel.widgets last) = ResultsPanel.disabled /\
   PanelSpec.run [PanelSpec.Next] last = last).
Proof.
  intros Hk Hcols. split.
  - apply run_shows; [exact Hcols|]. apply display_results_shows; assumption.
  - vm_compute. repeat split; reflexivity.
Qed.

(** The default panel and the 250-row result satisfy the hypotheses. *)
Lemma pagination_shows_current_page_witness :
  PanelSpec.shows_current_page PanelSpec.result_250
    (PanelSpec.run [PanelSpec.Next; PanelSpec.RowsPerPage PanelSpec.R50; PanelSpec.Next]
       (ResultsPanel.display_results ResultsPanel.__init__ PanelSpec.result_250)).
Proof.
  apply (proj1 (pagination_shows_current_page ResultsPanel.__init__ PanelSpec.result_250
                  [PanelSpec.Next; PanelSpec.RowsPerPage PanelSpec.R50; PanelSpec.Next]
                  eq_refl ltac:(discriminate))).
Defined.

(** ** The controller: workflow transitions *)

Section Workflow.

Import MainController WorkflowSpec.

Variable env : Env.





Lemma validate_file_selection_state self :
  current_state (fst (_validate_file_selection self)) = current_state self.
Proof. unfold _validate_file_selection. destruct (_ || _); reflexivity. Qed.

Lemma validate_column_mapping_state self :
  current_state (fst (_validate_column_mapping self)) = current_state self.
Proof.
  unfold _validate_column_mapping.
  destruct (selected_columns self) as [[c1 c2]|]; [|reflexivity].
  destruct (_ || _); reflexivity.
Qed.

Lemma validate_operation_config_state self :
  current_state (fst (_validate_operation_config self)) = current_state self.
Proof.
  unfold _validate_operation_config.
  destruct (selected_operation self) as [op|]; [|reflexivity].
  destruct (negb _); reflexivity.
Qed.


Lemma validate_workflow_transition_state self forward :
  current_state (fst (_validate_workflow_transition self forward)) = current_state self.
Proof.
  unfold _validate_workflow_transition.
  destruct forward.
  - destruct (n_states - 1 <=? value (current_state self))%Z; [reflexivity|].
    destruct (current_state self) eqn:E;
      rewrite ?validate_file_selection_state, ?validate_column_mapping_state,
        ?validate_operation_config_state; auto.
  - destruct (value (current_state self) <=? 0)%Z; reflexivity.
Qed.


Lemma value_inj a b : value a = value b -> a = b.
Proof. destruct a, b; cbn; intros H; try reflexivity; discriminate H. Qed.










End Workflow.




(** ** The direct path removes every matching row *)

Section DirectPathRemoves.

Import ComparisonEngine.

Lemma cell_eqb_eq a b : cell_eqb a b = true -> a = b.
Proof.
  destruct a, b; cbn; try discriminate; intros H; try reflexivity.
  - apply String.eqb_eq in H. congruence.
  - apply Z.eqb_eq in H. congruence.
Qed.

Lemma cell_eqb_refl a : cell_eqb a a = true.
Proof.
  destruct a; cbn; [reflexivity|apply String.eqb_refl|apply Z.eqb_refl].
Qed.

Lemma mem_cell_In x vals : mem_cell x vals = true <-> In x vals.
Proof.
  induction vals as [|y vals IH]; cbn; [split; [discriminate|tauto]|].
  destruct (cell_eqb x y) eqn:E.
  - apply cell_eqb_eq in E. subst. tauto.
  - rewrite IH. split; [tauto|]. intros [->|H]; [|exact H].
    rewrite cell_eqb_refl in E. discriminate.
Qed.

Lemma select_map_filter {A} (f : A -> bool) (l : list A) :
  select (map f l) l = List.filter f l.
Proof. induction l as [|x l IH]; cbn; [reflexivity|]. rewrite IH. reflexivity. Qed.

(** The text of a present value does not depend on the dtype, floats
    apart. *)
Lemma str_of_cell_notna dt dt' c :
  notna c = true -> is_float_dtype dt = false -> is_float_dtype dt' = false ->
  str_of_cell dt c = str_of_cell dt' c.
Proof.
  intros Hc Hdt Hdt'. destruct c; [discriminate|reflexivity|].
  cbn. rewrite Hdt, Hdt'. reflexivity.
Qed.

Lemma string_group_not_float dt :
  get_type_group dt = "string" -> is_float_dtype dt = false.
Proof.
  unfold is_float_dtype. destruct (String.eqb dt "float64") eqn:E; [|reflexivity].
  apply String.eqb_eq in E. subst dt. vm_compute. discriminate.
Qed.

Lemma string_like_group s : is_string_like s = true -> get_type_group (s_dtype s) = "string".
Proof.
  unfold is_string_like. intros H. apply orb_true_iff in H.
  destruct H as [H|H]; apply String.eqb_eq in H; rewrite H; reflexivity.
Qed.

Variables (self : ComparisonEngine.t) (df1 df2 : DataFrame) (col1 col2 : string).
Variables (s1 s2 : Series) (j : nat).
Hypothesis Hcol1 : column df1 col1 = Some s1.
Hypothesis Hcol2 : column df2 col2 = Some s2.
Hypothesis Hj : col_index (df_columns df2) col2 = Some j.
Hypothesis Hrun : cancelled self = false.
Hypothesis Hvalid : fst (validate_column_compatibility self df1 df2 col1 col2) = true.

Lemma valid_same_group : get_type_group (s_dtype s1) = get_type_group (s_dtype s2).
Proof.
  unfold validate_column_compatibility in Hvalid. rewrite Hcol1, Hcol2 in Hvalid.
  destruct ((0 <? len df1)%Z && isna_all s1); [discriminate|].
  destruct ((0 <? len df2)%Z && isna_all s2); [discriminate|].
  destruct (String.eqb (get_type_group (s_dtype s1)) (get_type_group (s_dtype s2))) eqn:E;
    [apply String.eqb_eq, E|discriminate].
Qed.

Lemma key_column : s_values s2 = map (cell_at j) (df_rows df2).
Proof.
  unfold column in Hcol2. rewrite Hj in Hcol2. injection Hcol2 as <-. reflexivity.
Qed.

(** A row that survives the removal has a key that is missing or does
    not occur among the keys of file 1. *)
Lemma surviving_row_has_no_match cs row :
  In row (select (invert (membership_mask s1 s2 cs)) (df_rows df2)) ->
  notna (cell_at j row) = true ->
  mem_cell (cell_at j row) (s_values s1) = false.
Proof.
  intros Hin Hpresent.
  destruct (mem_cell (cell_at j row) (s_values s1)) eqn:Hmem; [exfalso|reflexivity].
  apply mem_cell_In in Hmem.
  assert (Hmask : exists g : Pandas.row -> bool,
             invert (membership_mask s1 s2 cs) = map (fun r => negb (g r)) (df_rows df2)
             /\ g row = true).
  { unfold membership_mask, isin, invert.
    destruct cs; [|destruct (is_string_like s2) eqn:Hlike].
    - exists (fun r => mem_cell (cell_at j r) (s_values s1)). split.
      + rewrite key_column, !map_map. reflexivity.
      + apply mem_cell_In, Hmem.
    - exists (fun r => mem_cell (Str (lower (str_of_cell (s_dtype s2) (cell_at j r))))
                         (s_values (str_lower (astype_str s1)))). split.
      + cbn. rewrite key_column, !map_map. reflexivity.
      + apply mem_cell_In. cbn. rewrite map_map. apply in_map_iff.
        exists (cell_at j row). split; [|exact Hmem].
        apply string_like_group in Hlike.
        rewrite (str_of_cell_notna (s_dtype s1) (s_dtype s2) _ Hpresent);
          [reflexivity| |]; apply string_group_not_float;
          [rewrite valid_same_group|]; exact Hlike.
    - exists (fun r => mem_cell (cell_at j r) (s_values s1)). split.
      + rewrite key_column, !map_map. reflexivity.
      + apply mem_cell_In, Hmem. }
  destruct Hmask as (g & Hg & Hrow).
  rewrite Hg, select_map_filter in Hin. apply filter_In in Hin.
  rewrite Hrow in Hin. destruct Hin as [_ Hin]. discriminate Hin.
Qed.

(** On the direct path [remove_matches] does what its docstring says:
    the result consists of rows of [df2], in their order, and none of them
    has a present key that occurs among the keys of [df1]. *)
Lemma remove_matches_direct_removes_every_match cs cb :
  (10000 <? len df1 + len df2)%Z && cb = false ->
  exists r,
    outcome (remove_matches self df1 df2 col1 col2 cs cb) = Ok r /\
    original_count r = len df2 /\
    (forall row, In row (df_rows (result_data r)) ->
                 In row (df_rows df2) /\
                 (notna (cell_at j row) = true ->
                  mem_cell (cell_at j row) (s_values s1) = false)).
Proof.
  intros Hsmall.
  destruct (remove_matches_direct self df1 df2 col1 col2 s1 s2 Hcol1 Hcol2 Hrun Hvalid
              cs cb Hsmall) as (r & Hr & Hd & Ho & _).
  exists r. split; [exact Hr|]. split; [exact Ho|].
  rewrite Hd. cbn. intros row Hin. split.
  - clear - Hin. revert Hin. generalize (invert (membership_mask s1 s2 cs)).
    generalize (df_rows df2). intros l m. revert l.
    induction m as [|b m IH]; intros [|x l]; cbn; try tauto.
    destruct b; cbn; intros H; [destruct H as [H|H]; auto|auto].
  - apply (surviving_row_has_no_match cs), Hin.
Qed.

End DirectPathRemoves.

(** ** Further inputs on which the two paths disagree *)

(** Missing keys: the direct path's [isin] matches a missing key of file 2
    with a missing key of file 1, the optimizer's lookup set drops missing
    values.  Case-sensitive, 10001 + 2 rows. *)
Lemma paths_disagree_on_missing_keys :
  option_map (fun r => df_rows (result_data r))
    (match outcome (ComparisonEngine.remove_matches ComparisonEngine.__init__
                      LargeSamples.gap_then_k LargeSamples.gap_and_d
                      "key" "key" true false) with
     | Ok r => Some r | Raise _ => None end)
  = Some [[Str "d"]]
  /\
  option_map (fun r => df_rows (result_data r))
    (match outcome (ComparisonEngine.remove_matches ComparisonEngine.__init__
                      LargeSamples.gap_then_k LargeSamples.gap_and_d
                      "key" "key" true true) with
     | Ok r => Some r | Raise _ => None end)
  = Some [[NaN]; [Str "d"]].
Proof. split; vm_compute; reflexivity. Qed.

(** An empty file 2: the direct path returns an empty result, the
    optimizer divides by the row count. *)
Lemma paths_disagree_on_empty_frame :
  option_map (fun r => df_rows (result_data r))
    (match outcome (ComparisonEngine.keep_only_matches ComparisonEngine.__init__
                      LargeSamples.many_k LargeSamples.no_rows
                      "key" "key" true false) with
     | Ok r => Some r | Raise _ => None end)
  = Some []
  /\
  outcome (ComparisonEngine.keep_only_matches ComparisonEngine.__init__
             LargeSamples.many_k LargeSamples.no_rows "key" "key" true true)
  = Raise (mk_exn ZeroDivisionError "division by zero").
Proof. split; vm_compute; reflexivity. Qed.

(** ** Where the optimized path agrees with the direct path *)

Section OptimizedAgrees.

Import ComparisonEngine.

Lemma mem_cell_to_set c vals : mem_cell c (to_set vals) = mem_cell c vals.
Proof.
  induction vals as [|x vals IH]; [reflexivity|]. cbn.
  destruct (mem_cell x vals) eqn:Hx; cbn; rewrite IH.
  - destruct (cell_eqb c x) eqn:E; [|reflexivity].
    apply cell_eqb_eq in E. subst. exact Hx.
  - reflexivity.
Qed.

Lemma filter_notna_all vals :
  forallb notna vals = true -> List.filter notna vals = vals.
Proof.
  induction vals as [|x vals IH]; [reflexivity|]. cbn.
  destruct (notna x); [|discriminate]. cbn. intros H. rewrite IH; auto.
Qed.

Lemma col_index_set_nth cols col i dt :
  col_index cols col = Some i ->
  col_index (set_nth i (col, dt) cols) col = Some i /\
  snd (nth i (set_nth i (col, dt) cols) (col, "object")) = dt.
Proof.
  revert i. induction cols as [|[name d] cols IH]; intros i; [discriminate|].
  cbn. destruct (String.eqb name col) eqn:E.
  - intros [= <-]. cbn. rewrite String.eqb_refl. auto.
  - destruct (col_index cols col) as [k|] eqn:Hk; [|discriminate].
    cbn. intros [= <-]. cbn. rewrite E.
    destruct (IH k eq_refl) as [-> Hs]. cbn. auto.
Qed.

(** Making a column categorical changes its dtype and nothing else. *)
Lemma column_astype_category df col s :
  column df col = Some s ->
  column (astype_category df col) col = Some (mk_series "category" (s_values s)) /\
  df_rows (astype_category df col) = df_rows df.
Proof.
  unfold column, astype_category.
  destruct (col_index (df_columns df) col) as [i|] eqn:Hi; [|discriminate].
  intros H. inversion H as [Hs]. clear H.
  cbn [df_columns df_rows s_values].
  destruct (col_index_set_nth _ _ _ "category" Hi) as [P1 P2].
  unfold dtype in *. rewrite P1, P2. auto.
Qed.

Lemma optimize_dataframe_keeps_values df col s :
  column df col = Some s ->
  (0 < len df)%Z ->
  exists df' s',
    PerformanceOptimizer._optimize_dataframe df [col] = ret df' /\
    df_rows df' = df_rows df /\
    column df' col = Some s' /\
    s_values s' = s_values s.
Proof.
  intros Hc Hlen. cbn [PerformanceOptimizer._optimize_dataframe].
  unfold PerformanceOptimizer.optimize_column. rewrite Hc.
  destruct (String.eqb (s_dtype s) "object").
  - replace (len df =? 0)%Z with false by (symmetry; apply Z.eqb_neq; lia).
    destruct (2 * nunique s <? len df)%Z; rewrite bind_ret_l.
    + destruct (column_astype_category df col s Hc) as [H1 H2]. eauto 10.
    + eauto 10.
  - rewrite bind_ret_l. eauto 10.
Qed.

Variables (self : ComparisonEngine.t) (df1 df2 : DataFrame) (col1 col2 : string).
Variables (s1 s2 : Series).
Hypothesis Hcol1 : column df1 col1 = Some s1.
Hypothesis Hcol2 : column df2 col2 = Some s2.
Hypothesis Hrun : cancelled self = false.
Hypothesis Hvalid : fst (validate_column_compatibility self df1 df2 col1 col2) = true.

(** Case-sensitive, no key missing in file 1, both files non-empty, at
    most 50000 rows (the optimizer does not chunk): the optimized path
    returns the rows of the direct path. *)
Lemma optimized_remove_matches_agrees :
  (10000 <? len df1 + len df2)%Z = true ->
  (50000 <? len df1 + len df2)%Z = false ->
  (0 < len df1)%Z -> (0 < len df2)%Z ->
  forallb notna (s_values s1) = true ->
  exists r,
    outcome (remove_matches self df1 df2 col1 col2 true true) = Ok r /\
    df_rows (result_data r)
    = select (invert (membership_mask s1 s2 true)) (df_rows df2) /\
    original_count r = len df2.
Proof.
  intros Hbig Hnochunk Hlen1 Hlen2 Hpresent.
  unfold remove_matches. rewrite Hrun.
  destruct (validate_column_compatibility self df1 df2 col1 col2) as [ok msg].
  simpl in Hvalid. subst ok. simpl negb. cbv iota. rewrite Hbig. cbn [andb].
  destruct (optimize_dataframe_keeps_values df1 col1 s1 Hcol1 Hlen1)
    as (d1 & t1 & Ho1 & Hr1 & Hc1 & Hv1).
  destruct (optimize_dataframe_keeps_values df2 col2 s2 Hcol2 Hlen2)
    as (d2 & t2 & Ho2 & Hr2 & Hc2 & Hv2).
  eexists. split; [|split].
  - erewrite outcome_bind_ok; [reflexivity|].
    unfold PerformanceOptimizer.optimize_comparison_operation.
    rewrite outcome_bind_notify, Ho1, bind_ret_l, Ho2, bind_ret_l, outcome_bind_notify.
    unfold PerformanceOptimizer._create_optimized_lookup.
    rewrite (getitem_some _ _ _ Hc1), !bind_ret_l. cbn [negb andb].
    rewrite outcome_bind_notify. rewrite Hnochunk. cbn [String.eqb Ascii.eqb Bool.eqb].
    erewrite outcome_bind_ok; [|
      unfold PerformanceOptimizer._optimized_remove_matches; cbn [negb];
      rewrite (getitem_some _ _ _ Hc2), bind_ret_l; reflexivity].
    rewrite !outcome_bind_notify. reflexivity.
  - cbn. rewrite Hr2. f_equal. f_equal.
    unfold membership_mask, isin. rewrite Hv2. apply map_ext. intros c.
    cbn. rewrite Hv1, (filter_notna_all _ Hpresent). apply mem_cell_to_set.
  - reflexivity.
Qed.

End OptimizedAgrees.

(* ===================================================================== *)
(** * Further properties of the services                                  *)
(* ===================================================================== *)

(** ** The comparison engine: errors and edge cases *)

Section EngineEdges.

Import ComparisonEngine.

(** A comparison column that one of the files does not have: each of the
    four operations raises [ValueError] naming the column and the file,
    before any progress notification and whatever the size of the input. *)
Theorem operations_reject_missing_column
    (self : ComparisonEngine.t) (df1 df2 : DataFrame) (col1 col2 : string)
    (case_sensitive progress_callback : bool) :
  has_column df1 col1 && has_column df2 col2 = false ->
  cancelled self = false ->
  let e :=
    mk_exn ValueError
      ("Column compatibility error: Column '"
       +:+ (if has_column df1 col1 then col2 else col1)
       +:+ "' not found in "
       +:+ (if has_column df1 col1 then "second" else "first") +:+ " file") in
  remove_matches self df1 df2 col1 col2 case_sensitive progress_callback = ([], Raise e) /\
  keep_only_matches self df1 df2 col1 col2 case_sensitive progress_callback = ([], Raise e) /\
  find_common_values self df1 df2 col1 col2 case_sensitive progress_callback = ([], Raise e) /\
  find_unique_values self df1 df2 col1 col2 case_sensitive progress_callback = ([], Raise e).
Proof.
  intros Hmissing Hrun e. subst e.
  unfold remove_matches, keep_only_matches, find_common_values, find_unique_values,
    validate_column_compatibility.
  rewrite Hrun. unfold has_column, column in *.
  destruct (col_index (df_columns df1) col1).
  - destruct (col_index (df_columns df2) col2); [discriminate|].
    repeat split; reflexivity.
  - repeat split; reflexivity.
Qed.

Lemma operations_reject_missing_column_witness :
  find_common_values ComparisonEngine.__init__ Samples.abc Samples.adce
    "key" "name" true true
  = ([], Raise (mk_exn ValueError
                  "Column compatibility error: Column 'name' not found in second file")).
Proof.
  apply (operations_reject_missing_column ComparisonEngine.__init__
           Samples.abc Samples.adce "key" "name" true true eq_refl eq_refl).
Defined.

Lemma invert_map {A} (f : A -> bool) (l : list A) :
  invert (map f l) = map (fun x => negb (f x)) l.
Proof. unfold invert. apply map_map. Qed.

Lemma folded_values s :
  s_values (str_lower (astype_str s)) = map (FrameSpec.folded (s_dtype s)) (s_values s).
Proof. unfold str_lower, astype_str. cbn. rewrite map_map. reflexivity. Qed.

Lemma membership_mask_rows df2 col2 s1 s2 j cs :
  column df2 col2 = Some s2 ->
  col_index (df_columns df2) col2 = Some j ->
  membership_mask s1 s2 cs = map (FrameSpec.direct_match s1 s2 j cs) (df_rows df2).
Proof.
  intros Hc Hj. unfold membership_mask, FrameSpec.direct_match, isin.
  destruct cs; cbn [orb].
  - rewrite (key_column df2 col2 s2 j Hc Hj), map_map. reflexivity.
  - destruct (is_string_like s2); cbn [negb].
    + rewrite !folded_values, (key_column df2 col2 s2 j Hc Hj), !map_map. reflexivity.
    + rewrite (key_column df2 col2 s2 j Hc Hj), map_map. reflexivity.
Qed.

(** Both results of the direct path as filters of the rows of file 2. *)
Lemma direct_path_results self df1 df2 col1 col2 s1 s2 j cs cb :
  column df1 col1 = Some s1 ->
  column df2 col2 = Some s2 ->
  col_index (df_columns df2) col2 = Some j ->
  cancelled self = false ->
  fst (validate_column_compatibility self df1 df2 col1 col2) = true ->
  (10000 <? len df1 + len df2)%Z && cb = false ->
  exists removed kept,
    outcome (remove_matches self df1 df2 col1 col2 cs cb) = Ok removed /\
    outcome (keep_only_matches self df1 df2 col1 col2 cs cb) = Ok kept /\
    result_data removed
    = mk_df (df_columns df2)
        (List.filter (fun r => negb (FrameSpec.direct_match s1 s2 j cs r)) (df_rows df2)) /\
    result_data kept
    = mk_df (df_columns df2)
        (List.filter (FrameSpec.direct_match s1 s2 j cs) (df_rows df2)) /\
    result_count removed = len (result_data removed) /\
    result_count kept = len (result_data kept) /\
    original_count removed = len df2 /\ original_count kept = len df2.
Proof.
  intros H1 H2 Hj Hrun Hvalid Hsmall.
  destruct (remove_matches_direct self df1 df2 col1 col2 s1 s2 H1 H2 Hrun Hvalid
              cs cb Hsmall) as (rm & Hrm & Drm & Orm & Crm & _).
  destruct (keep_only_matches_direct self df1 df2 col1 col2 s1 s2 H1 H2 Hrun Hvalid
              cs cb Hsmall) as (kp & Hkp & Dkp & Okp & Ckp & _).
  exists rm, kp. repeat split; try assumption.
  - rewrite Drm. unfold boolean_index.
    rewrite (membership_mask_rows df2 col2 s1 s2 j cs H2 Hj), invert_map,
      (select_map_filter (fun r => negb (FrameSpec.direct_match s1 s2 j cs r))).
    reflexivity.
  - rewrite Dkp. unfold boolean_index.
    rewrite (membership_mask_rows df2 col2 s1 s2 j cs H2 Hj), select_map_filter.
    reflexivity.
Qed.

(** On the direct path [keep_only_matches] returns exactly the rows of
    file 2, in their order and with their columns, whose key occurs among
    the keys of file 1, and [remove_matches] exactly the other rows; keys
    are compared as they are, or by their lower-cased text when case is
    ignored and the column of file 2 is string-like.  Where case is
    ignored, the keys of both files are taken to be ASCII texts. *)
Theorem direct_path_selects_by_key
    (self : ComparisonEngine.t) (df1 df2 : DataFrame) (col1 col2 : string)
    (s1 s2 : Series) (j : nat) (case_sensitive progress_callback : bool) :
  column df1 col1 = Some s1 ->
  column df2 col2 = Some s2 ->
  col_index (df_columns df2) col2 = Some j ->
  cancelled self = false ->
  fst (validate_column_compatibility self df1 df2 col1 col2) = true ->
  (10000 <? len df1 + len df2)%Z && progress_callback = false ->
  case_sensitive = true
  \/ (FrameSpec.ascii_keys s1 = true /\ FrameSpec.ascii_keys s2 = true) ->
  exists removed kept,
    outcome (remove_matches self df1 df2 col1 col2 case_sensitive progress_callback)
      = Ok removed /\
    outcome (keep_only_matches self df1 df2 col1 col2 case_sensitive progress_callback)
      = Ok kept /\
    result_data removed
    = mk_df (df_columns df2)
        (List.filter (fun r => negb (FrameSpec.direct_match s1 s2 j case_sensitive r))
                     (df_rows df2)) /\
    result_data kept
    = mk_df (df_columns df2)
        (List.filter (FrameSpec.direct_match s1 s2 j case_sensitive) (df_rows df2)).
Proof.
  intros H1 H2 Hj Hrun Hvalid Hsmall _.
  destruct (direct_path_results self df1 df2 col1 col2 s1 s2 j case_sensitive
              progress_callback H1 H2 Hj Hrun Hvalid Hsmall)
    as (rm & kp & Hrm & Hkp & Drm & Dkp & _).
  exists rm, kp. auto.
Qed.

Lemma direct_path_selects_by_key_witness :
  exists removed kept,
    outcome (remove_matches ComparisonEngine.__init__ Samples.abc Samples.adce
               "key" "key" false true) = Ok removed /\
    outcome (keep_only_matches ComparisonEngine.__init__ Samples.abc Samples.adce
               "key" "key" false true) = Ok kept /\
    result_data removed
    = mk_df (df_columns Samples.adce)
        (List.filter
           (fun r => negb (FrameSpec.direct_match
                             (mk_series "object" [Str "a"; Str "b"; Str "c"])
                             (mk_series "object" [Str "a"; Str "d"; Str "c"; Str "e"])
                             1 false r))
           (df_rows Samples.adce)) /\
    result_data kept
    = mk_df (df_columns Samples.adce)
        (List.filter
           (FrameSpec.direct_match
              (mk_series "object" [Str "a"; Str "b"; Str "c"])
              (mk_series "object" [Str "a"; Str "d"; Str "c"; Str "e"])
              1 false)
           (df_rows Samples.adce)).
Proof.
  apply (direct_path_selects_by_key ComparisonEngine.__init__ Samples.abc Samples.adce
           "key" "key" _ _ 1 false true eq_refl eq_refl eq_refl eq_refl eq_refl eq_refl
           (or_intror (conj eq_refl eq_refl))).
Defined.

(** A file 1 without rows: on the direct path [remove_matches] returns
    every row of file 2 and [keep_only_matches] none. *)
Theorem empty_first_file_matches_nothing
    (self : ComparisonEngine.t) (df1 df2 : DataFrame) (col1 col2 : string)
    (case_sensitive progress_callback : bool) :
  df_rows df1 = [] ->
  cancelled self = false ->
  fst (validate_column_compatibility self df1 df2 col1 col2) = true ->
  (10000 <? len df2)%Z && progress_callback = false ->
  exists removed kept,
    outcome (remove_matches self df1 df2 col1 col2 case_sensitive progress_callback)
      = Ok removed /\
    outcome (keep_only_matches self df1 df2 col1 col2 case_sensitive progress_callback)
      = Ok kept /\
    result_data removed = df2 /\ result_count removed = len df2 /\
    df_rows (result_data kept) = [] /\ result_count kept = 0%Z.
Proof.
  intros Hempty Hrun Hvalid Hsmall.
  destruct (validate_ok_columns _ _ _ _ _ Hvalid) as (s1 & s2 & H1 & H2).
  assert (Hj : exists j, col_index (df_columns df2) col2 = Some j).
  { unfold column in H2. destruct (col_index (df_columns df2) col2); [eauto|discriminate]. }
  destruct Hj as [j Hj].
  assert (Hlen : len df1 = 0%Z) by (unfold len; rewrite Hempty; reflexivity).
  destruct (direct_path_results self df1 df2 col1 col2 s1 s2 j case_sensitive
              progress_callback H1 H2 Hj Hrun Hvalid)
    as (rm & kp & Hrm & Hkp & Drm & Dkp & Crm & Ckp & _);
    [rewrite Hlen; exact Hsmall|].
  assert (Hs1 : s_values s1 = []).
  { pose proof (column_length _ _ _ H1) as L. rewrite Hempty in L.
    destruct (s_values s1); [reflexivity|discriminate]. }
  assert (Hno : forall r, FrameSpec.direct_match s1 s2 j case_sensitive r = false).
  { intros r. unfold FrameSpec.direct_match. rewrite Hs1.
    destruct (case_sensitive || negb (is_string_like s2)); reflexivity. }
  assert (Hall : List.filter (fun r => negb (FrameSpec.direct_match s1 s2 j case_sensitive r))
                   (df_rows df2) = df_rows df2).
  { clear - Hno. induction (df_rows df2) as [|r l IH]; cbn; [reflexivity|].
    rewrite Hno, IH. reflexivity. }
  assert (Hnone : List.filter (FrameSpec.direct_match s1 s2 j case_sensitive) (df_rows df2) = []).
  { clear - Hno. induction (df_rows df2) as [|r l IH]; cbn; [reflexivity|].
    rewrite Hno, IH. reflexivity. }
  exists rm, kp. rewrite Crm, Ckp, Drm, Dkp, Hall, Hnone.
  repeat split; try assumption. destruct df2; reflexivity.
Qed.

Lemma empty_first_file_matches_nothing_witness :
  exists removed kept,
    outcome (remove_matches ComparisonEngine.__init__ LargeSamples.no_rows Samples.adce
               "key" "key" false true) = Ok removed /\
    outcome (keep_only_matches ComparisonEngine.__init__ LargeSamples.no_rows Samples.adce
               "key" "key" false true) = Ok kept /\
    result_data removed = Samples.adce /\ result_count removed = len Samples.adce /\
    df_rows (result_data kept) = [] /\ result_count kept = 0%Z.
Proof.
  apply (empty_first_file_matches_nothing ComparisonEngine.__init__
           LargeSamples.no_rows Samples.adce "key" "key" false true
           eq_refl eq_refl eq_refl eq_refl).
Defined.

End EngineEdges.

(** ** [find_common_values] and [find_unique_values] *)

Section FindCounts.
Import ComparisonEngine.

Lemma mem_cell_filter x f l :
  mem_cell x (List.filter f l) = mem_cell x l && f x.
Proof.
  apply eq_true_iff_eq. rewrite andb_true_iff, !mem_cell_In, filter_In. tauto.
Qed.

Lemma has_shape_false df : has_shape df = false -> df_rows df = [] /\ df_columns df = [].
Proof. unfold has_shape. destruct (df_rows df), (df_columns df); intros H; try discriminate; auto. Qed.

Lemma length_flat_align cols frames :
  List.length (flat_map (align cols) frames) = List.length (flat_map df_rows frames).
Proof.
  induction frames as [|f frames IH]; cbn; [reflexivity|].
  rewrite !length_app, IH. unfold align. rewrite length_map. reflexivity.
Qed.

Lemma flat_rows_filter_shape frames :
  flat_map df_rows (List.filter has_shape frames) = flat_map df_rows frames.
Proof.
  induction frames as [|f frames IH]; cbn; [reflexivity|].
  destruct (has_shape f) eqn:E; cbn; rewrite IH; [reflexivity|].
  apply has_shape_false in E. destruct E as [-> _]. reflexivity.
Qed.

(** [concat] keeps every row. *)
Lemma len_concat frames :
  len (concat frames) = Z.of_nat (List.length (flat_map df_rows frames)).
Proof.
  unfold len, concat. cbn [df_rows]. f_equal.
  rewrite length_flat_align.
  destruct (List.filter has_shape frames) as [|f l] eqn:E; [reflexivity|].
  rewrite <- E, flat_rows_filter_shape. reflexivity.
Qed.

Lemma len_concat2 a b : len (concat [a; b]) = (len a + len b)%Z.
Proof.
  rewrite len_concat. cbn. rewrite app_nil_r, length_app. unfold len. lia.
Qed.

Lemma len_setitem_scalar df col v : len (setitem_scalar df col v) = len df.
Proof.
  unfold len, setitem_scalar. destruct (col_index _ _); cbn; rewrite length_map; reflexivity.
Qed.

Lemma len_boolean_index_isin df col s j wanted :
  column df col = Some s ->
  col_index (df_columns df) col = Some j ->
  len (boolean_index df (isin s wanted))
  = Z.of_nat (List.length (List.filter (fun r => mem_cell (cell_at j r) wanted) (df_rows df))).
Proof.
  intros Hc Hj. unfold len, boolean_index, isin. cbn.
  rewrite (key_column df col s j Hc Hj), map_map, select_map_filter. reflexivity.
Qed.

(** Two tests that split a third one split its count. *)
Lemma filter_split_length {A} (f g h : A -> bool) (l : list A) :
  (forall x, In x l -> f x = h x && negb (g x)) ->
  (forall x, In x l -> g x = true -> h x = true) ->
  (List.length (List.filter f l) + List.length (List.filter g l)
   = List.length (List.filter h l))%nat.
Proof.
  intros Hf Hg. induction l as [|x l IH]; cbn; [reflexivity|].
  assert (IH' := IH (fun y Hy => Hf y (or_intror Hy)) (fun y Hy => Hg y (or_intror Hy))).
  pose proof (Hf x (or_introl eq_refl)) as Hfx.
  pose proof (Hg x (or_introl eq_refl)) as Hgx.
  rewrite Hfx. destruct (h x), (g x); cbn; try lia.
Qed.

Lemma prepare_values_case_sensitive self df1 df2 col1 col2 s1 s2 :
  column df1 col1 = Some s1 -> column df2 col2 = Some s2 ->
  _prepare_comparison_values self df1 df2 col1 col2 true
  = ret (to_set (List.filter notna (s_values s1)), to_set (List.filter notna (s_values s2))).
Proof.
  intros H1 H2. unfold _prepare_comparison_values.
  rewrite (getitem_some _ _ _ H1), (getitem_some _ _ _ H2), !bind_ret_l. reflexivity.
Qed.

Lemma rows_with_case_sensitive df col s wanted :
  column df col = Some s ->
  rows_with df col wanted true = ret (boolean_index df (isin s wanted)).
Proof. intros H. unfold rows_with. rewrite (getitem_some _ _ _ H), bind_ret_l. reflexivity. Qed.

(** Case-sensitive [find_common_values] and [find_unique_values] on the
    same input: both succeed, both report
    [original_count = len(df1) + len(df2)] and a [result_count] that is the
    number of rows they return, and the two result counts add up to the
    number of rows, of the two files together, whose key is present: rows
    without a key are counted in neither result. *)
Theorem find_common_and_unique_split_present_keys
    (self : ComparisonEngine.t) (df1 df2 : DataFrame) (col1 col2 : string)
    (i j : nat) (cb : bool) :
  col_index (df_columns df1) col1 = Some i ->
  col_index (df_columns df2) col2 = Some j ->
  fst (validate_column_compatibility self df1 df2 col1 col2) = true ->
  exists common unique,
    outcome (find_common_values self df1 df2 col1 col2 true cb) = Ok common /\
    outcome (find_unique_values self df1 df2 col1 col2 true cb) = Ok unique /\
    original_count common = (len df1 + len df2)%Z /\
    original_count unique = (len df1 + len df2)%Z /\
    result_count common = len (result_data common) /\
    result_count unique = len (result_data unique) /\
    (result_count common + result_count unique
     = Z.of_nat (List.length (FrameSpec.with_key i (df_rows df1))
                 + List.length (FrameSpec.with_key j (df_rows df2))))%Z.
Proof.
  intros Hi Hj Hvalid.
  destruct (validate_ok_columns _ _ _ _ _ Hvalid) as (s1 & s2 & H1 & H2).
  unfold find_common_values, find_unique_values.
  destruct (validate_column_compatibility self df1 df2 col1 col2) as [ok msg].
  simpl in Hvalid. subst ok. simpl negb. cbv iota.
  rewrite (prepare_values_case_sensitive self df1 df2 col1 col2 s1 s2 H1 H2), !bind_ret_l.
  rewrite !(rows_with_case_sensitive df1 col1 s1 _ H1), !bind_ret_l.
  rewrite !(rows_with_case_sensitive df2 col2 s2 _ H2), !bind_ret_l.
  unfold pd_concat. rewrite !bind_ret_l.
  eexists _, _. split; [reflexivity|]. split; [reflexivity|].
  cbn [original_count result_count result_data].
  split; [reflexivity|]. split; [reflexivity|]. split; [reflexivity|]. split; [reflexivity|].
  rewrite !len_concat2, !len_setitem_scalar.
  rewrite !(len_boolean_index_isin df1 col1 s1 i _ H1 Hi),
    !(len_boolean_index_isin df2 col2 s2 j _ H2 Hj).
  set (v1 := to_set (List.filter notna (s_values s1))).
  set (v2 := to_set (List.filter notna (s_values s2))).
  assert (Hv1 : forall r, In r (df_rows df1) -> mem_cell (cell_at i r) v1 = notna (cell_at i r)).
  { intros r Hr. subst v1. rewrite mem_cell_to_set, mem_cell_filter.
    replace (mem_cell (cell_at i r) (s_values s1)) with true; [reflexivity|].
    symmetry. apply mem_cell_In. rewrite (key_column df1 col1 s1 i H1 Hi).
    apply in_map, Hr. }
  assert (Hv2 : forall r, In r (df_rows df2) -> mem_cell (cell_at j r) v2 = notna (cell_at j r)).
  { intros r Hr. subst v2. rewrite mem_cell_to_set, mem_cell_filter.
    replace (mem_cell (cell_at j r) (s_values s2)) with true; [reflexivity|].
    symmetry. apply mem_cell_In. rewrite (key_column df2 col2 s2 j H2 Hj).
    apply in_map, Hr. }
  unfold FrameSpec.with_key.
  rewrite <- (filter_split_length
                (fun r => mem_cell (cell_at i r) (PerformanceOptimizer.intersection v1 v2))
                (fun r => mem_cell (cell_at i r) (PerformanceOptimizer.difference v1 v2))
                (fun r => notna (cell_at i r)) (df_rows df1)).
  2,3: (intros r Hr; unfold PerformanceOptimizer.intersection, PerformanceOptimizer.difference;
        rewrite !mem_cell_filter, (Hv1 r Hr);
        destruct (notna (cell_at i r)), (mem_cell (cell_at i r) v2); cbn; auto; discriminate).
  rewrite <- (filter_split_length
                (fun r => mem_cell (cell_at j r) (PerformanceOptimizer.intersection v1 v2))
                (fun r => mem_cell (cell_at j r) (PerformanceOptimizer.difference v2 v1))
                (fun r => notna (cell_at j r)) (df_rows df2)).
  2,3: (intros r Hr; unfold PerformanceOptimizer.intersection, PerformanceOptimizer.difference;
        rewrite !mem_cell_filter, (Hv2 r Hr);
        destruct (notna (cell_at j r)), (mem_cell (cell_at j r) v1); cbn; auto; discriminate).
  lia.
Qed.
Lemma find_common_and_unique_split_present_keys_witness :
  exists common unique,
    outcome (find_common_values ComparisonEngine.__init__ Samples.abc Samples.adce
               "key" "key" true false) = Ok common /\
    outcome (find_unique_values ComparisonEngine.__init__ Samples.abc Samples.adce
               "key" "key" true false) = Ok unique /\
    original_count common = (len Samples.abc + len Samples.adce)%Z /\
    original_count unique = (len Samples.abc + len Samples.adce)%Z /\
    result_count common = len (result_data common) /\
    result_count unique = len (result_data unique) /\
    (result_count common + result_count unique
     = Z.of_nat (List.length (FrameSpec.with_key 0 (df_rows Samples.abc))
                 + List.length (FrameSpec.with_key 1 (df_rows Samples.adce))))%Z.
Proof.
  apply (find_common_and_unique_split_present_keys ComparisonEngine.__init__
           Samples.abc Samples.adce "key" "key" 0 1 false eq_refl eq_refl eq_refl).
Defined.

End FindCounts.

(** ** Chunked processing and the optimized path *)

Section Chunks.
Import ChunkedProcessor.

Lemma chunk_rows_concat n size rows :
  (0 < size)%nat -> (List.length rows <= n)%nat ->
  List.concat (chunk_rows n size rows) = rows.
Proof.
  intros Hs. revert rows. induction n as [|n IH]; intros rows Hn.
  - destruct rows; [reflexivity|cbn in Hn; lia].
  - destruct rows as [|r rows]; [reflexivity|].
    cbn [chunk_rows List.concat]. rewrite IH.
    + apply firstn_skipn.
    + rewrite length_skipn. cbn [List.length] in *. lia.
Qed.

Lemma chunk_rows_sizes n size rows :
  (0 < size)%nat ->
  Forall (fun c => (0 < List.length c <= size)%nat) (chunk_rows n size rows).
Proof.
  intros Hs. revert rows. induction n as [|n IH]; intros rows; [constructor|].
  destruct rows as [|r rows]; [constructor|].
  cbn [chunk_rows]. constructor; [|apply IH].
  rewrite length_firstn. cbn [List.length]. lia.
Qed.

Lemma chunk_rows_count n (s : Z) rows :
  (0 < s)%Z -> (List.length rows <= n)%nat ->
  Z.of_nat (List.length (chunk_rows n (Z.to_nat s) rows))
  = ((Z.of_nat (List.length rows) + s - 1) / s)%Z.
Proof.
  intros Hs. revert rows. induction n as [|n IH]; intros rows Hn.
  - destruct rows; [|cbn in Hn; lia]. cbn. symmetry. apply Z.div_small. lia.
  - destruct rows as [|r rows]; [cbn; symmetry; apply Z.div_small; lia|].
    cbn [chunk_rows List.length]. rewrite Nat2Z.inj_succ, IH.
    2:{ rewrite length_skipn. cbn [List.length] in *. lia. }
    rewrite length_skipn. cbn [List.length].
    set (L := List.length rows).
    destruct (Z_le_gt_dec (Z.of_nat (S L)) s) as [Hle|Hgt].
    + replace (Z.of_nat (S L - Z.to_nat s)) with 0%Z by lia.
      rewrite (Z.div_small (0 + s - 1) s) by lia.
      apply (Z.div_unique _ _ _ (Z.of_nat (S L) - 1)); lia.
    + replace (Z.of_nat (S L - Z.to_nat s)) with (Z.of_nat (S L) - s)%Z by lia.
      replace (Z.of_nat (S L) + s - 1)%Z with ((Z.of_nat (S L) - s + s - 1) + 1 * s)%Z by lia.
      rewrite Z.div_add by lia. lia.
Qed.


(** *** Concatenating frames with the same columns *)

Lemma mem_str_In x xs : mem_str x xs = true <-> In x xs.
Proof.
  unfold mem_str. rewrite existsb_exists. split.
  - intros (y & Hy & E). apply String.eqb_eq in E. subst. exact Hy.
  - intros H. exists x. split; [exact H|apply String.eqb_refl].
Qed.

Lemma distinct_NoDup names : FrameSpec.distinct names = true -> NoDup names.
Proof.
  induction names as [|n names IH]; cbn; [constructor|].
  intros H. apply andb_true_iff in H. destruct H as [Hn Hd].
  constructor; [|apply IH, Hd].
  intros Hin. apply mem_str_In in Hin. rewrite Hin in Hn. discriminate.
Qed.

Lemma col_index_None cols name :
  ~ In name (map fst cols) -> col_index cols name = None.
Proof.
  induction cols as [|[n d] cols IH]; cbn; [reflexivity|]. intros H.
  destruct (String.eqb n name) eqn:E.
  - apply String.eqb_eq in E. tauto.
  - rewrite IH; [reflexivity|tauto].
Qed.

Lemma col_index_In cols name :
  In name (map fst cols) -> exists i, col_index cols name = Some i.
Proof.
  induction cols as [|[n d] cols IH]; cbn; [tauto|]. intros H.
  destruct (String.eqb n name) eqn:E; [eauto|].
  destruct H as [H|H]; [subst; rewrite String.eqb_refl in E; discriminate|].
  destruct (IH H) as [i ->]. cbn. eauto.
Qed.

Lemma col_index_nth cols i d :
  NoDup (map fst cols) -> (i < List.length cols)%nat ->
  col_index cols (fst (nth i cols d)) = Some i.
Proof.
  revert i. induction cols as [|[n dt] cols IH]; intros i Hnd Hi; cbn in *; [lia|].
  inversion Hnd as [|? ? Hn Hnd']; subst.
  destruct i as [|i]; cbn.
  - rewrite String.eqb_refl. reflexivity.
  - destruct (String.eqb n (fst (nth i cols d))) eqn:E.
    + apply String.eqb_eq in E. exfalso. apply Hn. rewrite E.
      apply in_map, nth_In. lia.
    + rewrite IH; [reflexivity|assumption|lia].
Qed.

Lemma union_columns_fresh acc cols :
  NoDup (map fst (acc ++ cols)) -> union_columns acc cols = acc ++ cols.
Proof.
  revert acc. induction cols as [|[n d] cols IH]; intros acc Hnd; cbn.
  - rewrite app_nil_r. reflexivity.
  - rewrite col_index_None.
    + rewrite IH; rewrite <- app_assoc; [reflexivity|exact Hnd].
    + rewrite map_app in Hnd. cbn in Hnd. apply NoDup_remove_2 in Hnd.
      intros Hin. apply Hnd, in_or_app. left. exact Hin.
Qed.

Lemma union_columns_known acc cols :
  (forall name, In name (map fst cols) -> In name (map fst acc)) ->
  union_columns acc cols = acc.
Proof.
  induction cols as [|[n d] cols IH]; intros H; cbn; [reflexivity|].
  destruct (col_index_In acc n (H n (or_introl eq_refl))) as [i ->].
  apply IH. intros name Hn. apply H. right. exact Hn.
Qed.

Lemma fold_union_same cols frames :
  Forall (fun f => df_columns f = cols) frames ->
  fold_left (fun acc df => union_columns acc (df_columns df)) frames cols = cols.
Proof.
  induction 1 as [|f frames Hf _ IH]; cbn; [reflexivity|].
  rewrite Hf, union_columns_known; [exact IH|auto].
Qed.

Lemma find_common_type_same dt n : find_common_type (dt :: repeat dt n) = dt.
Proof.
  cbn. replace (forallb (String.eqb dt) (repeat dt n)) with true; [reflexivity|].
  symmetry. apply forallb_forall. intros x Hx. apply repeat_spec in Hx. subst.
  apply String.eqb_refl.
Qed.

Lemma dtype_of_nth cols i d :
  NoDup (map fst cols) -> (i < List.length cols)%nat ->
  dtype_of (mk_df cols []) (fst (nth i cols d)) = Some (snd (nth i cols d)).
Proof.
  intros Hnd Hi. unfold dtype_of. cbn [df_columns].
  rewrite (col_index_nth cols i d Hnd Hi). f_equal. f_equal. apply nth_indep. exact Hi.
Qed.

Lemma concat_dtype_same cols blocks i d :
  NoDup (map fst cols) -> (i < List.length cols)%nat -> blocks <> [] ->
  concat_dtype (map (mk_df cols) blocks) (fst (nth i cols d)) = snd (nth i cols d).
Proof.
  intros Hnd Hi Hne. unfold concat_dtype.
  assert (Hd : forall b, dtype_of (mk_df cols b) (fst (nth i cols d))
                         = Some (snd (nth i cols d))).
  { intros b. rewrite <- (dtype_of_nth cols i d Hnd Hi). reflexivity. }
  replace (forallb (fun df => has_column df (fst (nth i cols d))) (map (mk_df cols) blocks))
    with true.
  2:{ symmetry. apply forallb_forall. intros df Hdf. apply in_map_iff in Hdf.
      destruct Hdf as (b & <- & _). unfold has_column. cbn [df_columns].
      rewrite (col_index_nth cols i d Hnd Hi). reflexivity. }
  replace (flat_map (fun df => match dtype_of df (fst (nth i cols d)) with
                               | Some dt => [dt] | None => [] end)
                    (map (mk_df cols) blocks))
    with (repeat (snd (nth i cols d)) (List.length blocks)).
  2:{ clear Hne. induction blocks as [|b blocks IH]; [reflexivity|].
      cbn [map flat_map List.length repeat]. rewrite Hd, <- IH. reflexivity. }
  destruct blocks as [|b blocks]; [congruence|]. cbn [List.length repeat].
  apply find_common_type_same.
Qed.

Lemma concat_cols_same cols blocks :
  NoDup (map fst cols) -> blocks <> [] ->
  map (fun nd : string * dtype => (fst nd, concat_dtype (map (mk_df cols) blocks) (fst nd))) cols
  = cols.
Proof.
  intros Hnd Hne.
  destruct cols as [|c0 cols']; [reflexivity|]. set (cols := c0 :: cols') in *.
  apply (nth_ext _ _ c0 c0); [apply length_map|].
  intros i Hi. rewrite length_map in Hi.
  rewrite (nth_indep _ c0 (fst c0, concat_dtype (map (mk_df cols) blocks) (fst c0)))
    by (rewrite length_map; exact Hi).
  rewrite (map_nth (fun nd : string * dtype =>
                      (fst nd, concat_dtype (map (mk_df cols) blocks) (fst nd))) cols c0 i).
  rewrite (concat_dtype_same cols blocks i c0 Hnd Hi Hne).
  symmetry. apply surjective_pairing.
Qed.

Lemma cast_cell_same dt c : cast_cell dt dt c = c.
Proof. unfold cast_cell. rewrite String.eqb_refl. reflexivity. Qed.

Lemma align_same cols rows :
  NoDup (map fst cols) ->
  Forall (fun r => List.length r = List.length cols) rows ->
  align cols (mk_df cols rows) = rows.
Proof.
  intros Hnd Hrows. unfold align. cbn [df_rows df_columns].
  induction Hrows as [|r rows Hr _ IH]; cbn; [reflexivity|].
  rewrite IH. f_equal.
  apply (nth_ext _ _ NaN NaN); [rewrite length_map; auto|].
  intros i Hi. rewrite length_map in Hi.
  destruct cols as [|c0 cols']; [cbn in Hi; lia|].
  set (cols := c0 :: cols') in *.
  set (f := fun nd : string * dtype =>
              match col_index cols (fst nd) with
              | Some k => cast_cell (snd (nth k cols (fst nd, "object"))) (snd nd) (cell_at k r)
              | None => NaN
              end).
  rewrite (nth_indep _ NaN (f c0)) by (rewrite length_map; exact Hi).
  rewrite (map_nth f cols c0 i). unfold f.
  rewrite (col_index_nth cols i c0 Hnd Hi).
  rewrite (nth_indep cols (fst (nth i cols c0), "object") c0 Hi).
  apply cast_cell_same.
Qed.

Lemma flat_align_same cols blocks :
  NoDup (map fst cols) ->
  Forall (Forall (fun r => List.length r = List.length cols)) blocks ->
  flat_map (align cols) (map (mk_df cols) blocks) = List.concat blocks.
Proof.
  intros Hnd Hrows. induction Hrows as [|b blocks Hb _ IH]; [reflexivity|].
  cbn [map flat_map List.concat].
  rewrite IH, (align_same cols b Hnd Hb). reflexivity.
Qed.

(** Frames that share their columns are stacked row block by row block. *)
Lemma concat_same_columns cols blocks :
  NoDup (map fst cols) ->
  blocks <> [] ->
  Forall (Forall (fun r => List.length r = List.length cols)) blocks ->
  concat (map (mk_df cols) blocks) = mk_df cols (List.concat blocks).
Proof.
  intros Hnd Hne Hrows.
  assert (Hfold : forall bs, bs <> [] ->
             fold_left (fun acc df => union_columns acc (df_columns df))
               (map (mk_df cols) bs) [] = cols).
  { intros bs Hbs. destruct bs as [|b bs]; [congruence|]. cbn [map fold_left df_columns].
    rewrite (union_columns_fresh [] cols) by exact Hnd. cbn [app].
    apply fold_union_same. apply Forall_map. apply Forall_forall. reflexivity. }
  destruct cols as [|c0 cols'] eqn:Hcols.
  - (* no column: every row is empty *)
    assert (Hall : forall bs,
               Forall (Forall (fun r : row => List.length r = 0%nat)) bs ->
               flat_map (align []) (map (mk_df []) bs) = List.concat bs).
    { intros bs Hbs. apply (flat_align_same [] bs); [constructor|exact Hbs]. }
    unfold concat.
    destruct (List.filter has_shape (map (mk_df []) blocks)) as [|f l] eqn:E.
    + rewrite (Hfold blocks Hne). cbn [map]. f_equal. apply Hall, Hrows.
    + rewrite <- E. clear f l E.
      assert (Hk : List.filter has_shape (map (mk_df []) blocks)
                   = map (mk_df []) (List.filter (fun b : list (list cell) => match b with [] => false | _ => true end) blocks)).
      { clear. induction blocks as [|b blocks IH]; [reflexivity|]. cbn.
        destruct b; cbn; rewrite IH; reflexivity. }
      rewrite Hk. clear Hk.
      assert (Hcat : List.concat (List.filter (fun b : list (list cell) => match b with [] => false | _ => true end) blocks)
                     = List.concat blocks).
      { clear. induction blocks as [|b blocks IH]; [reflexivity|]. cbn.
        destruct b; cbn; rewrite IH; reflexivity. }
      assert (Hkept : Forall (Forall (fun r : row => List.length r = 0%nat))
                        (List.filter (fun b : list (list cell) => match b with [] => false | _ => true end) blocks)).
      { apply Forall_forall. intros b Hb. apply filter_In in Hb.
        rewrite Forall_forall in Hrows. apply Hrows, Hb. }
      revert Hcat Hkept.
      generalize (List.filter (fun b : list (list cell) => match b with [] => false | _ => true end) blocks).
      intros kept Hcat Hkept.
      assert (Hnames : fold_left (fun acc df => union_columns acc (df_columns df))
                         (map (mk_df []) kept) [] = []).
      { clear. induction kept as [|b l IH]; [reflexivity|exact IH]. }
      rewrite Hnames. cbn [map]. f_equal.
      rewrite (Hall kept Hkept). exact Hcat.
  - rewrite <- Hcols in *.
    assert (Hshape : List.filter has_shape (map (mk_df cols) blocks) = map (mk_df cols) blocks).
    { clear - Hcols. induction blocks as [|b blocks IH]; [reflexivity|]. cbn.
      replace (has_shape (mk_df cols b)) with true; [rewrite IH; reflexivity|].
      unfold has_shape. cbn. rewrite Hcols. destruct b; reflexivity. }
    unfold concat. rewrite Hshape. clear Hshape.
    destruct (map (mk_df cols) blocks) as [|f l] eqn:E.
    { destruct blocks; [congruence|discriminate]. }
    rewrite <- E. clear f l E.
    rewrite (Hfold blocks Hne), (concat_cols_same cols blocks Hnd Hne).
    f_equal. apply flat_align_same; assumption.
Qed.

Lemma concat_map_filter {A} (f : A -> bool) (blocks : list (list A)) :
  List.concat (map (List.filter f) blocks) = List.filter f (List.concat blocks).
Proof.
  induction blocks as [|b blocks IH]; cbn; [reflexivity|].
  rewrite IH, filter_app. reflexivity.
Qed.

Lemma rectangular_rows df :
  FrameSpec.rectangular df = true ->
  NoDup (map fst (df_columns df)) /\
  Forall (fun r => List.length r = List.length (df_columns df)) (df_rows df).
Proof.
  unfold FrameSpec.rectangular. intros H. apply andb_true_iff in H. destruct H as [Hd Hr].
  split; [apply distinct_NoDup, Hd|].
  apply Forall_forall. intros r Hin.
  rewrite forallb_forall in Hr. apply Nat.eqb_eq, Hr, Hin.
Qed.

Lemma process_chunks_filter process_func keep cols cb total i blocks :
  (forall rows, outcome (process_func (mk_df cols rows))
                = Ok (mk_df cols (List.filter keep rows))) ->
  outcome (process_chunks process_func cb total i (map (mk_df cols) blocks))
  = Ok (map (mk_df cols) (map (List.filter keep) blocks)).
Proof.
  intros Hf. revert i. induction blocks as [|b blocks IH]; intros i; [reflexivity|].
  cbn [map process_chunks].
  rewrite outcome_bind_notify.
  rewrite (outcome_bind_ok _ _ _ (Hf b)).
  rewrite (outcome_bind_ok _ _ _ (IH (S i))). reflexivity.
Qed.

(** Processing chunk by chunk gives what processing the whole frame gives,
    for a [process_func] that keeps or drops each row on its own. *)
Lemma process_dataframe_chunks_filter self df process_func keep cb :
  (0 < chunk_size self)%Z ->
  FrameSpec.rectangular df = true ->
  (forall rows, outcome (process_func (mk_df (df_columns df) rows))
                = Ok (mk_df (df_columns df) (List.filter keep rows))) ->
  outcome (process_dataframe_chunks self df process_func cb)
  = Ok (mk_df (df_columns df) (List.filter keep (df_rows df))).
Proof.
  intros Hs Hrect Hf. destruct (rectangular_rows df Hrect) as [Hnd Hrows].
  unfold process_dataframe_chunks.
  destruct (len df <=? chunk_size self)%Z eqn:Hsmall.
  - rewrite outcome_bind_notify.
    assert (Hdf : outcome (process_func df)
                  = Ok (mk_df (df_columns df) (List.filter keep (df_rows df)))).
    { specialize (Hf (df_rows df)). destruct df. exact Hf. }
    rewrite (outcome_bind_ok _ _ _ Hdf), outcome_bind_notify. reflexivity.
  - apply Z.leb_gt in Hsmall.
    replace (chunk_size self =? 0)%Z with false by (symmetry; apply Z.eqb_neq; lia).
    unfold _chunk_dataframe.
    replace (chunk_size self =? 0)%Z with false by (symmetry; apply Z.eqb_neq; lia).
    replace (chunk_size self <? 0)%Z with false by (symmetry; apply Z.ltb_ge; lia).
    rewrite bind_ret_l.
    set (blocks := chunk_rows (List.length (df_rows df)) (Z.to_nat (chunk_size self))
                     (df_rows df)).
    assert (Hcat : List.concat blocks = df_rows df).
    { apply chunk_rows_concat; lia. }
    rewrite (outcome_bind_ok _ _ _
               (process_chunks_filter process_func keep (df_columns df) cb _ 0 blocks Hf)).
    rewrite outcome_bind_notify.
    assert (Hne : map (List.filter keep) blocks <> []).
    { subst blocks. unfold len in Hsmall.
      destruct (df_rows df) as [|r rows]; [cbn in Hsmall; lia|]. cbn. discriminate. }
    assert (Hcc : concat (map (mk_df (df_columns df)) (map (List.filter keep) blocks))
                  = mk_df (df_columns df) (List.filter keep (df_rows df))).
    { rewrite concat_same_columns; [|exact Hnd|exact Hne|].
      - rewrite concat_map_filter. f_equal. f_equal. exact Hcat.
      - apply Forall_forall. intros b Hb. apply in_map_iff in Hb.
        destruct Hb as (b0 & <- & Hb0). apply Forall_forall. intros r Hr.
        apply filter_In in Hr. destruct Hr as [Hr _].
        rewrite Forall_forall in Hrows. apply Hrows. rewrite <- Hcat.
        apply in_concat. exists b0. split; assumption. }
    unfold pd_concat.
    destruct (map (mk_df (df_columns df)) (map (List.filter keep) blocks)) eqn:E.
    { destruct (map (List.filter keep) blocks); [congruence|discriminate]. }
    rewrite bind_ret_l, outcome_bind_notify, Hcc. reflexivity.
Qed.

(** *** The optimized path *)

Lemma column_of_rows cols rows col j :
  col_index cols col = Some j ->
  column (mk_df cols rows) col
  = Some (mk_series (snd (nth j cols (col, "object"))) (map (cell_at j) rows)).
Proof. intros Hj. unfold column. cbn. rewrite Hj. reflexivity. Qed.

Lemma optimized_mask (dt : dtype) (vals lookup : list cell) (cs : bool) :
  (if cs then isin (mk_series dt vals) lookup
   else isin (PerformanceOptimizer.lowered_if_object (mk_series dt vals)) lookup)
  = map (fun c => if cs || negb (String.eqb dt "object") then mem_cell c lookup
                  else mem_cell (FrameSpec.folded dt c) lookup) vals.
Proof.
  destruct cs; cbn [orb]; [reflexivity|].
  unfold PerformanceOptimizer.lowered_if_object. cbn [s_dtype].
  destruct (String.eqb dt "object"); cbn [negb]; [|reflexivity].
  unfold isin. rewrite folded_values. cbn [s_dtype s_values]. rewrite map_map. reflexivity.
Qed.

Lemma optimized_remove_matches_result self df col j lookup cs use_chunked cb :
  col_index (df_columns df) col = Some j ->
  (0 < chunk_size (PerformanceOptimizer.chunked_processor self))%Z ->
  FrameSpec.rectangular df = true ->
  outcome (PerformanceOptimizer._optimized_remove_matches self df col lookup cs use_chunked cb)
  = Ok (mk_df (df_columns df)
          (List.filter
             (fun r => negb (FrameSpec.optimized_match (snd (nth j (df_columns df) (col, "object")))
                               lookup j cs r))
             (df_rows df))).
Proof.
  intros Hj Hs Hrect. unfold PerformanceOptimizer._optimized_remove_matches. cbv zeta.
  assert (Hp : forall rows,
             bind (getitem (mk_df (df_columns df) rows) col)
               (fun s => ret (boolean_index (mk_df (df_columns df) rows)
                                (if cs then invert (isin s lookup)
                                 else invert (isin (PerformanceOptimizer.lowered_if_object s)
                                                lookup))))
             = @ret progress_event _
                 (mk_df (df_columns df)
                      (List.filter
                         (fun r => negb (FrameSpec.optimized_match
                                           (snd (nth j (df_columns df) (col, "object")))
                                           lookup j cs r)) rows))).
  { intros rows.
    rewrite (getitem_some _ _ _ (column_of_rows _ rows col j Hj)), bind_ret_l.
    unfold boolean_index. cbn [df_columns df_rows]. f_equal. f_equal.
    rewrite <- (select_map_filter _ rows).
    destruct cs.
    - rewrite (optimized_mask _ _ lookup true), invert_map, map_map. reflexivity.
    - rewrite (optimized_mask _ _ lookup false), invert_map, map_map. reflexivity. }
  destruct use_chunked; cbn [negb].
  - apply process_dataframe_chunks_filter; [assumption|assumption|].
    intros rows. cbv beta. rewrite Hp. reflexivity.
  - specialize (Hp (df_rows df)). destruct df as [cols rows]. cbn [df_columns df_rows] in *.
    rewrite Hp. reflexivity.
Qed.

Lemma optimized_keep_matches_result self df col j lookup cs use_chunked cb :
  col_index (df_columns df) col = Some j ->
  (0 < chunk_size (PerformanceOptimizer.chunked_processor self))%Z ->
  FrameSpec.rectangular df = true ->
  outcome (PerformanceOptimizer._optimized_keep_matches self df col lookup cs use_chunked cb)
  = Ok (mk_df (df_columns df)
          (List.filter
             (FrameSpec.optimized_match (snd (nth j (df_columns df) (col, "object"))) lookup j cs)
             (df_rows df))).
Proof.
  intros Hj Hs Hrect. unfold PerformanceOptimizer._optimized_keep_matches. cbv zeta.
  assert (Hp : forall rows,
             bind (getitem (mk_df (df_columns df) rows) col)
               (fun s => ret (boolean_index (mk_df (df_columns df) rows)
                                (if cs then isin s lookup
                                 else isin (PerformanceOptimizer.lowered_if_object s) lookup)))
             = @ret progress_event _
                 (mk_df (df_columns df)
                      (List.filter
                         (FrameSpec.optimized_match (snd (nth j (df_columns df) (col, "object")))
                                          lookup j cs) rows))).
  { intros rows.
    rewrite (getitem_some _ _ _ (column_of_rows _ rows col j Hj)), bind_ret_l.
    unfold boolean_index. cbn [df_columns df_rows]. f_equal. f_equal.
    rewrite <- (select_map_filter _ rows).
    destruct cs.
    - rewrite (optimized_mask _ _ lookup true), map_map. reflexivity.
    - rewrite (optimized_mask _ _ lookup false), map_map. reflexivity. }
  destruct use_chunked; cbn [negb].
  - apply process_dataframe_chunks_filter; [assumption|assumption|].
    intros rows. cbv beta. rewrite Hp. reflexivity.
  - specialize (Hp (df_rows df)). destruct df as [cols rows]. cbn [df_columns df_rows] in *.
    rewrite Hp. reflexivity.
Qed.

End Chunks.

Section OptimizedEngine.
Import ComparisonEngine.

Lemma set_nth_names (cols : list (string * dtype)) col i (dt : dtype) :
  col_index cols col = Some i ->
  map fst (set_nth i (col, dt) cols) = map fst cols.
Proof.
  revert i. induction cols as [|[name d] cols IH]; intros i; [discriminate|].
  cbn. destruct (String.eqb name col) eqn:E.
  - intros [= <-]. cbn. apply String.eqb_eq in E. subst. reflexivity.
  - destruct (col_index cols col) as [k|] eqn:Hk; [|discriminate].
    cbn. intros [= <-]. cbn. rewrite (IH k eq_refl). reflexivity.
Qed.

Lemma rectangular_same_shape d df :
  map fst (df_columns d) = map fst (df_columns df) ->
  df_rows d = df_rows df ->
  FrameSpec.rectangular d = FrameSpec.rectangular df.
Proof.
  intros Hn Hr. unfold FrameSpec.rectangular, columns. rewrite Hn, Hr.
  assert (Hl : List.length (df_columns d) = List.length (df_columns df)).
  { rewrite <- (length_map fst (df_columns d)), Hn. apply length_map. }
  rewrite Hl. reflexivity.
Qed.

(** What [_optimize_dataframe] leaves as it is: the rows, the column
    names and the values of the key column. *)
Lemma optimize_dataframe_shape df col s j :
  column df col = Some s ->
  col_index (df_columns df) col = Some j ->
  (0 < len df)%Z ->
  exists d t,
    PerformanceOptimizer._optimize_dataframe df [col] = ret d /\
    df_rows d = df_rows df /\
    col_index (df_columns d) col = Some j /\
    map fst (df_columns d) = map fst (df_columns df) /\
    column d col = Some t /\ s_values t = s_values s.
Proof.
  intros Hc Hj Hlen. cbn [PerformanceOptimizer._optimize_dataframe].
  unfold PerformanceOptimizer.optimize_column. rewrite Hc.
  assert (Hsame : exists t, column df col = Some t /\ s_values t = s_values s) by eauto.
  assert (Hcat : exists t, column (astype_category df col) col = Some t
                           /\ s_values t = s_values s).
  { destruct (column_astype_category df col s Hc) as [H1 _]. eauto. }
  assert (Hcatshape : df_rows (astype_category df col) = df_rows df /\
                      col_index (df_columns (astype_category df col)) col = Some j /\
                      map fst (df_columns (astype_category df col)) = map fst (df_columns df)).
  { unfold astype_category. rewrite Hj. cbn [df_rows df_columns].
    destruct (col_index_set_nth _ _ _ "category" Hj) as [P1 _].
    split; [reflexivity|]. split; [|apply set_nth_names, Hj].
    unfold dtype in *. exact P1. }
  destruct Hsame as (t & Ht & Hv). destruct Hcat as (t' & Ht' & Hv').
  destruct Hcatshape as (C1 & C2 & C3).
  destruct (String.eqb (s_dtype s) "object").
  - replace (len df =? 0)%Z with false by (symmetry; apply Z.eqb_neq; lia).
    destruct (2 * nunique s <? len df)%Z; rewrite bind_ret_l.
    + exists (astype_category df col), t'. auto 10.
    + exists df, t. auto 10.
  - rewrite bind_ret_l. exists df, t. auto 10.
Qed.

Lemma optimized_engine_results self df1 df2 col1 col2 s1 s2 i j cs :
  column df1 col1 = Some s1 ->
  column df2 col2 = Some s2 ->
  col_index (df_columns df1) col1 = Some i ->
  col_index (df_columns df2) col2 = Some j ->
  cancelled self = false ->
  fst (validate_column_compatibility self df1 df2 col1 col2) = true ->
  (10000 <? len df1 + len df2)%Z = true ->
  (0 < len df1)%Z -> (0 < len df2)%Z ->
  (0 < ChunkedProcessor.chunk_size
         (PerformanceOptimizer.chunked_processor (performance_optimizer self)))%Z ->
  FrameSpec.rectangular df2 = true ->
  exists removed kept cols dt lookup,
    outcome (remove_matches self df1 df2 col1 col2 cs true) = Ok removed /\
    outcome (keep_only_matches self df1 df2 col1 col2 cs true) = Ok kept /\
    result_data removed
    = mk_df cols (List.filter (fun r => negb (FrameSpec.optimized_match dt lookup j cs r)) (df_rows df2)) /\
    result_data kept
    = mk_df cols (List.filter (FrameSpec.optimized_match dt lookup j cs) (df_rows df2)) /\
    map fst cols = map fst (df_columns df2) /\
    FrameSpec.lookup_of s1 cs lookup /\
    result_count removed = len (result_data removed) /\
    result_count kept = len (result_data kept) /\
    original_count removed = len df2 /\ original_count kept = len df2.
Proof.
  intros H1 H2 Hi Hj Hrun Hvalid Hbig Hl1 Hl2 Hs Hrect.
  destruct (optimize_dataframe_shape df1 col1 s1 i H1 Hi Hl1)
    as (d1 & t1 & Ho1 & R1 & J1 & N1 & T1 & V1).
  destruct (optimize_dataframe_shape df2 col2 s2 j H2 Hj Hl2)
    as (d2 & t2 & Ho2 & R2 & J2 & N2 & T2 & V2).
  assert (Hrect2 : FrameSpec.rectangular d2 = true).
  { rewrite (rectangular_same_shape d2 df2 N2 R2). exact Hrect. }
  set (lookup := to_set (s_values
                   (if negb cs && String.eqb (s_dtype (dropna t1)) "object"
                    then str_lower (astype_str (dropna t1)) else dropna t1))).
  set (dt := snd (nth j (df_columns d2) (col2, "object"))).
  assert (Hrm : outcome (PerformanceOptimizer.optimize_comparison_operation
                           (performance_optimizer self) df1 df2 col1 col2
                           "remove_matches" cs true)
                = Ok (mk_df (df_columns d2)
                        (List.filter (fun r => negb (FrameSpec.optimized_match dt lookup j cs r))
                                     (df_rows df2)))).
  { unfold PerformanceOptimizer.optimize_comparison_operation.
    rewrite outcome_bind_notify, Ho1, bind_ret_l, Ho2, bind_ret_l, outcome_bind_notify.
    unfold PerformanceOptimizer._create_optimized_lookup.
    rewrite (getitem_some _ _ _ T1), !bind_ret_l, outcome_bind_notify.
    cbn [String.eqb Ascii.eqb Bool.eqb].
    erewrite outcome_bind_ok;
      [|apply (optimized_remove_matches_result _ d2 col2 j); assumption].
    rewrite !outcome_bind_notify, R2. reflexivity. }
  assert (Hkp : outcome (PerformanceOptimizer.optimize_comparison_operation
                           (performance_optimizer self) df1 df2 col1 col2
                           "keep_matches" cs true)
                = Ok (mk_df (df_columns d2)
                        (List.filter (FrameSpec.optimized_match dt lookup j cs) (df_rows df2)))).
  { unfold PerformanceOptimizer.optimize_comparison_operation.
    rewrite outcome_bind_notify, Ho1, bind_ret_l, Ho2, bind_ret_l, outcome_bind_notify.
    unfold PerformanceOptimizer._create_optimized_lookup.
    rewrite (getitem_some _ _ _ T1), !bind_ret_l, outcome_bind_notify.
    cbn [String.eqb Ascii.eqb Bool.eqb].
    erewrite outcome_bind_ok;
      [|apply (optimized_keep_matches_result _ d2 col2 j); assumption].
    rewrite !outcome_bind_notify, R2. reflexivity. }
  unfold remove_matches, keep_only_matches. rewrite Hrun.
  destruct (validate_column_compatibility self df1 df2 col1 col2) as [ok msg].
  simpl in Hvalid. subst ok. simpl negb. cbv iota. rewrite Hbig. cbn [andb].
  rewrite (outcome_bind_ok _ _ _ Hrm), (outcome_bind_ok _ _ _ Hkp).
  eexists _, _, (df_columns d2), dt, lookup.
  split; [reflexivity|]. split; [reflexivity|]. cbn [result_data result_count original_count].
  repeat split; try reflexivity; try exact N2.
  exists (s_dtype t1). subst lookup. unfold dropna. cbn [s_dtype s_values]. rewrite V1.
  reflexivity.
Qed.

End OptimizedEngine.
Section ChunkTheorems.
Import ChunkedProcessor.

(** [_chunk_dataframe] with a positive chunk size cuts the frame into
    consecutive blocks: every chunk has the columns of the frame and between
    one and [chunk_size] rows, the chunks put end to end are the rows of the
    frame, and there are [(len(df) + chunk_size - 1) // chunk_size] of them,
    the count [process_dataframe_chunks] announces in its progress messages. *)
Theorem chunk_dataframe_partitions_rows (self : ChunkedProcessor.t) (df : DataFrame) :
  (0 < chunk_size self)%Z ->
  exists chunks,
    _chunk_dataframe self df = ret chunks /\
    List.concat (map df_rows chunks) = df_rows df /\
    Forall (fun c => df_columns c = df_columns df /\
                     (0 < len c <= chunk_size self)%Z) chunks /\
    Z.of_nat (List.length chunks) = ((len df + chunk_size self - 1) / chunk_size self)%Z.
Proof.
  intros Hs. unfold _chunk_dataframe.
  replace (chunk_size self =? 0)%Z with false by (symmetry; apply Z.eqb_neq; lia).
  replace (chunk_size self <? 0)%Z with false by (symmetry; apply Z.ltb_ge; lia).
  eexists. split; [reflexivity|].
  set (size := Z.to_nat (chunk_size self)).
  assert (Hsize : (0 < size)%nat) by (subst size; lia).
  rewrite map_map. cbn [df_rows]. rewrite map_id.
  split; [apply chunk_rows_concat; [exact Hsize|lia]|]. split.
  - apply Forall_map. eapply Forall_impl; [|apply (chunk_rows_sizes _ size _ Hsize)].
    intros c Hc. cbv beta in Hc. split; [reflexivity|].
    unfold len. cbn [df_rows]. subst size. lia.
  - rewrite length_map. subst size. apply chunk_rows_count; [exact Hs|lia].
Qed.

Lemma chunk_dataframe_partitions_rows_witness :
  exists chunks,
    _chunk_dataframe (ChunkedProcessor.mk 3 500) Samples.adce = ret chunks /\
    List.concat (map df_rows chunks) = df_rows Samples.adce /\
    Forall (fun c => df_columns c = df_columns Samples.adce /\
                     (0 < len c <= 3)%Z) chunks /\
    Z.of_nat (List.length chunks) = ((len Samples.adce + 3 - 1) / 3)%Z.
Proof.
  apply (chunk_dataframe_partitions_rows (ChunkedProcessor.mk 3 500)
           Samples.adce eq_refl).
Defined.

(** [process_dataframe_chunks] on a rectangular frame, with a positive
    chunk size and a [process_func] that keeps or drops each row on its
    own, returns what [process_func] returns on the whole frame: the kept
    rows in their order, whether or not the frame was cut into chunks. *)
Theorem chunked_processing_same_as_whole
    (self : ChunkedProcessor.t) (df : DataFrame)
    (process_func : DataFrame -> M progress_event DataFrame)
    (keep : row -> bool) (progress_callback : bool) :
  (0 < chunk_size self)%Z ->
  FrameSpec.rectangular df = true ->
  (forall rows, outcome (process_func (mk_df (df_columns df) rows))
                = Ok (mk_df (df_columns df) (List.filter keep rows))) ->
  outcome (process_dataframe_chunks self df process_func progress_callback)
  = outcome (process_func df).
Proof.
  intros Hs Hrect Hf.
  rewrite (process_dataframe_chunks_filter self df process_func keep progress_callback
             Hs Hrect Hf).
  specialize (Hf (df_rows df)). destruct df. symmetry. exact Hf.
Qed.

Lemma chunked_processing_same_as_whole_witness :
  outcome (process_dataframe_chunks (ChunkedProcessor.mk 3 500) Samples.adce
             (fun chunk => ret (mk_df (df_columns chunk)
                                  (List.filter (fun r => cell_eqb (cell_at 1 r) (Str "e"))
                                               (df_rows chunk))))
             true)
  = Ok (mk_df (df_columns Samples.adce) [[Int 4; Str "e"]]).
Proof.
  apply (chunked_processing_same_as_whole (ChunkedProcessor.mk 3 500) Samples.adce
           (fun chunk => ret (mk_df (df_columns chunk)
                                (List.filter (fun r => cell_eqb (cell_at 1 r) (Str "e"))
                                             (df_rows chunk))))
           (fun r => cell_eqb (cell_at 1 r) (Str "e")) true).
  - reflexivity.
  - reflexivity.
  - intros rows. reflexivity.
Defined.

(** A chunk size that is not positive, on a frame with rows: zero makes
    the chunk count divide by zero, a negative size yields no chunk at all,
    so that [process_func] is never called and the concatenation of nothing
    raises [ValueError]. *)
Theorem chunked_processing_needs_positive_chunk_size
    (self : ChunkedProcessor.t) (df : DataFrame)
    (process_func : DataFrame -> M progress_event DataFrame) :
  (chunk_size self <= 0)%Z ->
  (0 < len df)%Z ->
  process_dataframe_chunks self df process_func true
  = if (chunk_size self =? 0)%Z
    then ([], Raise (mk_exn ZeroDivisionError "integer division or modulo by zero"))
    else ([Progress (Pct 95) "Combining results..."],
          Raise (mk_exn ValueError "No objects to concatenate")).
Proof.
  intros Hs Hlen. unfold process_dataframe_chunks.
  replace (len df <=? chunk_size self)%Z with false by (symmetry; apply Z.leb_gt; lia).
  destruct (chunk_size self =? 0)%Z eqn:E; [reflexivity|].
  apply Z.eqb_neq in E. unfold _chunk_dataframe.
  replace (chunk_size self =? 0)%Z with false by (symmetry; apply Z.eqb_neq; lia).
  replace (chunk_size self <? 0)%Z with true by (symmetry; apply Z.ltb_lt; lia).
  reflexivity.
Qed.

Lemma chunked_processing_needs_positive_chunk_size_witness :
  process_dataframe_chunks (ChunkedProcessor.mk (-5) 500) Samples.adce
    (fun chunk => ret chunk) true
  = ([Progress (Pct 95) "Combining results..."],
     Raise (mk_exn ValueError "No objects to concatenate")).
Proof.
  apply (chunked_processing_needs_positive_chunk_size (ChunkedProcessor.mk (-5) 500)
           Samples.adce (fun chunk => ret chunk)); [cbn; lia|reflexivity].
Defined.

End ChunkTheorems.

Section OptimizedTheorems.
Import ComparisonEngine.

Lemma filter_partition {A} (f : A -> bool) (l : list A) :
  Permutation (List.filter f l ++ List.filter (fun x => negb (f x)) l) l.
Proof.
  induction l as [|x l IH]; cbn; [constructor|].
  destruct (f x); cbn.
  - constructor. exact IH.
  - etransitivity; [symmetry; apply Permutation_middle|]. constructor. exact IH.
Qed.

(** With a progress callback and more than 10000 rows in total (the
    optimized path, chunked or not), [remove_matches] and
    [keep_only_matches] still split file 2: each result holds rows of file 2
    in their order, every row of file 2 is in exactly one of the two
    results, and the two result counts add up to [len(df2)].  This holds
    whatever the case flag and the dtypes are, for non-empty files. *)
Theorem optimized_path_partitions_second_file
    (self : ComparisonEngine.t) (df1 df2 : DataFrame) (col1 col2 : string)
    (case_sensitive : bool) :
  cancelled self = false ->
  fst (validate_column_compatibility self df1 df2 col1 col2) = true ->
  (10000 < len df1 + len df2)%Z ->
  (0 < len df1)%Z -> (0 < len df2)%Z ->
  (0 < ChunkedProcessor.chunk_size
         (PerformanceOptimizer.chunked_processor (performance_optimizer self)))%Z ->
  FrameSpec.rectangular df2 = true ->
  exists removed kept keep,
    outcome (remove_matches self df1 df2 col1 col2 case_sensitive true) = Ok removed /\
    outcome (keep_only_matches self df1 df2 col1 col2 case_sensitive true) = Ok kept /\
    df_rows (result_data kept) = List.filter keep (df_rows df2) /\
    df_rows (result_data removed) = List.filter (fun r => negb (keep r)) (df_rows df2) /\
    Permutation (df_rows (result_data kept) ++ df_rows (result_data removed))
                (df_rows df2) /\
    (result_count removed + result_count kept = len df2)%Z /\
    original_count removed = len df2 /\ original_count kept = len df2.
Proof.
  intros Hrun Hvalid Hbig Hl1 Hl2 Hs Hrect.
  destruct (validate_ok_columns _ _ _ _ _ Hvalid) as (s1 & s2 & H1 & H2).
  assert (Hi : exists i, col_index (df_columns df1) col1 = Some i).
  { unfold column in H1. destruct (col_index (df_columns df1) col1); [eauto|discriminate]. }
  assert (Hj : exists j, col_index (df_columns df2) col2 = Some j).
  { unfold column in H2. destruct (col_index (df_columns df2) col2); [eauto|discriminate]. }
  destruct Hi as [i Hi]. destruct Hj as [j Hj].
  destruct (optimized_engine_results self df1 df2 col1 col2 s1 s2 i j case_sensitive
              H1 H2 Hi Hj Hrun Hvalid) as
    (rm & kp & cols & dt & lookup & Hrm & Hkp & Drm & Dkp & _ & _ & Crm & Ckp & Orm & Okp);
    try assumption; [apply Z.ltb_lt; lia|].
  exists rm, kp, (FrameSpec.optimized_match dt lookup j case_sensitive).
  rewrite Crm, Ckp, Drm, Dkp. cbn [df_rows]. repeat split; try assumption.
  - apply filter_partition.
  - unfold len. cbn [df_rows].
    pose proof (Permutation_length
                  (filter_partition (FrameSpec.optimized_match dt lookup j case_sensitive)
                     (df_rows df2))) as L.
    rewrite length_app in L. lia.
Qed.

Lemma optimized_path_partitions_second_file_witness :
  exists removed kept keep,
    outcome (remove_matches ComparisonEngine.__init__ Samples.one_A Samples.many_A
               "key" "key" false true) = Ok removed /\
    outcome (keep_only_matches ComparisonEngine.__init__ Samples.one_A Samples.many_A
               "key" "key" false true) = Ok kept /\
    df_rows (result_data kept) = List.filter keep (df_rows Samples.many_A) /\
    df_rows (result_data removed)
    = List.filter (fun r => negb (keep r)) (df_rows Samples.many_A) /\
    Permutation (df_rows (result_data kept) ++ df_rows (result_data removed))
                (df_rows Samples.many_A) /\
    (result_count removed + result_count kept = len Samples.many_A)%Z /\
    original_count removed = len Samples.many_A /\
    original_count kept = len Samples.many_A.
Proof.
  apply (optimized_path_partitions_second_file ComparisonEngine.__init__
           Samples.one_A Samples.many_A "key" "key" false);
    vm_compute; reflexivity.
Defined.

(** Case-sensitive comparison, no key missing in file 1, non-empty files:
    with more than 10000 rows in total the call with a progress callback
    (the optimized path, chunked above 50000 rows) returns the rows the
    call without one (the direct path) returns, for [remove_matches] and for
    [keep_only_matches]. *)
Theorem optimized_path_agrees_when_case_sensitive
    (self : ComparisonEngine.t) (df1 df2 : DataFrame) (col1 col2 : string)
    (s1 : Series) :
  column df1 col1 = Some s1 ->
  forallb notna (s_values s1) = true ->
  cancelled self = false ->
  fst (validate_column_compatibility self df1 df2 col1 col2) = true ->
  (10000 < len df1 + len df2)%Z ->
  (0 < len df1)%Z -> (0 < len df2)%Z ->
  (0 < ChunkedProcessor.chunk_size
         (PerformanceOptimizer.chunked_processor (performance_optimizer self)))%Z ->
  FrameSpec.rectangular df2 = true ->
  exists removed removed' kept kept',
    outcome (remove_matches self df1 df2 col1 col2 true true) = Ok removed /\
    outcome (remove_matches self df1 df2 col1 col2 true false) = Ok removed' /\
    outcome (keep_only_matches self df1 df2 col1 col2 true true) = Ok kept /\
    outcome (keep_only_matches self df1 df2 col1 col2 true false) = Ok kept' /\
    df_rows (result_data removed) = df_rows (result_data removed') /\
    df_rows (result_data kept) = df_rows (result_data kept') /\
    result_count removed = result_count removed' /\
    result_count kept = result_count kept'.
Proof.
  intros H1 Hpresent Hrun Hvalid Hbig Hl1 Hl2 Hs Hrect.
  destruct (validate_ok_columns _ _ _ _ _ Hvalid) as (s1' & s2 & H1' & H2).
  rewrite H1 in H1'. injection H1' as <-.
  assert (Hi : exists i, col_index (df_columns df1) col1 = Some i).
  { unfold column in H1. destruct (col_index (df_columns df1) col1); [eauto|discriminate]. }
  assert (Hj : exists j, col_index (df_columns df2) col2 = Some j).
  { unfold column in H2. destruct (col_index (df_columns df2) col2); [eauto|discriminate]. }
  destruct Hi as [i Hi]. destruct Hj as [j Hj].
  destruct (optimized_engine_results self df1 df2 col1 col2 s1 s2 i j true
              H1 H2 Hi Hj Hrun Hvalid) as
    (rm & kp & cols & dt & lookup & Hrm & Hkp & Drm & Dkp & _ & [dt1 Hlk] & Crm & Ckp & _);
    try assumption; [apply Z.ltb_lt; lia|].
  destruct (direct_path_results self df1 df2 col1 col2 s1 s2 j true false
              H1 H2 Hj Hrun Hvalid (andb_false_r _))
    as (rm' & kp' & Hrm' & Hkp' & Drm' & Dkp' & Crm' & Ckp' & _).
  assert (Hsame : forall r, FrameSpec.optimized_match dt lookup j true r
                            = FrameSpec.direct_match s1 s2 j true r).
  { intros r. unfold FrameSpec.optimized_match, FrameSpec.direct_match. cbn [orb].
    rewrite Hlk. cbn [negb andb dropna s_values s_dtype].
    rewrite (filter_notna_all _ Hpresent). apply mem_cell_to_set. }
  assert (Hk : List.filter (FrameSpec.optimized_match dt lookup j true) (df_rows df2)
               = List.filter (FrameSpec.direct_match s1 s2 j true) (df_rows df2)).
  { apply filter_ext. exact Hsame. }
  assert (Hr : List.filter (fun r => negb (FrameSpec.optimized_match dt lookup j true r))
                 (df_rows df2)
               = List.filter (fun r => negb (FrameSpec.direct_match s1 s2 j true r))
                   (df_rows df2)).
  { apply filter_ext. intros r. rewrite Hsame. reflexivity. }
  exists rm, rm', kp, kp'.
  rewrite Crm, Ckp, Crm', Ckp', Drm, Dkp, Drm', Dkp'. unfold len. cbn [df_rows].
  rewrite Hk, Hr. repeat split; assumption.
Qed.

Lemma optimized_path_agrees_when_case_sensitive_witness :
  exists removed removed' kept kept',
    outcome (remove_matches ComparisonEngine.__init__ Samples.one_A Samples.many_A
               "key" "key" true true) = Ok removed /\
    outcome (remove_matches ComparisonEngine.__init__ Samples.one_A Samples.many_A
               "key" "key" true false) = Ok removed' /\
    outcome (keep_only_matches ComparisonEngine.__init__ Samples.one_A Samples.many_A
               "key" "key" true true) = Ok kept /\
    outcome (keep_only_matches ComparisonEngine.__init__ Samples.one_A Samples.many_A
               "key" "key" true false) = Ok kept' /\
    df_rows (result_data removed) = df_rows (result_data removed') /\
    df_rows (result_data kept) = df_rows (result_data kept') /\
    result_count removed = result_count removed' /\
    result_count kept = result_count kept'.
Proof.
  apply (optimized_path_agrees_when_case_sensitive ComparisonEngine.__init__
           Samples.one_A Samples.many_A "key" "key" (mk_series "object" [Str "A"]));
    vm_compute; reflexivity.
Defined.

(** A file without rows on the optimized path: with a progress callback
    and more than 10000 rows in total, a file that has no rows and an
    [object] comparison column makes [remove_matches] and
    [keep_only_matches] raise [ZeroDivisionError], the optimizer dividing
    the number of distinct keys by the number of rows. *)
Theorem optimized_path_divides_by_row_count
    (self : ComparisonEngine.t) (df1 df2 : DataFrame) (col1 col2 : string)
    (s1 s2 : Series) (case_sensitive : bool) :
  column df1 col1 = Some s1 ->
  column df2 col2 = Some s2 ->
  cancelled self = false ->
  fst (validate_column_compatibility self df1 df2 col1 col2) = true ->
  (10000 < len df1 + len df2)%Z ->
  (len df1 = 0%Z /\ s_dtype s1 = "object") \/ (len df2 = 0%Z /\ s_dtype s2 = "object") ->
  outcome (remove_matches self df1 df2 col1 col2 case_sensitive true)
    = Raise (mk_exn ZeroDivisionError "division by zero") /\
  outcome (keep_only_matches self df1 df2 col1 col2 case_sensitive true)
    = Raise (mk_exn ZeroDivisionError "division by zero").
Proof.
  intros H1 H2 Hrun Hvalid Hbig Hempty.
  assert (Hopt : forall op,
             outcome (PerformanceOptimizer.optimize_comparison_operation
                        (performance_optimizer self) df1 df2 col1 col2 op case_sensitive true)
             = Raise (mk_exn ZeroDivisionError "division by zero")).
  { intros op. unfold PerformanceOptimizer.optimize_comparison_operation.
    rewrite outcome_bind_notify.
    cbn [PerformanceOptimizer._optimize_dataframe].
    assert (Hdf2 : forall k : DataFrame -> M progress_event DataFrame,
               len df2 = 0%Z -> s_dtype s2 = "object" ->
               outcome (bind (bind (PerformanceOptimizer.optimize_column df2 col2)
                                (fun d => ret d)) k)
               = Raise (mk_exn ZeroDivisionError "division by zero")).
    { intros k L D. unfold PerformanceOptimizer.optimize_column.
      rewrite H2, D, L. reflexivity. }
    unfold PerformanceOptimizer.optimize_column at 1. rewrite H1.
    destruct (String.eqb (s_dtype s1) "object") eqn:D1.
    - destruct (len df1 =? 0)%Z eqn:L1; [reflexivity|].
      destruct Hempty as [[L _]|[L D]]; [apply Z.eqb_neq in L1; lia|].
      destruct (2 * nunique s1 <? len df1)%Z; rewrite !bind_ret_l; apply Hdf2; assumption.
    - destruct Hempty as [[_ D]|[L D]].
      + rewrite D in D1. discriminate.
      + rewrite !bind_ret_l. apply Hdf2; assumption. }
  unfold remove_matches, keep_only_matches. rewrite Hrun.
  destruct (validate_column_compatibility self df1 df2 col1 col2) as [ok msg].
  simpl in Hvalid. subst ok. simpl negb. cbv iota.
  replace (10000 <? len df1 + len df2)%Z with true by (symmetry; apply Z.ltb_lt; lia).
  cbn [andb]. rewrite !(outcome_bind_raise _ _ _ (Hopt _)). split; reflexivity.
Qed.

Lemma optimized_path_divides_by_row_count_witness :
  outcome (remove_matches ComparisonEngine.__init__ LargeSamples.many_k
             LargeSamples.no_rows "key" "key" true true)
    = Raise (mk_exn ZeroDivisionError "division by zero") /\
  outcome (keep_only_matches ComparisonEngine.__init__ LargeSamples.many_k
             LargeSamples.no_rows "key" "key" true true)
    = Raise (mk_exn ZeroDivisionError "division by zero").
Proof.
  apply (optimized_path_divides_by_row_count ComparisonEngine.__init__
           LargeSamples.many_k LargeSamples.no_rows "key" "key"
           (mk_series "object" (repeat (Str "k") 10001)) (mk_series "object" []) true).
  - vm_compute. reflexivity.
  - reflexivity.
  - reflexivity.
  - vm_compute. reflexivity.
  - vm_compute. reflexivity.
  - right. split; reflexivity.
Defined.

End OptimizedTheorems.
(** ** The file parser: what [parse_file] returns, raises and reads *)

Section ParserOutcomes.

Import FileParserService.

Lemma parse_csv_loop_outcome env file_path encodings last_error :
  match outcome (parse_csv_loop env file_path encodings last_error) with
  | Ok df => empty df = false
  | Raise e => exn_cls e = ParserFileParsingError
  end.
Proof.
  revert last_error. induction encodings as [|encoding rest IH]; intros last_error.
  - reflexivity.
  - cbn [parse_csv_loop]. unfold bind, emit, outcome.
    destruct (read_csv env file_path encoding "skip") as [df|e]; cbn.
    + destruct (empty df) eqn:E; cbn; [reflexivity|exact E].
    + destruct (isinstance e UnicodeDecodeError); [|reflexivity].
      specialize (IH (Some e)). unfold outcome in IH.
      destruct (parse_csv_loop env file_path rest (Some e)) as [tr r]. exact IH.
Qed.

Lemma parse_excel_outcome env self file_path :
  match outcome (_parse_excel env self file_path) with
  | Ok df => empty df = false
  | Raise e => exn_cls e = ParserFileParsingError
  end.
Proof.
  unfold _parse_excel, try_except, bind, emit, raise, ret, outcome.
  destruct (read_excel env file_path 0) as [df|e]; cbn; [|reflexivity].
  destruct (empty df) eqn:E; cbn; [reflexivity|exact E].
Qed.

Lemma parse_file_outcome_cases
    (env : Env) (self : FileParserService.t) (file_path : string) :
  match outcome (parse_file env self file_path) with
  | Ok df => empty df = false
  | Raise e =>
      exn_cls e = FileNotFoundError \/ isinstance e ParserFileParsingError = true
  end.
Proof.
  unfold parse_file, validate_file_format.
  destruct (os_path_exists env file_path); cbn [negb]; [|left; reflexivity].
  destruct (mem_str (file_extension file_path) SUPPORTED_EXTENSIONS); cbn [negb];
    [|right; reflexivity].
  rewrite bind_ret_l.
  destruct (String.eqb (file_extension file_path) ".csv").
  - pose proof (parse_csv_loop_outcome env file_path (_encoding_fallbacks self) None) as H.
    unfold _parse_csv, try_except, outcome in *.
    destruct (parse_csv_loop env file_path (_encoding_fallbacks self) None) as [tr [df|e]];
      [exact H|].
    destruct e as [c m]. cbn in H. subst c. right. reflexivity.
  - destruct (mem_str (file_extension file_path) [".xlsx"; ".xls"]).
    + pose proof (parse_excel_outcome env self file_path) as H.
      unfold try_except at 1. unfold outcome in *.
      destruct (_parse_excel env self file_path) as [tr [df|e]]; [exact H|].
      destruct e as [c m]. cbn in H. subst c. right. reflexivity.
    + right. reflexivity.
Qed.

(** Whatever the file system and the readers do, and whatever encodings
    the service was given: a table returned by [parse_file] is never empty,
    and an exception leaving [parse_file] is [FileNotFoundError] or one of
    the parser's own [FileParsingError] and [UnsupportedFileFormatError]. *)
Theorem parse_file_returns_data_or_parser_error
    (env : Env) (self : FileParserService.t) (file_path : string) :
  match outcome (parse_file env self file_path) with
  | Ok df => empty df = false
  | Raise e =>
      exn_cls e = FileNotFoundError \/ isinstance e ParserFileParsingError = true
  end.
Proof. apply parse_file_outcome_cases. Qed.

(** The parser's [FileParsingError] is not the [FileParsingError] of
    [models.exceptions] the error handler tests for: every error
    [parse_file] raises for an existing file is categorized by the handler
    as a system error, not as a file-operation error; only the
    [FileNotFoundError] of a missing file counts as a file operation. *)
Theorem parser_errors_are_categorized_as_system_errors
    (env : Env) (self : FileParserService.t) (file_path : string) (e : exn) :
  outcome (parse_file env self file_path) = Raise e ->
  ErrorHandler._categorize_error e
  = if os_path_exists env file_path
    then (ErrorHandler.SYSTEM, ErrorHandler.ERROR)
    else (ErrorHandler.FILE_OPERATION, ErrorHandler.ERROR).
Proof.
  intros He.
  destruct (os_path_exists env file_path) eqn:Hexists.
  - pose proof (parse_file_outcome_cases env self file_path) as H. rewrite He in H.
    assert (Hcls : isinstance e ParserFileParsingError = true).
    { destruct H as [H|H]; [|exact H]. exfalso.
      revert He. unfold parse_file, validate_file_format. rewrite Hexists. cbn [negb].
      destruct (mem_str (file_extension file_path) SUPPORTED_EXTENSIONS); cbn [negb].
      - rewrite bind_ret_l.
        pose proof (parse_csv_loop_outcome env file_path (_encoding_fallbacks self) None) as Hc.
        pose proof (parse_excel_outcome env self file_path) as Hx.
        unfold _parse_csv, try_except, outcome in *.
        destruct (String.eqb (file_extension file_path) ".csv").
        + destruct (parse_csv_loop env file_path (_encoding_fallbacks self) None)
            as [tr [df|e']]; [discriminate|].
          destruct e' as [c m]. cbn in Hc. subst c. cbn. intros [= <-]. discriminate.
        + destruct (mem_str (file_extension file_path) [".xlsx"; ".xls"]).
          * destruct (_parse_excel env self file_path) as [tr [df|e']]; [discriminate|].
            destruct e' as [c m]. cbn in Hx. subst c. cbn. intros [= <-]. discriminate.
          * cbn. intros [= <-]. discriminate.
      - cbn. intros [= <-]. discriminate. }
    destruct e as [c m]. destruct c; cbn in Hcls; try discriminate; reflexivity.
  - revert He. unfold parse_file, validate_file_format. rewrite Hexists. cbn.
    intros [= <-]. reflexivity.
Qed.

Lemma parser_errors_are_categorized_as_system_errors_witness :
  ErrorHandler._categorize_error
    (mk_exn UnsupportedFileFormatError
       "Unsupported file format: .txt. Supported formats: .csv, .xlsx, .xls")
  = (ErrorHandler.SYSTEM, ErrorHandler.ERROR).
Proof.
  apply (parser_errors_are_categorized_as_system_errors SampleFiles.non_utf8_file
           FileParserService.__init__ "notes/readme.txt"
           (mk_exn UnsupportedFileFormatError
              "Unsupported file format: .txt. Supported formats: .csv, .xlsx, .xls")
           eq_refl).
Defined.

Lemma trace_try_except_raise {E A} (m : M E A) (h : exn -> exn) :
  trace (try_except m (fun e => raise (h e))) = trace m.
Proof.
  unfold try_except, trace, raise. destruct m as [tr [a|e]]; cbn; [reflexivity|].
  apply app_nil_r.
Qed.

Lemma parse_csv_loop_trace env file_path encodings last_error :
  exists k, (k <= List.length encodings)%nat /\
            (encodings <> [] -> (1 <= k)%nat) /\
            trace (parse_csv_loop env file_path encodings last_error)
            = attempts file_path (firstn k encodings).
Proof.
  revert last_error. induction encodings as [|encoding rest IH]; intros last_error.
  - exists 0%nat. cbn. split; [lia|]. split; [congruence|reflexivity].
  - cbn [parse_csv_loop]. unfold bind, emit, trace.
    destruct (read_csv env file_path encoding "skip") as [df|e]; cbn.
    + exists 1%nat. cbn. split; [lia|]. split; [lia|].
      destruct (empty df); reflexivity.
    + destruct (isinstance e UnicodeDecodeError).
      * destruct (IH (Some e)) as (k & Hk & _ & Ht). unfold trace in Ht.
        destruct (parse_csv_loop env file_path rest (Some e)) as [tr r]. cbn in *.
        exists (S k). split; [lia|]. split; [lia|]. cbn. rewrite Ht. reflexivity.
      * exists 1%nat. cbn. split; [lia|]. split; [lia|reflexivity].
Qed.

(** For an existing [.csv] file the reads [parse_file] makes are the first
    [k] of the four attempts [utf-8], [latin-1], [cp1252], [iso-8859-1],
    in this order and each with [on_bad_lines='skip'], for some [k] between
    one and four: no encoding is tried twice and none out of turn. *)
Theorem parse_file_csv_reads_a_prefix_of_the_encodings
    (env : Env) (file_path : string) :
  os_path_exists env file_path = true ->
  file_extension file_path = ".csv" ->
  exists k, (1 <= k <= 4)%nat /\
            trace (parse_file env FileParserService.__init__ file_path)
            = attempts file_path
                (firstn k ["utf-8"; "latin-1"; "cp1252"; "iso-8859-1"]).
Proof.
  intros Hexists Hcsv. rewrite (parse_file_csv env file_path Hexists Hcsv).
  destruct (parse_csv_loop_trace env file_path
              ["utf-8"; "latin-1"; "cp1252"; "iso-8859-1"] None) as (k & Hk & Hk1 & Ht).
  exists k. split; [split; [apply Hk1; discriminate|exact Hk]|].
  unfold _parse_csv. cbn [_encoding_fallbacks FileParserService.__init__].
  unfold try_except, trace in *.
  destruct (parse_csv_loop env file_path _ None) as [tr [df|e]]; cbn in *; [exact Ht|].
  destruct (isinstance e UnsupportedFileFormatError || isinstance e ParserFileParsingError);
    cbn; rewrite app_nil_r; exact Ht.
Qed.

Lemma parse_file_csv_reads_a_prefix_of_the_encodings_witness :
  exists k, (1 <= k <= 4)%nat /\
            trace (parse_file SampleFiles.non_utf8_file FileParserService.__init__
                     "data/customers.CSV")
            = attempts "data/customers.CSV"
                (firstn k ["utf-8"; "latin-1"; "cp1252"; "iso-8859-1"]).
Proof.
  apply (parse_file_csv_reads_a_prefix_of_the_encodings SampleFiles.non_utf8_file
           "data/customers.CSV" eq_refl eq_refl).
Defined.

(** A path that does not exist, or whose extension is none of [.csv],
    [.xlsx], [.xls]: [parse_file] reads nothing and raises
    [FileNotFoundError] naming the path, respectively
    [UnsupportedFileFormatError] with a message that starts with
    [Unsupported file format:]; for an ASCII path the message goes on with
    the lower-cased extension and the supported extensions, listed in the
    order in which this run iterates over the set. *)
Theorem parse_file_rejects_before_reading
    (env : Env) (self : FileParserService.t) (file_path : string) :
  os_path_exists env file_path
  && mem_str (file_extension file_path) SUPPORTED_EXTENSIONS = false ->
  trace (parse_file env self file_path) = [] /\
  if os_path_exists env file_path
  then
    exists rest,
      outcome (parse_file env self file_path)
      = Raise (mk_exn UnsupportedFileFormatError ("Unsupported file format: " +:+ rest)) /\
      (is_ascii file_path = true ->
       rest = file_extension file_path +:+ ". Supported formats: "
              +:+ String.concat ", " (iter_SUPPORTED_EXTENSIONS env))
  else
    outcome (parse_file env self file_path)
    = Raise (mk_exn FileNotFoundError ("File not found: " +:+ file_path)).
Proof.
  intros H. unfold parse_file, validate_file_format.
  destruct (os_path_exists env file_path); cbn [negb andb] in *;
    [|split; reflexivity].
  rewrite H. cbn [negb]. split; [reflexivity|].
  eexists. split; [reflexivity|]. intros _. reflexivity.
Qed.

Lemma parse_file_rejects_before_reading_witness :
  trace (parse_file SampleFiles.another_run FileParserService.__init__ "notes/readme.txt")
  = [] /\
  exists rest,
    outcome (parse_file SampleFiles.another_run FileParserService.__init__
               "notes/readme.txt")
    = Raise (mk_exn UnsupportedFileFormatError ("Unsupported file format: " +:+ rest)) /\
    (is_ascii "notes/readme.txt" = true ->
     rest = ".txt. Supported formats: .xls, .csv, .xlsx").
Proof.
  apply (parse_file_rejects_before_reading SampleFiles.another_run
           FileParserService.__init__ "notes/readme.txt" eq_refl).
Defined.

(** An existing [.xlsx] or [.xls] file is read once, first sheet only, with
    no fallback: a non-empty table is returned as it is, and an empty table
    or any failure of the reader becomes a [FileParsingError] whose message
    starts with [Failed to parse Excel file:]. *)
Theorem parse_file_excel_reads_first_sheet_once
    (env : Env) (self : FileParserService.t) (file_path : string) :
  os_path_exists env file_path = true ->
  mem_str (file_extension file_path) [".xlsx"; ".xls"] = true ->
  parse_file env self file_path
  = ([ReadExcel file_path 0],
     match read_excel env file_path 0 with
     | Ok df =>
         if empty df
         then Raise (mk_exn ParserFileParsingError
                       "Failed to parse Excel file: Excel file is empty or contains no valid data")
         else Ok df
     | Raise e =>
         Raise (mk_exn ParserFileParsingError
                  ("Failed to parse Excel file: " +:+ exn_msg e))
     end).
Proof.
  intros Hexists Hext. unfold parse_file, validate_file_format. rewrite Hexists.
  assert (Hsup : mem_str (file_extension file_path) SUPPORTED_EXTENSIONS = true).
  { unfold SUPPORTED_EXTENSIONS, mem_str in *. cbn in *.
    destruct (String.eqb (file_extension file_path) ".csv"); [reflexivity|exact Hext]. }
  assert (Hnot : String.eqb (file_extension file_path) ".csv" = false).
  { unfold mem_str in Hext. cbn in Hext.
    destruct (String.eqb (file_extension file_path) ".csv") eqn:E; [|reflexivity].
    apply String.eqb_eq in E. rewrite E in Hext. discriminate. }
  rewrite Hsup, Hnot, Hext. cbn [negb]. rewrite bind_ret_l.
  unfold _parse_excel, try_except, bind, emit, raise, ret.
  destruct (read_excel env file_path 0) as [df|e]; cbn; [|reflexivity].
  destruct (empty df); reflexivity.
Qed.

Lemma parse_file_excel_reads_first_sheet_once_witness :
  parse_file SampleFiles.non_utf8_file FileParserService.__init__ "data/customers.XLSX"
  = ([ReadExcel "data/customers.XLSX" 0], Ok SampleFiles.customers).
Proof.
  apply (parse_file_excel_reads_first_sheet_once SampleFiles.non_utf8_file
           FileParserService.__init__ "data/customers.XLSX" eq_refl eq_refl).
Defined.

End ParserOutcomes.
(** ** The export service: what is written, and how failures surface *)

Section ExportOutcomes.

Import ExportService.

Lemma bind_ok_inv {E A B} (m : M E A) (k : A -> M E B) b :
  outcome (bind m k) = Ok b ->
  exists a, outcome m = Ok a /\ outcome (k a) = Ok b.
Proof.
  unfold bind, outcome. destruct m as [tr [a|e]]; cbn; [|discriminate].
  destruct (k a) as [tr' r] eqn:Hk. cbn. intros ->. exists a. rewrite Hk. auto.
Qed.

Lemma prefix_append p m : String.prefix p (p +:+ m) = true.
Proof.
  induction p as [|c p IH]; [destruct m; reflexivity|].
  change (String.prefix (String c p) (String c (p +:+ m)) = true).
  cbn [String.prefix]. destruct (ascii_dec c c); [exact IH|congruence].
Qed.

Lemma dict_lookup_app key l1 l2 :
  dict_lookup key (l1 ++ l2)
  = match dict_lookup key l1 with
    | Some v => Some v
    | None => dict_lookup key l2
    end.
Proof.
  induction l1 as [|[k v] l1 IH]; cbn; [reflexivity|].
  destruct (String.eqb k key); [reflexivity|exact IH].
Qed.

Lemma dict_lookup_mem key kwargs :
  mem_str key (map fst kwargs) = true <-> dict_lookup key kwargs <> None.
Proof.
  induction kwargs as [|[k v] kwargs IH]; cbn; [split; [discriminate|congruence]|].
  unfold mem_str in *. cbn. rewrite (String.eqb_sym key k).
  destruct (String.eqb k key); cbn; [split; [discriminate|reflexivity]|exact IH].
Qed.

(** [{**defaults, **kwargs}]: the caller's value where the caller gave
    one, the default otherwise. *)
Lemma dict_merge_lookup key defaults kwargs :
  dict_lookup key (dict_merge defaults kwargs)
  = match dict_lookup key kwargs with
    | Some v => Some v
    | None => dict_lookup key defaults
    end.
Proof.
  unfold dict_merge. rewrite dict_lookup_app.
  destruct (dict_lookup key kwargs) as [v|] eqn:Hk.
  - assert (Hin : mem_str key (map fst kwargs) = true)
      by (apply dict_lookup_mem; congruence).
    induction defaults as [|[k d] defaults IH]; cbn; [reflexivity|].
    destruct (mem_str k (map fst kwargs)) eqn:Hm; cbn; [exact IH|].
    destruct (String.eqb k key) eqn:E; [|exact IH].
    apply String.eqb_eq in E. subst. rewrite Hin in Hm. discriminate.
  - assert (Hnot : mem_str key (map fst kwargs) = false).
    { destruct (mem_str key (map fst kwargs)) eqn:Hm; [|reflexivity].
      apply dict_lookup_mem in Hm. congruence. }
    induction defaults as [|[k d] defaults IH]; cbn; [reflexivity|].
    destruct (String.eqb k key) eqn:E.
    + apply String.eqb_eq in E. subst. rewrite Hnot. cbn. rewrite String.eqb_refl.
      reflexivity.
    + destruct (mem_str k (map fst kwargs)); cbn; [exact IH|]. rewrite E. exact IH.
Qed.


Lemma trace_bind {E A B} (m : M E A) (k : A -> M E B) :
  trace (bind m k)
  = trace m ++ match outcome m with Ok a => trace (k a) | Raise _ => [] end.
Proof.
  unfold bind, trace, outcome. destruct m as [tr [a|e]]; cbn.
  - destruct (k a). reflexivity.
  - symmetry. apply app_nil_r.
Qed.

Lemma outcome_bind {E A B} (m : M E A) (k : A -> M E B) :
  outcome (bind m k)
  = match outcome m with Ok a => outcome (k a) | Raise e => Raise e end.
Proof.
  unfold bind, outcome. destruct m as [tr [a|e]]; cbn; [|reflexivity].
  destruct (k a). reflexivity.
Qed.

Lemma outcome_try_except {E A} (m : M E A) (h : exn -> M E A) :
  outcome (try_except m h)
  = match outcome m with Ok a => Ok a | Raise e => outcome (h e) end.
Proof.
  unfold try_except, outcome. destruct m as [tr [a|e]]; cbn; [reflexivity|].
  destruct (h e). reflexivity.
Qed.

Lemma trace_call {fs} ev (r : fs * option exn) : trace (call ev r) = [ev].
Proof. unfold call, bind, emit, trace. destruct r as [s' [e|]]; reflexivity. Qed.

Lemma outcome_call {fs} ev (r : fs * option exn) :
  outcome (call ev r) = match snd r with None => Ok (fst r) | Some e => Raise e end.
Proof. unfold call, bind, emit, outcome. destruct r as [s' [e|]]; reflexivity. Qed.

Lemma validate_export_inputs_trace {fs} (os : OS fs) (s : fs) data file_path format_type :
  Forall (fun ev => ev = Mkdir (Pathlib.parent (Pathlib.Path file_path)))
    (trace (_validate_export_inputs os ExportService.__init__ s data file_path format_type)).
Proof.
  unfold _validate_export_inputs.
  destruct (empty data); [constructor|].
  destruct (negb (mem_str format_type _)); [constructor|].
  rewrite trace_bind. apply Forall_app. split.
  - apply Forall_forall. apply validate_file_path_trace.
  - destruct (outcome _); [|constructor].
    destruct (_ && _); [constructor|]. destruct (_ && _); constructor.
Qed.

Context {fs : Type} (os : OS fs) (s : fs).
Variables (data : DataFrame) (file_path : string) (kwargs : list (string * string)).

(** [export_to_csv] and [export_to_excel] never return [False] and never
    let a [ValueError] or a [PermissionError] through: the only result is
    [True], and every failure, of validation or of the write itself, leaves
    as a plain [Exception] whose message starts with [Failed to export CSV
    file:], respectively [Failed to export Excel file:]. *)
Theorem export_returns_true_or_plain_exception :
  match outcome (export_to_csv os ExportService.__init__ s data file_path kwargs) with
  | Ok (_, success) => success = true
  | Raise e =>
      exn_cls e = Exception /\
      String.prefix "Failed to export CSV file: " (exn_msg e) = true
  end /\
  match outcome (export_to_excel os ExportService.__init__ s data file_path kwargs) with
  | Ok (_, success) => success = true
  | Raise e =>
      exn_cls e = Exception /\
      String.prefix "Failed to export Excel file: " (exn_msg e) = true
  end.
Proof.
  split.
  - unfold export_to_csv, try_except.
    match goal with |- context [match ?m with _ => _ end] => destruct m as [tr [[s' b]|e]] eqn:E end.
    + cbn. assert (Ho : outcome (tr, Ok (s', b)) = @Ok (fs * bool) (s', b)) by reflexivity.
      rewrite <- E in Ho.
      apply bind_ok_inv in Ho. destruct Ho as (s1 & _ & Ho).
      apply bind_ok_inv in Ho. destruct Ho as (s2 & _ & Ho).
      apply bind_ok_inv in Ho. destruct Ho as (s3 & _ & Ho).
      cbn in Ho. congruence.
    + cbn. split; [reflexivity|apply (prefix_append "Failed to export CSV file: ")].
  - unfold export_to_excel, try_except.
    match goal with |- context [match ?m with _ => _ end] => destruct m as [tr [[s' b]|e]] eqn:E end.
    + cbn. assert (Ho : outcome (tr, Ok (s', b)) = @Ok (fs * bool) (s', b)) by reflexivity.
      rewrite <- E in Ho.
      apply bind_ok_inv in Ho. destruct Ho as (s1 & _ & Ho).
      apply bind_ok_inv in Ho. destruct Ho as (s2 & _ & Ho).
      apply bind_ok_inv in Ho. destruct Ho as (s3 & _ & Ho).
      cbn in Ho. congruence.
    + cbn. split; [reflexivity|apply (prefix_append "Failed to export Excel file: ")].
Qed.

(** When [validate_file_path] accepts a path, the parent directory is
    writable in the file system it leaves behind and so is the target if it
    exists; the only change it can have made is creating the parent
    directory, and it made none if that directory existed. *)
Theorem validate_file_path_postcondition (s' : fs) :
  outcome (validate_file_path os ExportService.__init__ s file_path) = Ok s' ->
  access_w os s' (Pathlib.parent (Pathlib.Path file_path)) = true /\
  (path_exists os s' (Pathlib.Path file_path) = true ->
   access_w os s' (Pathlib.Path file_path) = true) /\
  file_path <> "" /\
  (if path_exists os s (Pathlib.parent (Pathlib.Path file_path))
   then s' = s /\ trace (validate_file_path os ExportService.__init__ s file_path) = []
   else s' = fst (mkdir os s (Pathlib.parent (Pathlib.Path file_path))) /\
        trace (validate_file_path os ExportService.__init__ s file_path)
        = [Mkdir (Pathlib.parent (Pathlib.Path file_path))]).
Proof.
  unfold validate_file_path, call, bind, ret, raise, emit, try_except, trace, outcome.
  destruct (String.eqb file_path "") eqn:Hne; cbn; [discriminate|].
  apply String.eqb_neq in Hne.
  destruct (path_exists os s (Pathlib.parent (Pathlib.Path file_path))); cbn.
  - destruct (access_w os s (Pathlib.parent (Pathlib.Path file_path))) eqn:Hw; cbn;
      [|discriminate].
    destruct (path_exists os s (Pathlib.Path file_path)) eqn:Hp; cbn.
    + destruct (access_w os s (Pathlib.Path file_path)) eqn:Hf; cbn; [|discriminate].
      intros [= <-]. rewrite Hw, Hf. auto.
    + intros [= <-]. rewrite Hw, Hp. repeat split; auto. discriminate.
  - destruct (mkdir os s (Pathlib.parent (Pathlib.Path file_path))) as [s1 [e|]]; cbn.
    + destruct (isinstance e PermissionError); cbn; discriminate.
    + destruct (access_w os s1 (Pathlib.parent (Pathlib.Path file_path))) eqn:Hw; cbn;
        [|discriminate].
      destruct (path_exists os s1 (Pathlib.Path file_path)) eqn:Hp; cbn.
      * destruct (access_w os s1 (Pathlib.Path file_path)) eqn:Hf; cbn; [|discriminate].
        intros [= <-]. rewrite Hw, Hf. auto.
      * intros [= <-]. rewrite Hw, Hp. repeat split; auto. discriminate.
Qed.

(** An empty table is refused by both exports and by [export_result]
    before the file system is touched: no directory is created and nothing
    is written. *)
Theorem export_of_empty_table_touches_nothing (r : OperationResult) (format_type : string) :
  empty data = true ->
  export_to_csv os ExportService.__init__ s data file_path kwargs
  = ([], Raise (mk_exn Exception
                  "Failed to export CSV file: Cannot export empty DataFrame")) /\
  export_to_excel os ExportService.__init__ s data file_path kwargs
  = ([], Raise (mk_exn Exception
                  "Failed to export Excel file: Cannot export empty DataFrame")) /\
  (result_data r = data ->
   trace (export_result os ExportService.__init__ s r file_path format_type kwargs) = [] /\
   exists e, outcome (export_result os ExportService.__init__ s r file_path format_type kwargs)
             = Raise e).
Proof.
  intros Hempty.
  assert (Hc : export_to_csv os ExportService.__init__ s data file_path kwargs
               = ([], Raise (mk_exn Exception
                               "Failed to export CSV file: Cannot export empty DataFrame"))).
  { unfold export_to_csv, _validate_export_inputs. rewrite Hempty. reflexivity. }
  assert (Hx : export_to_excel os ExportService.__init__ s data file_path kwargs
               = ([], Raise (mk_exn Exception
                               "Failed to export Excel file: Cannot export empty DataFrame"))).
  { unfold export_to_excel, _validate_export_inputs. rewrite Hempty. reflexivity. }
  split; [exact Hc|]. split; [exact Hx|].
  intros Hr. unfold export_result. rewrite Hr, Hc, Hx.
  destruct (String.eqb (lower format_type) "csv"); [split; [reflexivity|eauto]|].
  destruct (String.eqb (lower format_type) "excel"); split; try reflexivity; eauto.
Qed.

(** The only write [export_to_csv] ever issues is one [to_csv] call, as
    its last action, with the caller's path and table; its keyword
    arguments are the caller's, with [index=False] and [encoding='utf-8']
    added where the caller gave none.  Everything before it is the creation
    of the parent directory, and a successful export always ends in that
    write. *)
Theorem export_to_csv_writes_once :
  let csv_kwargs := dict_merge [("index", "False"); ("encoding", "utf-8")] kwargs in
  let result := export_to_csv os ExportService.__init__ s data file_path kwargs in
  (forall key,
      dict_lookup key csv_kwargs
      = match dict_lookup key kwargs with
        | Some v => Some v
        | None => dict_lookup key [("index", "False"); ("encoding", "utf-8")]
        end) /\
  exists dirs writes,
    trace result = dirs ++ writes /\
    Forall (fun ev => ev = Mkdir (Pathlib.parent (Pathlib.Path file_path))) dirs /\
    (writes = [] \/ writes = [ToCsv file_path data csv_kwargs]) /\
    ((exists r, outcome result = Ok r) -> writes = [ToCsv file_path data csv_kwargs]).
Proof.
  intros csv_kwargs result. split; [intros key; apply dict_merge_lookup|].
  subst result. unfold export_to_csv.
  rewrite trace_try_except_raise, outcome_try_except.
  fold csv_kwargs.
  set (V := _validate_export_inputs os ExportService.__init__ s data file_path "csv").
  assert (HV : Forall (fun ev => ev = Mkdir (Pathlib.parent (Pathlib.Path file_path)))
                 (trace V)) by apply validate_export_inputs_trace.
  rewrite trace_bind, outcome_bind.
  destruct (outcome V) as [s1|e].
  2:{ exists (trace V), []. rewrite app_nil_r. repeat split; auto.
      intros [r Hr]. discriminate. }
  rewrite trace_bind, outcome_bind.
  unfold _ensure_directory_exists. rewrite trace_call, outcome_call.
  destruct (mkdir os s1 (Pathlib.parent (Pathlib.Path file_path))) as [s2 [e|]];
    cbn [fst snd].
  { exists (trace V ++ [Mkdir (Pathlib.parent (Pathlib.Path file_path))]), [].
    rewrite !app_nil_r. repeat split; auto.
    - apply Forall_app. split; [exact HV|repeat constructor].
    - intros [r Hr]. discriminate. }
  rewrite trace_bind, outcome_bind, trace_call, outcome_call.
  exists (trace V ++ [Mkdir (Pathlib.parent (Pathlib.Path file_path))]),
    [ToCsv file_path data csv_kwargs].
  split.
  { rewrite <- !app_assoc. f_equal. f_equal.
    destruct (to_csv os s2 data file_path csv_kwargs) as [s3 [e|]]; reflexivity. }
  split; [apply Forall_app; split; [exact HV|repeat constructor]|].
  split; auto.
Qed.

End ExportOutcomes.

Lemma validate_file_path_postcondition_witness :
  ExportService.access_w SampleFiles.open_fs []
    (Pathlib.parent (Pathlib.Path "out/result.csv")) = true /\
  (ExportService.path_exists SampleFiles.open_fs [] (Pathlib.Path "out/result.csv") = true ->
   ExportService.access_w SampleFiles.open_fs [] (Pathlib.Path "out/result.csv") = true) /\
  "out/result.csv" <> "" /\
  ([] = @nil string /\
   trace (ExportService.validate_file_path SampleFiles.open_fs ExportService.__init__ []
            "out/result.csv") = []).
Proof.
  apply (validate_file_path_postcondition SampleFiles.open_fs [] "out/result.csv" []
           eq_refl).
Defined.

Lemma export_of_empty_table_touches_nothing_witness :
  ExportService.export_to_csv ExportSpec.locked_fs ExportService.__init__ []
    ExportSpec.no_data "out/result.csv" []
  = ([], Raise (mk_exn Exception
                  "Failed to export CSV file: Cannot export empty DataFrame")).
Proof.
  apply (export_of_empty_table_touches_nothing ExportSpec.locked_fs []
           ExportSpec.no_data "out/result.csv" []
           (mk_result ExportSpec.no_data 0 0 "remove_matches" "") "csv" eq_refl).
Defined.

(** ** The error handler: counters, dialogs and categories *)

Section HandlerBehaviour.

Import ErrorHandler RetrySpec.

Variables (error : exn) (context : string).

(** The counter of a context counts consecutive failed retries only: when
    the user declines the prompt, or accepts it and the retry succeeds, the
    counter goes back to zero, so the next failure under this context is
    offered as attempt 1 again.  A declined prompt never runs the retry
    callback. *)
Theorem retry_counter_resets_on_success_and_on_decline
    (fuel : nat) (self : ErrorHandler.t) (w : World) (c : Z) :
  default 0%Z (retry_counts self !! context) = c ->
  (c < max_retries self)%Z ->
  answers w (asked w) = false \/ callback w (called w) = Returns true ->
  exists self' w',
    handle_error (S fuel) self w error context true true true
      = Some (self', w', answers w (asked w)) /\
    retry_counts self' !! context = Some 0%Z /\
    max_retries self' = max_retries self /\
    shown w' = shown w ++ [LogError error context;
                           retry_prompt self error context (c + 1)] /\
    asked w' = S (asked w) /\
    called w' = (if answers w (asked w) then S (called w) else called w).
Proof.
  intros Hc Hlt Hcase.
  cbn [handle_error].
  destruct (_categorize_error error) as [category severity] eqn:Hcat.
  unfold _show_error_dialog, _show_retry_dialog. cbn [andb].
  rewrite Hc. apply Z.leb_gt in Hlt. rewrite Hlt.
  unfold askyesno, call_retry, show. cbn.
  unfold retry_prompt, dialog_title, detailed_message. rewrite Hcat. cbn [snd].
  destruct (answers w (asked w)) eqn:Hans.
  - destruct Hcase as [Hno|Hok]; [discriminate|]. rewrite Hok.
    eexists _, _. split; [reflexivity|]. cbn.
    rewrite lookup_insert_eq, <- app_assoc. repeat split; reflexivity.
  - eexists _, _. split; [reflexivity|]. cbn.
    rewrite lookup_insert_eq, <- app_assoc. repeat split; reflexivity.
Qed.

(** Without a retry callback, or with retries not allowed, [handle_error]
    logs the error and shows exactly one message box, an error box or, for
    the two warning-level error types, a warning box; it asks nothing, runs
    nothing, leaves every retry counter as it was and returns [False].  No
    error is ever shown as mere information. *)
Theorem handle_error_without_retry_shows_one_box
    (fuel : nat) (self : ErrorHandler.t) (w : World) (allow_retry retry_callback : bool) :
  allow_retry && retry_callback = false ->
  snd (_categorize_error error) <> INFO /\
  handle_error (S fuel) self w error context true allow_retry retry_callback
  = Some (self,
          mk_world (answers w) (callback w) (asked w) (called w)
            (shown w ++ [LogError error context;
                         (match snd (_categorize_error error) with
                          | WARNING => ShowWarning
                          | _ => ShowError
                          end) (dialog_title error) (detailed_message self error context)]),
          false).
Proof.
  intros Hno. split.
  - unfold _categorize_error.
    repeat match goal with |- context [if ?b then _ else _] => destruct b end;
      cbn; discriminate.
  - cbn [handle_error].
    assert (Hinfo : snd (_categorize_error error) <> INFO).
    { unfold _categorize_error.
      repeat match goal with |- context [if ?b then _ else _] => destruct b end;
        cbn; discriminate. }
    unfold dialog_title, detailed_message.
    destruct (_categorize_error error) as [category severity]. cbn [snd] in *.
    unfold _show_error_dialog. rewrite Hno. unfold show.
    destruct severity; [congruence| | |]; cbn; rewrite <- app_assoc; reflexivity.
Qed.

(** [reset_retry_count] forgets the attempts made under a context and
    touches no other context: whatever the counter was, even at the cap, the
    next failure under that context is offered as attempt 1 again. *)
Theorem reset_retry_count_reopens_retries
    (fuel : nat) (self : ErrorHandler.t) (w : World) :
  (0 < max_retries self)%Z ->
  answers w (asked w) = true ->
  callback w (called w) = Returns false ->
  (forall other, other <> context ->
     retry_counts (reset_retry_count self context) !! other = retry_counts self !! other) /\
  retry_counts (reset_retry_count self context) !! context = None /\
  exists self' w',
    handle_error (S fuel) (reset_retry_count self context) w error context true true true
      = Some (self', w', false) /\
    shown w' = shown w ++ [LogError error context;
                           retry_prompt self error context 1] /\
    retry_counts self' !! context = Some 1%Z.
Proof.
  intros Hmax Hyes Hfail.
  split; [intros other Hne; unfold reset_retry_count; cbn; apply lookup_delete_ne; congruence|].
  assert (Hnone : retry_counts (reset_retry_count self context) !! context = None).
  { unfold reset_retry_count. cbn. apply lookup_delete_eq. }
  split; [exact Hnone|].
  rewrite (handle_error_below_cap error context fuel (reset_retry_count self context) w 0);
    [|rewrite Hnone; reflexivity|exact Hmax|exact Hyes|exact Hfail].
  eexists _, _. split; [reflexivity|]. cbn. rewrite <- app_assoc.
  split; [reflexivity|apply lookup_insert_eq].
Qed.

(** One call of [handle_error] whose retry callback does not raise asks
    at most one question and runs the callback at most once, and only after
    a yes; it changes no counter but that of its own context and never the
    cap. *)
Theorem handle_error_asks_and_retries_at_most_once
    (fuel : nat) (self : ErrorHandler.t) (w : World)
    (show_dialog allow_retry retry_callback : bool) :
  (exists truthy, callback w (called w) = Returns truthy) ->
  exists self' w' handled,
    handle_error (S fuel) self w error context show_dialog allow_retry retry_callback
      = Some (self', w', handled) /\
    (asked w' = asked w \/ asked w' = S (asked w)) /\
    (called w' = called w \/
     called w' = S (called w) /\ asked w' = S (asked w) /\ answers w (asked w) = true) /\
    (forall other, other <> context ->
       retry_counts self' !! other = retry_counts self !! other) /\
    max_retries self' = max_retries self.
Proof.
  intros [truthy Hcb].
  cbn [handle_error].
  destruct (_categorize_error error) as [category severity].
  destruct show_dialog; [|eexists _, _, _; split; [reflexivity|]; cbn; auto].
  unfold _show_error_dialog.
  destruct (allow_retry && retry_callback).
  - unfold _show_retry_dialog.
    destruct (max_retries self <=? default 0%Z (retry_counts self !! context))%Z.
    + eexists _, _, _. split; [reflexivity|]. cbn. auto.
    + unfold askyesno, call_retry, show. cbn.
      destruct (answers w (asked w)) eqn:Hans.
      * rewrite Hcb. destruct truthy.
        -- eexists _, _, _. split; [reflexivity|]. cbn.
           repeat split; auto.
           intros other Hne. rewrite !lookup_insert_ne by congruence. reflexivity.
        -- eexists _, _, _. split; [reflexivity|]. cbn.
           repeat split; auto.
           intros other Hne. rewrite !lookup_insert_ne by congruence. reflexivity.
      * eexists _, _, _. split; [reflexivity|]. cbn.
        repeat split; auto.
        intros other Hne. rewrite !lookup_insert_ne by congruence. reflexivity.
  - eexists _, _, _. split; [reflexivity|].
    destruct severity; cbn; auto.
Qed.

End HandlerBehaviour.

Lemma retry_counter_resets_on_success_and_on_decline_witness :
  exists self' w',
    ErrorHandler.handle_error 1 RetrySpec.plain_handler
      (ErrorHandler.mk_world (fun _ => false) (fun _ => ErrorHandler.Returns false) 0 0 [])
      (mk_exn ComparisonOperationError "comparison failed") "Error during comparison"
      true true true
    = Some (self', w', false) /\
    ErrorHandler.retry_counts self' !! "Error during comparison" = Some 0%Z /\
    ErrorHandler.max_retries self' = 3%Z /\
    ErrorHandler.shown w'
    = [ErrorHandler.LogError (mk_exn ComparisonOperationError "comparison failed")
         "Error during comparison";
       RetrySpec.retry_prompt RetrySpec.plain_handler
         (mk_exn ComparisonOperationError "comparison failed")
         "Error during comparison" 1] /\
    ErrorHandler.asked w' = 1%nat /\
    ErrorHandler.called w' = 0%nat.
Proof.
  apply (retry_counter_resets_on_success_and_on_decline
           (mk_exn ComparisonOperationError "comparison failed")
           "Error during comparison" 0 RetrySpec.plain_handler
           (ErrorHandler.mk_world (fun _ => false) (fun _ => ErrorHandler.Returns false)
              0 0 [])
           0 eq_refl eq_refl (or_introl eq_refl)).
Defined.

Lemma handle_error_without_retry_shows_one_box_witness :
  ErrorHandler.handle_error 1 RetrySpec.plain_handler RetrySpec.persistent_failure
    (mk_exn ValidationError "Please select both files") "Validation" true true false
  = Some (RetrySpec.plain_handler,
          ErrorHandler.mk_world (fun _ => true) (fun _ => ErrorHandler.Returns false) 0 0
            [ErrorHandler.LogError (mk_exn ValidationError "Please select both files")
               "Validation";
             ErrorHandler.ShowWarning "Warning"
               (RetrySpec.detailed_message RetrySpec.plain_handler
                  (mk_exn ValidationError "Please select both files") "Validation")],
          false).
Proof.
  apply (proj2 (handle_error_without_retry_shows_one_box
                  (mk_exn ValidationError "Please select both files") "Validation"
                  0 RetrySpec.plain_handler RetrySpec.persistent_failure true false
                  eq_refl)).
Defined.

Lemma reset_retry_count_reopens_retries_witness :
  exists self' w',
    ErrorHandler.handle_error 1
      (ErrorHandler.reset_retry_count
         (ErrorHandler.set_retry_count RetrySpec.plain_handler "Error during comparison" 3)
         "Error during comparison")
      RetrySpec.persistent_failure
      (mk_exn ComparisonOperationError "comparison failed") "Error during comparison"
      true true true
    = Some (self', w', false) /\
    ErrorHandler.shown w'
    = [ErrorHandler.LogError (mk_exn ComparisonOperationError "comparison failed")
         "Error during comparison";
       RetrySpec.retry_prompt RetrySpec.plain_handler
         (mk_exn ComparisonOperationError "comparison failed")
         "Error during comparison" 1] /\
    ErrorHandler.retry_counts self' !! "Error during comparison" = Some 1%Z.
Proof.
  apply (proj2 (proj2 (reset_retry_count_reopens_retries
                         (mk_exn ComparisonOperationError "comparison failed")
                         "Error during comparison" 0
                         (ErrorHandler.set_retry_count RetrySpec.plain_handler
                            "Error during comparison" 3)
                         RetrySpec.persistent_failure eq_refl eq_refl eq_refl))).
Defined.

Lemma handle_error_asks_and_retries_at_most_once_witness :
  exists self' w' handled,
    ErrorHandler.handle_error 1 RetrySpec.plain_handler RetrySpec.persistent_failure
      (mk_exn ComparisonOperationError "comparison failed") "Error during comparison"
      true true true
    = Some (self', w', handled) /\
    (ErrorHandler.asked w' = 0%nat \/ ErrorHandler.asked w' = 1%nat) /\
    (ErrorHandler.called w' = 0%nat \/
     ErrorHandler.called w' = 1%nat /\ ErrorHandler.asked w' = 1%nat /\ true = true) /\
    (forall other, other <> "Error during comparison" ->
       ErrorHandler.retry_counts self' !! other
       = ErrorHandler.retry_counts RetrySpec.plain_handler !! other) /\
    ErrorHandler.max_retries self' = 3%Z.
Proof.
  apply (handle_error_asks_and_retries_at_most_once
           (mk_exn ComparisonOperationError "comparison failed") "Error during comparison"
           0 RetrySpec.plain_handler RetrySpec.persistent_failure true true true
           (ex_intro _ false eq_refl)).
Defined.
(** ** The error handler: message and suggestion tables *)

Section MessageTables.

Import ErrorMessages.

(** The branch of [_get_recovery_suggestions] for a column that was not
    found can never be taken: it asks for [not found] in the message, which
    the first branch has already answered with the suggestions for a
    missing file.  No error, whatever its type and text, gets the
    column-not-found suggestions. *)
Theorem column_not_found_suggestions_are_never_given (error : ErrorMessages.error) :
  _get_recovery_suggestions error <> suggestion "column_not_found".
Proof.
  unfold _get_recovery_suggestions.
  destruct (isinstance (exc error) FileNotFoundError
            || contains "not found" (lower (exn_msg (exc error)))) eqn:E1.
  - intros H. vm_compute in H. discriminate H.
  - apply orb_false_elim in E1. destruct E1 as [_ Hnf]. rewrite Hnf, andb_false_r.
    repeat match goal with
           | |- context [if ?b then _ else _] => destruct b
           end;
      intros H; vm_compute in H; discriminate H.
Qed.

Lemma lower_app a b : lower (a +:+ b) = lower a +:+ lower b.
Proof.
  induction a as [|c a IH]; [reflexivity|].
  change (lower (String c (a +:+ b)) = String (lower_ascii c) (lower a +:+ lower b)).
  cbn [lower]. rewrite IH. reflexivity.
Qed.

Lemma contains_app_r needle a b :
  contains needle b = true -> contains needle (a +:+ b) = true.
Proof.
  intros H. induction a as [|c a IH]; [exact H|].
  change (contains needle (String c (a +:+ b)) = true).
  cbn [contains]. rewrite IH. apply orb_true_r.
Qed.

(** A comparison column that is missing from a file reaches the user as a
    missing file: the [ValueError] the comparison engine raises says
    [not found], so the handler's message is the one for a file that could
    not be found, with the file name [unknown], and the suggestions are
    those for a missing file. *)
Theorem missing_column_is_reported_as_missing_file
    (self : ComparisonEngine.t) (df1 df2 : DataFrame) (col1 col2 : string)
    (case_sensitive progress_callback : bool) (e : exn) (context : string) :
  has_column df1 col1 && has_column df2 col2 = false ->
  ComparisonEngine.cancelled self = false ->
  outcome (ComparisonEngine.remove_matches self df1 df2 col1 col2
             case_sensitive progress_callback) = Raise e ->
  _generate_user_message (plain e) context
  = "The file 'unknown' could not be found. Please check the file path and try again." /\
  _get_recovery_suggestions (plain e) = suggestion "file_not_found".
Proof.
  intros Hmissing Hrun He.
  assert (Hmsg : exn_cls e = ValueError /\
                 contains "not found" (lower (exn_msg e)) = true).
  { revert He. unfold ComparisonEngine.remove_matches,
      ComparisonEngine.validate_column_compatibility.
    rewrite Hrun. unfold has_column, column in *.
    destruct (col_index (df_columns df1) col1).
    - destruct (col_index (df_columns df2) col2); [discriminate|].
      cbn. intros [= <-]. split; [reflexivity|]. cbn [exn_msg].
      rewrite !lower_app. do 3 apply contains_app_r. reflexivity.
    - cbn. intros [= <-]. split; [reflexivity|]. cbn [exn_msg].
      rewrite !lower_app. do 3 apply contains_app_r. reflexivity. }
  destruct Hmsg as [Hcls Hnf]. destruct e as [c m]. cbn in Hcls. subst c.
  unfold _generate_user_message, _get_recovery_suggestions, plain. cbn [exc exn_msg].
  cbn [exn_msg] in Hnf. rewrite Hnf, !orb_true_r.
  split; reflexivity.
Qed.

Lemma missing_column_is_reported_as_missing_file_witness :
  _generate_user_message
    (plain (mk_exn ValueError
              "Column compatibility error: Column 'name' not found in second file"))
    "Error during comparison"
  = "The file 'unknown' could not be found. Please check the file path and try again." /\
  _get_recovery_suggestions
    (plain (mk_exn ValueError
              "Column compatibility error: Column 'name' not found in second file"))
  = suggestion "file_not_found".
Proof.
  apply (missing_column_is_reported_as_missing_file ComparisonEngine.__init__
           Samples.abc Samples.adce "key" "name" true false
           (mk_exn ValueError
              "Column compatibility error: Column 'name' not found in second file")
           "Error during comparison" eq_refl eq_refl eq_refl).
Defined.

End MessageTables.
(** ** The results panel: paging through a result *)

Section Paging.

Import ResultsPanel PanelSpec ResultsPanelReset.

Lemma update_table_display_idempotent (self : t) :
  _update_table_display (_update_table_display self) = _update_table_display self.
Proof.
  unfold _update_table_display.
  destruct (operation_result self) as [r|] eqn:Hr; [|rewrite Hr; reflexivity].
  destruct (empty (result_data r)) eqn:He.
  - cbn. rewrite Hr, He. reflexivity.
  - cbn. rewrite Hr, He. reflexivity.
Qed.

Lemma update_table_display_page (self : t) (p q : Z) :
  _update_table_display
    (mk (operation_result self) q (rows_per_page self) (total_pages self)
        (widgets (_update_table_display
                    (mk (operation_result self) p (rows_per_page self) (total_pages self)
                        (widgets self)))))
  = _update_table_display
      (mk (operation_result self) q (rows_per_page self) (total_pages self) (widgets self)).
Proof.
  unfold _update_table_display. cbn [operation_result].
  destruct (operation_result self) as [r|]; [|reflexivity].
  destruct (empty (result_data r)) eqn:He; reflexivity.
Qed.

Lemma update_table_display_fields (self : t) :
  operation_result (_update_table_display self) = operation_result self /\
  current_page (_update_table_display self) = current_page self /\
  rows_per_page (_update_table_display self) = rows_per_page self /\
  total_pages (_update_table_display self) = total_pages self.
Proof.
  unfold _update_table_display.
  destruct (operation_result self) as [r|] eqn:Hr; [|auto].
  destruct (empty (result_data r)); cbn; auto.
Qed.

Lemma update_table_display_flags (self : t) (e : button_state) (l : bool) :
  let flags s :=
    set_widgets s
      (mk_widgets (operation_var (widgets s)) (original_count_var (widgets s))
         (result_count_var (widgets s)) (summary_var (widgets s))
         (page_info_var (widgets s)) (rows_per_page_var (widgets s))
         (tree_columns (widgets s)) (tree_rows (widgets s))
         (prev_button (widgets s)) (next_button (widgets s)) e l
         (export_status_var (widgets s))) in
  _update_table_display (flags self) = flags (_update_table_display self).
Proof.
  intros flags. unfold flags, _update_table_display.
  destruct self as [o p k tp w]. destruct o as [r|]; [|reflexivity].
  cbn [operation_result set_widgets].
  destruct (empty (result_data r)); reflexivity.
Qed.

(** A panel is settled when rendering it again changes nothing. *)
Lemma display_results_settled (self : t) (r : OperationResult) :
  _update_table_display (display_results self r) = display_results self r.
Proof.
  unfold display_results. cbv zeta.
  rewrite (update_table_display_flags _ normal false). cbv zeta.
  rewrite update_table_display_idempotent. reflexivity.
Qed.

Lemma next_page_settled (self : t) :
  _update_table_display self = self ->
  _update_table_display (_next_page self) = _next_page self.
Proof.
  intros H. unfold _next_page.
  destruct (current_page self <? total_pages self - 1)%Z; [|exact H].
  apply update_table_display_idempotent.
Qed.

Lemma previous_page_settled (self : t) :
  _update_table_display self = self ->
  _update_table_display (_previous_page self) = _previous_page self.
Proof.
  intros H. unfold _previous_page.
  destruct (0 <? current_page self)%Z; [|exact H].
  apply update_table_display_idempotent.
Qed.

Lemma select_rows_per_page_settled (self : t) (choice : string) :
  _update_table_display self = self ->
  _update_table_display (select_rows_per_page self choice)
  = select_rows_per_page self choice.
Proof.
  intros H. rewrite <- H at 2. unfold _update_table_display, select_rows_per_page.
  cbn. destruct (operation_result self) as [r|]; [|reflexivity].
  destruct (empty (result_data r)); reflexivity.
Qed.

Lemma step_settled (self : t) (a : action) :
  _update_table_display self = self ->
  _update_table_display (step self a) = step self a.
Proof.
  intros H. destruct a as [| |c]; cbn [step].
  - apply next_page_settled, H.
  - apply previous_page_settled, H.
  - destruct (py_int_choice c) as (v & Hv & Hpos).
    unfold _on_rows_per_page_changed, select_rows_per_page.
    cbn [widgets set_widgets rows_per_page_var rows_per_page operation_result].
    rewrite Hv.
    destruct (v =? rows_per_page self)%Z eqn:E; cbn [negb].
    + apply (select_rows_per_page_settled self (choice_text c) H).
    + destruct (operation_result self) as [r|] eqn:Hr.
      * replace (v =? 0)%Z with false by (symmetry; apply Z.eqb_neq; lia).
        apply update_table_display_idempotent.
      * unfold _update_table_display. cbn [operation_result]. reflexivity.
Qed.

Lemma run_settled (actions : list action) (self : t) :
  _update_table_display self = self ->
  _update_table_display (run actions self) = run actions self.
Proof.
  revert self. induction actions as [|a actions IH]; intros self H; [exact H|].
  apply IH, step_settled, H.
Qed.

Lemma eta (self : t) :
  mk (operation_result self) (current_page self) (rows_per_page self) (total_pages self)
     (widgets self) = self.
Proof. destruct self. reflexivity. Qed.

Lemma next_previous_settled (self : t) :
  _update_table_display self = self ->
  (current_page self < total_pages self - 1)%Z ->
  (0 <= current_page self)%Z ->
  _previous_page (_next_page self) = self.
Proof.
  intros Hs Hlt Hge. unfold _next_page.
  replace (current_page self <? total_pages self - 1)%Z with true
    by (symmetry; apply Z.ltb_lt; lia).
  unfold _previous_page.
  destruct (update_table_display_fields
              (mk (operation_result self) (current_page self + 1) (rows_per_page self)
                  (total_pages self) (widgets self))) as (F1 & F2 & F3 & F4).
  rewrite F1, F2, F3, F4. cbn [operation_result current_page rows_per_page total_pages].
  replace (0 <? current_page self + 1)%Z with true by (symmetry; apply Z.ltb_lt; lia).
  replace (current_page self + 1 - 1)%Z with (current_page self) by lia.
  rewrite update_table_display_page, eta. exact Hs.
Qed.

Lemma previous_next_settled (self : t) :
  _update_table_display self = self ->
  (0 < current_page self)%Z ->
  (current_page self < total_pages self)%Z ->
  _next_page (_previous_page self) = self.
Proof.
  intros Hs Hgt Hlt. unfold _previous_page.
  replace (0 <? current_page self)%Z with true by (symmetry; apply Z.ltb_lt; lia).
  unfold _next_page.
  destruct (update_table_display_fields
              (mk (operation_result self) (current_page self - 1) (rows_per_page self)
                  (total_pages self) (widgets self))) as (F1 & F2 & F3 & F4).
  rewrite F1, F2, F3, F4. cbn [operation_result current_page rows_per_page total_pages].
  replace (current_page self - 1 <? total_pages self - 1)%Z with true
    by (symmetry; apply Z.ltb_lt; lia).
  replace (current_page self - 1 + 1)%Z with (current_page self) by lia.
  rewrite update_table_display_page, eta. exact Hs.
Qed.

(** On a displayed result, after any use of the page buttons and of the
    rows-per-page selector: Next followed by Previous brings back exactly
    the panel there was, table, caption and buttons included, unless the
    panel is on its last page; and so does Previous followed by Next,
    unless it is on its first page. *)
Theorem next_then_previous_returns
    (self : ResultsPanel.t) (r : OperationResult) (actions : list action) :
  (0 < rows_per_page self)%Z ->
  df_columns (result_data r) <> [] ->
  let shown := run actions (display_results self r) in
  ((current_page shown < total_pages shown - 1)%Z ->
   _previous_page (_next_page shown) = shown) /\
  ((0 < current_page shown)%Z ->
   _next_page (_previous_page shown) = shown).
Proof.
  intros Hk Hcols shown.
  assert (Hs : _update_table_display shown = shown)
    by apply run_settled, display_results_settled.
  pose proof (run_shows r Hcols actions _ (display_results_shows r Hcols self Hk))
    as (_ & _ & _ & Hp & _).
  fold shown in Hp. split; intros H.
  - apply next_previous_settled; [exact Hs|exact H|lia].
  - apply previous_next_settled; [exact Hs|exact H|lia].
Qed.

Lemma next_then_previous_returns_witness :
  let shown := run [Next] (display_results ResultsPanel.__init__ result_250) in
  _previous_page (_next_page shown) = shown /\ _next_page (_previous_page shown) = shown.
Proof.
  destruct (next_then_previous_returns ResultsPanel.__init__ result_250 [Next]
              eq_refl ltac:(discriminate)) as [H1 H2].
  split; [apply H1|apply H2]; reflexivity.
Defined.

End Paging.
Section PagesCover.
Import ResultsPanel PanelSpec ResultsPanelReset.

Lemma firstn_plus {A} (n m : nat) (l : list A) :
  firstn (n + m) l = firstn n l ++ firstn m (skipn n l).
Proof.
  revert l. induction n as [|n IH]; intros l; [reflexivity|].
  destruct l as [|x l]; cbn; [destruct m; reflexivity|]. f_equal. apply IH.
Qed.

Lemma slices_concat {A} (K m : nat) (l : list A) :
  List.concat (map (fun i => firstn K (skipn (i * K) l)) (seq 0 m)) = firstn (m * K) l.
Proof.
  induction m as [|m IH]; [reflexivity|].
  rewrite seq_S, map_app, concat_app, IH. cbn [map List.concat Nat.add].
  rewrite app_nil_r. replace (S m * K)%nat with (m * K + K)%nat by lia.
  symmetry. apply firstn_plus.
Qed.

Lemma page_rows_slice {A} (k : Z) (i : nat) (l : list A) :
  (0 < k)%Z ->
  rows_between (Z.of_nat i * k + 1) (Z.min ((Z.of_nat i + 1) * k) (Z.of_nat (List.length l))) l
  = firstn (Z.to_nat k) (skipn (i * Z.to_nat k) l).
Proof.
  intros Hk. unfold rows_between.
  replace (Z.to_nat (Z.of_nat i * k + 1 - 1)) with (i * Z.to_nat k)%nat by nia.
  set (rest := skipn (i * Z.to_nat k) l).
  assert (Hrest : List.length rest = (List.length l - i * Z.to_nat k)%nat)
    by apply length_skipn.
  destruct (Z.le_gt_cases ((Z.of_nat i + 1) * k) (Z.of_nat (List.length l))) as [Hle|Hgt].
  - rewrite Z.min_l by lia. f_equal. lia.
  - rewrite Z.min_r by lia.
    rewrite !firstn_all2; [reflexivity|nia|nia].
Qed.

Lemma iter_next_page_shows (r : OperationResult) (first : t) (i : nat) :
  df_columns (result_data r) <> [] ->
  shows_current_page r first -> current_page first = 0%Z ->
  (Z.of_nat i < total_pages first)%Z ->
  let s := Nat.iter i _next_page first in
  shows_current_page r s /\ current_page s = Z.of_nat i /\
  rows_per_page s = rows_per_page first /\ total_pages s = total_pages first.
Proof.
  intros Hcols Hf H0. induction i as [|i IH]; intros Hi s.
  - subst s. cbn. auto.
  - destruct (IH ltac:(lia)) as (Hs & Hp & Hk & Ht).
    subst s. rewrite Nat.iter_succ. set (s := Nat.iter i _next_page first) in *.
    split; [apply (next_page_shows r Hcols), Hs|].
    unfold _next_page. rewrite Hp, Ht.
    replace (Z.of_nat i <? total_pages first - 1)%Z with true
      by (symmetry; apply Z.ltb_lt; lia).
    destruct (update_table_display_fields
                (mk (operation_result s) (Z.of_nat i + 1) (rows_per_page s)
                    (total_pages first) (widgets s))) as (_ & F2 & F3 & F4).
    rewrite F2, F3, F4. cbn. split; [lia|]. split; [exact Hk|reflexivity].
Qed.

(** The pages of a displayed result, read one after the other with the
    Next button from the first to the last, are together exactly the rows
    of the result, rendered, in their order: no row is skipped and none is
    shown twice. *)
Theorem pages_cover_the_result (self : ResultsPanel.t) (r : OperationResult) :
  (0 < rows_per_page self)%Z ->
  df_columns (result_data r) <> [] ->
  let first := display_results self r in
  List.concat (map (page_table first) (seq 0 (Z.to_nat (total_pages first))))
  = map (render_row (df_columns (result_data r))) (df_rows (result_data r)).
Proof.
  intros Hk Hcols first.
  pose proof (display_results_shows r Hcols self Hk) as Hf. fold first in Hf.
  assert (H0 : current_page first = 0%Z).
  { unfold first, display_results, set_widgets. cbn [current_page].
    apply update_table_display_fields. }
  assert (Hk' : rows_per_page first = rows_per_page self).
  { unfold first, display_results, set_widgets. cbn [rows_per_page].
    etransitivity; [apply update_table_display_fields|reflexivity]. }
  pose proof Hf as (_ & _ & Ht & _).
  set (rows := df_rows (result_data r)) in *.
  set (k := rows_per_page self) in *.
  rewrite (map_ext_in _ (fun i => map (render_row (df_columns (result_data r)))
                                   (firstn (Z.to_nat k) (skipn (i * Z.to_nat k) rows)))).
  - rewrite <- (map_map (fun i => firstn (Z.to_nat k) (skipn (i * Z.to_nat k) rows))
                        (map (render_row (df_columns (result_data r))))).
    rewrite <- concat_map, slices_concat. f_equal.
    apply firstn_all2. rewrite Ht, Hk'. fold k.
    change (len (result_data r)) with (Z.of_nat (List.length rows)).
    set (c := ceil_div (Z.of_nat (List.length rows)) k).
    assert (Hc : (c * k <= Z.max 1 c * k)%Z) by (apply Z.mul_le_mono_nonneg_r; lia).
    assert (Hm : (0 <= Z.max 1 c * k)%Z) by (apply Z.mul_nonneg_nonneg; lia).
    apply Nat2Z.inj_le. rewrite Nat2Z.inj_mul, !Z2Nat.id by lia.
    destruct (ceil_div_bounds (Z.of_nat (List.length rows)) k ltac:(lia) Hk)
      as [[Hb _]|[Hb _]]; fold c in Hb;
      [exact (Z.le_trans _ _ _ Hb Hc)|exact (Z.le_trans _ _ _ (Z.eq_le_incl _ _ Hb) Hm)].
  - intros i Hi. apply in_seq in Hi.
    assert (Hlt : (Z.of_nat i < total_pages first)%Z) by lia.
    destruct (iter_next_page_shows r first i Hcols Hf H0 Hlt) as (Hs & Hp & Hkk & _).
    unfold page_table. destruct Hs as (_ & _ & _ & _ & Hrows & _).
    rewrite Hrows, Hp, Hkk, Hk'. fold k. f_equal.
    apply (page_rows_slice k i rows Hk).
Qed.

Lemma pages_cover_the_result_witness :
  let first := display_results ResultsPanel.__init__ result_250 in
  List.concat (map (page_table first) (seq 0 (Z.to_nat (total_pages first))))
  = map (render_row (df_columns (result_data result_250)))
        (df_rows (result_data result_250)).
Proof.
  apply (pages_cover_the_result ResultsPanel.__init__ result_250 eq_refl
           ltac:(discriminate)).
Defined.

Lemma update_table_display_summary_vars (self : t) :
  operation_var (widgets (_update_table_display self)) = operation_var (widgets self) /\
  export_button (widgets (_update_table_display self)) = export_button (widgets self).
Proof.
  unfold _update_table_display.
  destruct (operation_result self) as [r|]; [|auto].
  destruct (empty (result_data r)); cbn; auto.
Qed.

Lemma display_results_operation_var (self : t) (r : OperationResult) :
  operation_var (widgets (display_results self r)) = operation_display (operation_type r).
Proof.
  unfold display_results. cbv zeta. cbn [set_widgets widgets operation_var].
  etransitivity; [apply update_table_display_summary_vars|]. reflexivity.
Qed.

Lemma engine_operation_types (self : ComparisonEngine.t) (df1 df2 : DataFrame)
    (col1 col2 : string) (cs cb : bool) (res : OperationResult) :
  (outcome (ComparisonEngine.remove_matches self df1 df2 col1 col2 cs cb) = Ok res ->
   operation_type res = "remove_matches") /\
  (outcome (ComparisonEngine.keep_only_matches self df1 df2 col1 col2 cs cb) = Ok res ->
   operation_type res = "keep_only_matches") /\
  (outcome (ComparisonEngine.find_common_values self df1 df2 col1 col2 cs cb) = Ok res ->
   operation_type res = "find_common_values") /\
  (outcome (ComparisonEngine.find_unique_values self df1 df2 col1 col2 cs cb) = Ok res ->
   operation_type res = "find_unique_values").
Proof.
  unfold ComparisonEngine.remove_matches, ComparisonEngine.keep_only_matches,
    ComparisonEngine.find_common_values, ComparisonEngine.find_unique_values.
  destruct (ComparisonEngine.validate_column_compatibility self df1 df2 col1 col2)
    as [ok msg].
  repeat split; intros H.
  1,2: destruct (ComparisonEngine.cancelled self); [discriminate H|].
  all: destruct ok; cbn [negb] in H; [|discriminate H].
  1,2: apply bind_ok_inv in H as (d & _ & H); cbn in H; injection H as <-; reflexivity.
  all: apply bind_ok_inv in H as ([v1 v2] & _ & H);
    apply bind_ok_inv in H as (d1 & _ & H);
    apply bind_ok_inv in H as (d2 & _ & H);
    apply bind_ok_inv in H as (d & _ & H); cbn in H; injection H as <-; reflexivity.
Qed.

(** Whatever the comparison engine returns, the results panel shows the
    operation as [Remove Matches] for [remove_matches] only: the names the
    engine gives to the other three operations are not the ones the panel
    translates, so their results are displayed under the engine's own
    [keep_only_matches], [find_common_values] and [find_unique_values]. *)
Theorem panel_translates_only_remove_matches
    (self : ComparisonEngine.t) (panel : ResultsPanel.t) (df1 df2 : DataFrame)
    (col1 col2 : string) (case_sensitive progress_callback : bool)
    (res : OperationResult) :
  let shown := operation_var (widgets (display_results panel res)) in
  (outcome (ComparisonEngine.remove_matches self df1 df2 col1 col2
              case_sensitive progress_callback) = Ok res ->
   shown = "Remove Matches") /\
  (outcome (ComparisonEngine.keep_only_matches self df1 df2 col1 col2
              case_sensitive progress_callback) = Ok res ->
   shown = "keep_only_matches") /\
  (outcome (ComparisonEngine.find_common_values self df1 df2 col1 col2
              case_sensitive progress_callback) = Ok res ->
   shown = "find_common_values") /\
  (outcome (ComparisonEngine.find_unique_values self df1 df2 col1 col2
              case_sensitive progress_callback) = Ok res ->
   shown = "find_unique_values").
Proof.
  intros shown. subst shown. rewrite display_results_operation_var.
  destruct (engine_operation_types self df1 df2 col1 col2 case_sensitive
              progress_callback res) as (H1 & H2 & H3 & H4).
  repeat split; intros H; [rewrite (H1 H)|rewrite (H2 H)|rewrite (H3 H)|rewrite (H4 H)];
    reflexivity.
Qed.

Lemma panel_translates_only_remove_matches_witness :
  exists kept common,
    outcome (ComparisonEngine.keep_only_matches ComparisonEngine.__init__
               Samples.abc Samples.adce "key" "key" true false) = Ok kept /\
    outcome (ComparisonEngine.find_common_values ComparisonEngine.__init__
               Samples.abc Samples.adce "key" "key" true false) = Ok common /\
    operation_var (widgets (display_results ResultsPanel.__init__ kept))
    = "keep_only_matches" /\
    operation_var (widgets (display_results ResultsPanel.__init__ common))
    = "find_common_values".
Proof.
  eexists _, _. split; [vm_compute; reflexivity|]. split; [vm_compute; reflexivity|].
  split.
  - apply (panel_translates_only_remove_matches ComparisonEngine.__init__
             ResultsPanel.__init__ Samples.abc Samples.adce "key" "key" true false).
    vm_compute; reflexivity.
  - apply (panel_translates_only_remove_matches ComparisonEngine.__init__
             ResultsPanel.__init__ Samples.abc Samples.adce "key" "key" true false).
    vm_compute; reflexivity.
Defined.

(** A result without rows is displayed with an empty table under the
    column headings that were in the table before, the caption
    [No data to display], one page, both page buttons disabled, and the
    export button enabled. *)
Theorem empty_result_keeps_previous_columns (self : ResultsPanel.t) (r : OperationResult) :
  (0 < rows_per_page self)%Z ->
  df_rows (result_data r) = [] ->
  let shown := display_results self r in
  tree_columns (widgets shown) = tree_columns (widgets self) /\
  tree_rows (widgets shown) = [] /\
  page_info_var (widgets shown) = "No data to display" /\
  total_pages shown = 1%Z /\
  prev_button (widgets shown) = disabled /\
  next_button (widgets shown) = disabled /\
  export_button (widgets shown) = normal.
Proof.
  intros Hk Hrows shown. subst shown.
  assert (Hlen : len (result_data r) = 0%Z) by (unfold len; rewrite Hrows; reflexivity).
  assert (Hempty : empty (result_data r) = true)
    by (unfold empty; rewrite Hrows; reflexivity).
  assert (Hd : ((0 + rows_per_page self - 1) / rows_per_page self = 0)%Z)
    by (apply Z.div_small; lia).
  unfold display_results, _update_summary, _update_table_display. cbv zeta.
  cbn [operation_result current_page rows_per_page total_pages widgets set_widgets].
  rewrite Hempty, Hlen, Hd.
  cbn. repeat split; reflexivity.
Qed.

Lemma empty_result_keeps_previous_columns_witness :
  let previous := display_results ResultsPanel.__init__ result_250 in
  let shown :=
    display_results previous
      (mk_result (mk_df [("key", "object")] []) 4 0 "keep_only_matches" "") in
  tree_columns (widgets shown) = tree_columns (widgets previous) /\
  tree_rows (widgets shown) = [] /\
  page_info_var (widgets shown) = "No data to display" /\
  total_pages shown = 1%Z /\
  prev_button (widgets shown) = disabled /\
  next_button (widgets shown) = disabled /\
  export_button (widgets shown) = normal.
Proof.
  apply (empty_result_keeps_previous_columns
           (display_results ResultsPanel.__init__ result_250)
           (mk_result (mk_df [("key", "object")] []) 4 0 "keep_only_matches" "")
           eq_refl eq_refl).
Defined.

(** Displaying a result that has rows overwrites whatever the panel
    showed, with two exceptions: the rows-per-page setting is carried over,
    and so is the export status line, which [clear_results] blanks and
    [display_results] does not touch.  Apart from that line, the panel is
    the one obtained by clearing it first. *)
Theorem display_results_overwrites_previous (self : ResultsPanel.t) (r : OperationResult) :
  empty (result_data r) = false ->
  display_results self r
  = with_export_status (display_results (clear_results self) r)
                       (export_status_var (widgets self)) /\
  export_status_var (widgets (display_results (clear_results self) r)) = "".
Proof.
  intros He.
  cbv beta iota zeta delta
    [display_results clear_results with_export_status _update_summary
     _update_table_display _update_pagination_buttons set_table set_widgets
     start_idx end_idx
     operation_result current_page rows_per_page total_pages widgets
     operation_var original_count_var result_count_var summary_var page_info_var
     rows_per_page_var tree_columns tree_rows prev_button next_button export_button
     empty_state_label_shown export_status_var].
  rewrite He. split; reflexivity.
Qed.

Lemma display_results_overwrites_previous_witness :
  let previous :=
    with_export_status
      (run [Next; RowsPerPage R50] (display_results ResultsPanel.__init__ result_250))
      "Successfully exported to results.csv" in
  let r := mk_result Samples.adce 4 4 "find_unique_values" "Found" in
  display_results previous r
  = with_export_status (display_results (clear_results previous) r)
                       "Successfully exported to results.csv" /\
  export_status_var (widgets (display_results (clear_results previous) r)) = "".
Proof.
  apply (display_results_overwrites_previous
           (with_export_status
              (run [Next; RowsPerPage R50]
                 (display_results ResultsPanel.__init__ result_250))
              "Successfully exported to results.csv")
           (mk_result Samples.adce 4 4 "find_unique_values" "Found") eq_refl).
Defined.

End PagesCover.
